(** * MeshCNN network composition (models/networks.py)

    A shallow embedding of the architecture layer of the repository: the
    construction ([__init__]) and evaluation ([forward]) of the down/up
    convolution stages, the encoder, the decoder and the classifier
    networks, together with the small helper functions of the module.

    The tensor library and the mesh layers ([MeshConv], [MeshPool],
    [MeshUnpool], [MeshAttention], the [torch.nn] layers) are not part of
    the module; they enter as parameters of a section.  Python exceptions
    are values of [PyError]; a construction is a computation in the error
    monad [result], a forward pass is a computation in the monad [M] that
    threads the meshes (which pooling and unpooling mutate) and may fail.

    Conventions.  Integers are [Z], Python lists are [list], an argument
    that may be None is an [option].  A layer object is true in a condition
    ([if self.pool:]), a list or ModuleList is true when it is not empty.
    Assertions are enabled.  The weights of the layers and their
    initialisation ([reset_params], [init_weights], [init_net]) and the
    learning-rate schedulers carry no structure and are left out; the
    dropout rate is a float that is only passed on to the attention layer. *)

From Stdlib Require Import String ZArith List Bool Lia.
From Stdlib Require PrimFloat.
Import ListNotations.
Local Open Scope Z_scope.

Set Implicit Arguments.

(** ** Python exceptions and the error monad *)

Inductive PyError : Type :=
| AssertionError (msg : string)
| NotImplementedError (msg : string)
| UnboundLocalError (var : string)
| TypeError (msg : string)
| AttributeError (attr : string)
| IndexError
| ZeroDivisionError
| OverflowError (msg : string)
| ValueError (msg : string)
| RuntimeError (msg : string).

Inductive result (A : Type) : Type :=
| Ok (a : A)
| Err (e : PyError).
Arguments Ok {A} a.
Arguments Err {A} e.

Definition rbind {A B : Type} (c : result A) (k : A -> result B) : result B :=
  match c with
  | Ok a => k a
  | Err e => Err e
  end.

Declare Scope result_scope.
Delimit Scope result_scope with res.
Notation "x <- c ;; k" := (rbind c (fun x => k))
  (at level 61, c at next level, right associativity) : result_scope.
Notation "' pat <- c ;; k" := (rbind c (fun x => match x with pat => k end))
  (at level 61, pat pattern, c at next level, right associativity) : result_scope.

Definition is_ok {A : Type} (r : result A) : bool :=
  match r with Ok _ => true | Err _ => false end.

(** ** Python lists *)

Definition len {A : Type} (l : list A) : Z := Z.of_nat (length l).

(** [l[i]] with Python's negative indices. *)
Definition py_index {A : Type} (l : list A) (i : Z) : result A :=
  let j := if i <? 0 then len l + i else i in
  if j <? 0 then Err IndexError
  else match nth_error l (Z.to_nat j) with
       | Some a => Ok a
       | None => Err IndexError
       end.

(** [l[:-1]] *)
Definition py_init {A : Type} (l : list A) : list A := removelast l.

(** [l[1:]] *)
Definition py_tail {A : Type} (l : list A) : list A := tl l.

(** [range(n)] as the list of its indices. *)
Definition py_range (n : Z) : list Z := map Z.of_nat (seq 0 (Z.to_nat n)).

(** [for x in l: acc = body(x, acc)] in the error monad. *)
Fixpoint rfold {A S : Type} (body : A -> S -> result S) (l : list A) (acc : S)
  : result S :=
  match l with
  | [] => Ok acc
  | x :: rest => rbind (body x acc) (rfold body rest)
  end.

(** Truth value of a flag that may be [None], [False] or [True]. *)
Definition truthy (b : option bool) : bool :=
  match b with Some true => true | _ => false end.

(** *** True division of integers

    [a / b] on integers is the float (IEEE binary64) nearest to the
    quotient, ties going to the even mantissa.  It raises when [b] is zero,
    and when that float is out of range. *)

(** [floor(log2(a / b))] for [a, b > 0]: the difference of the bit
    lengths, or one less. *)
Definition quotient_log2 (a b : Z) : Z :=
  let k := Z.log2 a - Z.log2 b in
  if Z.shiftl a (Z.max 0 (- k)) <? Z.shiftl b (Z.max 0 k) then k - 1 else k.

(** The float nearest to [a / b] for [a >= 0] and [b > 0], as the pair
    [(m, e)] that stands for [m * 2^e]: a mantissa [m] of at most 53 bits
    (or [2^53], when rounding carries) and an exponent [e] of at least
    [-1074], the exponent of the subnormal floats. *)
Definition nearest_float (a b : Z) : Z * Z :=
  let e := Z.max (quotient_log2 a b - 52) (-1074) in
  let num := Z.shiftl a (Z.max 0 (- e)) in
  let den := Z.shiftl b (Z.max 0 e) in
  let m := num / den in
  let r := num mod den in
  let up := (den <? 2 * r) || ((den =? 2 * r) && Z.odd m) in
  (if up then m + 1 else m, e).

Definition overflow_msg : string :=
  "integer division result too large for a float".

(** [int(a / b)] on integers: true division, which gives a float, then
    truncation toward zero.  The float is out of range from [2^1024] on. *)
Definition py_int_div (a b : Z) : result Z :=
  if b =? 0 then Err ZeroDivisionError
  else
    let '(m, e) := nearest_float (Z.abs a) (Z.abs b) in
    if 1024 <=? Z.log2 m + e
    then Err (OverflowError overflow_msg)
    else Ok (Z.sgn a * Z.sgn b * Z.shiftl m e).

(** ** Layer declarations

    The layers of the tensor library and of [models.layers] are declared by
    their constructor arguments.  A layer object is the record of the
    arguments it was built with. *)

(** [MeshConv(in_channels, out_channels, bias=...)]; [mc_bias = None] when
    the argument is left to the layer's default. *)
Record MeshConv : Type := mkMeshConv
  { mc_in_channels : Z; mc_out_channels : Z; mc_bias : option bool }.

Record MeshPool : Type := mkMeshPool { mp_target : Z }.

Record MeshUnpool : Type := mkMeshUnpool { mu_target : Z }.

Record MeshAttention : Type := mkMeshAttention
  { ma_n_head : Z;
    ma_d_model : Z;
    ma_d_k : Z;
    ma_d_v : Z;
    ma_attn_max_dist : option Z;
    ma_dropout : option PrimFloat.float;
    ma_use_values_as_is : option bool;
    ma_use_positional_encoding : option bool;
    ma_max_relative_position : option Z }.

Record InstanceNorm2d : Type := mkInstanceNorm2d { in2_features : Z }.
Record InstanceNorm1d : Type := mkInstanceNorm1d { in1_features : Z }.
Record BatchNorm2d : Type := mkBatchNorm2d { bn2_features : Z }.
Record Linear : Type := mkLinear { lin_in : Z; lin_out : Z }.

(** [nn.MaxPool1d(k)] / [nn.AvgPool1d(k)] *)
Inductive GlobalPool : Type :=
| MaxPool1d (kernel : Z)
| AvgPool1d (kernel : Z).

(** What [get_norm_layer] returns: a partial application of a torch
    normalisation class, or the class [NoNorm]. *)
Inductive NormFactory : Type :=
| PartialBatchNorm2d
| PartialInstanceNorm2d
| PartialGroupNorm (num_groups : Z)
| NoNormClass.

(** Keyword arguments built by [get_norm_args]. *)
Inductive NormArgs : Type :=
| ArgFake
| ArgNumChannels (f : Z)
| ArgNumFeatures (f : Z).

(** A normalisation layer instantiated by calling the factory on its keyword
    arguments [norm_args[i]]. *)
Record NormLayer : Type := mkNormLayer
  { nl_factory : NormFactory; nl_args : NormArgs }.

(** Every constructor call the module makes into the layer libraries. *)
Inductive LayerCtor : Type :=
| NewMeshConv (c : MeshConv)
| NewMeshPool (p : MeshPool)
| NewMeshUnpool (u : MeshUnpool)
| NewMeshAttention (a : MeshAttention)
| NewInstanceNorm2d (n : InstanceNorm2d)
| NewInstanceNorm1d (n : InstanceNorm1d)
| NewBatchNorm2d (n : BatchNorm2d)
| NewLinear (l : Linear)
| NewGlobalPool (g : GlobalPool)
| NewNormLayer (n : NormLayer).

(** ** The tensor backend

    [ctor_error] tells which exception, if any, a layer constructor raises
    for given arguments.  The mesh layers read and update the meshes; the
    plain tensor operations do not see them.  [relu] and [detach] are total
    on tensors; the other operations may raise (shape errors). *)
Record Backend : Type := mkBackend
  { Tensor : Type;
    Meshes : Type;
    DistMatrices : Type;
    ctor_error : LayerCtor -> option PyError;
    MeshConv_call : MeshConv -> Tensor -> Meshes -> result (Tensor * Meshes);
    (* pool(x, meshes) and pool(x, meshes, edge_priorities); the priorities
       are [None] when not given or given as None *)
    MeshPool_call :
      MeshPool -> Tensor -> option Tensor -> Meshes -> result (Tensor * Meshes);
    MeshUnpool_call : MeshUnpool -> Tensor -> Meshes -> result (Tensor * Meshes);
    (* attention(x, meshes[, dist_matrices]) returns
       (x, attn, attn_per_edge, dist_matrices) *)
    MeshAttention_call :
      MeshAttention -> Tensor -> option DistMatrices -> Meshes ->
      result ((Tensor * Tensor * Tensor * DistMatrices) * Meshes);
    InstanceNorm2d_call : InstanceNorm2d -> Tensor -> result Tensor;
    InstanceNorm1d_call : InstanceNorm1d -> Tensor -> result Tensor;
    Linear_call : Linear -> Tensor -> result Tensor;
    GlobalPool_call : GlobalPool -> Tensor -> result Tensor;
    relu : Tensor -> Tensor;
    detach : Tensor -> Tensor;
    tensor_add : Tensor -> Tensor -> result Tensor;
    squeeze : Z -> Tensor -> result Tensor;
    unsqueeze : Z -> Tensor -> result Tensor;
    (* fe.contiguous().view(fe.size()[0], -1) *)
    flatten_batch : Tensor -> result Tensor;
    (* torch.cat((a, b), dim) on two tensors *)
    cat_tensors : Tensor -> Tensor -> Z -> result Tensor }.

(** ** Helper functions of the module *)

(** [__name__] of the factory, when it has one (a class has, a
    [functools.partial] object has not). *)
Definition factory_name (f : NormFactory) : option string :=
  match f with
  | NoNormClass => Some "NoNorm"%string
  | _ => None
  end.

(** [norm_layer.func.__name__]: the class wrapped by a partial object. *)
Definition factory_func_name (f : NormFactory) : option string :=
  match f with
  | PartialBatchNorm2d => Some "BatchNorm2d"%string
  | PartialInstanceNorm2d => Some "InstanceNorm2d"%string
  | PartialGroupNorm _ => Some "GroupNorm"%string
  | NoNormClass => None
  end.

Definition not_found_msg (what : string) : string :=
  ("normalization layer [" ++ what ++ "] is not found")%string.

Definition get_norm_layer (norm_type : string) (num_groups : Z)
  : result NormFactory :=
  if String.eqb norm_type "batch" then Ok PartialBatchNorm2d
  else if String.eqb norm_type "instance" then Ok PartialInstanceNorm2d
  else if String.eqb norm_type "group" then Ok (PartialGroupNorm num_groups)
  else if String.eqb norm_type "none" then Ok NoNormClass
  else Err (NotImplementedError (not_found_msg norm_type)).

Definition get_norm_args (norm_layer : NormFactory) (nfeats_list : list Z)
  : result (list NormArgs) :=
  match factory_name norm_layer with
  | Some name =>
      (* the only factory with a [__name__] is the class NoNorm *)
      if String.eqb name "NoNorm" then Ok (map (fun _ => ArgFake) nfeats_list)
      else Err (AttributeError "func")
  | None =>
      match factory_func_name norm_layer with
      | None => Err (AttributeError "func")
      | Some fname =>
          if String.eqb fname "GroupNorm"
          then Ok (map ArgNumChannels nfeats_list)
          else if String.eqb fname "BatchNorm"
          then Ok (map ArgNumFeatures nfeats_list)
          else Err (NotImplementedError (not_found_msg fname))
      end
  end.

(** The loss objects [define_loss] can return. *)
Inductive Loss : Type :=
| CrossEntropyLoss (ignore_index : option Z).

(** [define_loss(opt)], as a function of [opt.dataset_mode].  The local
    [loss] is bound in the two branches only; [return loss] reads it. *)
Definition define_loss (dataset_mode : string) : result Loss :=
  let loss : option Loss :=
    if String.eqb dataset_mode "classification"
    then Some (CrossEntropyLoss None)
    else if String.eqb dataset_mode "segmentation"
    then Some (CrossEntropyLoss (Some (-1)))
    else None in
  match loss with
  | Some l => Ok l
  | None => Err (UnboundLocalError "loss")
  end.

(** ** Stage and network objects *)

Record DownConv : Type := mkDownConv
  { dc_bn : list InstanceNorm2d;
    dc_pool : option MeshPool;
    dc_conv1 : MeshConv;
    dc_conv2 : list MeshConv }.

(** The subclass keeps the inherited fields (with [pool] reset to None) and
    adds its own. *)
Record DownConvWithAttention : Type := mkDownConvWithAttention
  { dca_base : DownConv;
    dca_real_pool : option MeshPool;
    dca_attention : MeshAttention;
    dca_prioritize_with_attention : option bool;
    dca_double_attention : option bool }.

(** An element of [MeshEncoder.convs]. *)
Inductive DownStage : Type :=
| PlainDown (d : DownConv)
| AttnDown (d : DownConvWithAttention).

Record UpConv : Type := mkUpConv
  { uc_residual : bool;
    uc_bn : list InstanceNorm2d;
    uc_unroll : option MeshUnpool;
    uc_transfer_data : bool;
    uc_up_conv : MeshConv;
    uc_conv1 : MeshConv;
    uc_conv2 : list MeshConv }.

(** The fully-connected head: [fcs] and [fcs_bn] exist together. *)
Record FcHead : Type := mkFcHead
  { fh_fcs : list Linear; fh_fcs_bn : list InstanceNorm1d }.

Record MeshEncoder : Type := mkMeshEncoder
  { me_fcs : option FcHead;
    me_convs : list DownStage;
    me_global_pool : option GlobalPool }.

Record MeshDecoder : Type := mkMeshDecoder
  { md_up_convs : list UpConv; md_final_conv : UpConv }.

Record MeshEncoderDecoder : Type := mkMeshEncoderDecoder
  { med_transfer_data : bool;
    med_encoder : MeshEncoder;
    med_decoder : MeshDecoder }.

Record MResConv : Type := mkMResConv
  { mr_in_channels : Z;
    mr_out_channels : Z;
    mr_skips : Z;
    mr_conv0 : MeshConv;
    (* (bn{i+1}, conv{i+1}) for i in range(skips) *)
    mr_blocks : list (BatchNorm2d * MeshConv) }.

(** One iteration of the classifier's construction loop: conv{i}, norm{i},
    attention{i} (attention network only) and pool{i}. *)
Record ClassifierStage : Type := mkClassifierStage
  { cs_conv : MResConv;
    cs_norm : NormLayer;
    cs_attention : option MeshAttention;
    cs_pool : MeshPool }.

Record MeshConvNet : Type := mkMeshConvNet
  { cn_k : list Z;
    cn_res : list Z;
    cn_stages : list ClassifierStage;
    cn_gp : GlobalPool;
    cn_fc1 : Linear;
    cn_fc2 : Linear }.

Record MeshAttentionNet : Type := mkMeshAttentionNet
  { an_k : list Z;
    an_res : list Z;
    an_prioritize_with_attention : option bool;
    an_double_attention : option bool;
    an_use_values_as_is : option bool;
    an_stages : list ClassifierStage;
    an_gp : GlobalPool;
    an_fc1 : Linear;
    an_fc2 : Linear }.

(** The attention keyword arguments shared by the attention variants; each
    may be None. *)
Record AttnArgs : Type := mkAttnArgs
  { attn_n_heads : option Z;
    attn_max_dist : option Z;
    attn_dropout : option PrimFloat.float;
    prioritize_with_attention : option bool;
    attn_use_values_as_is : option bool;
    double_attention : option bool;
    attn_use_positional_encoding : option bool;
    attn_max_relative_position : option Z }.

(** The call [MeshEncoder(pools, convs, blocks=blocks)]: no attention
    argument given. *)
Definition no_attention : AttnArgs :=
  mkAttnArgs None None None None None None None None.

Definition double_attention_msg : string :=
  ("must have attn_use_values_as_is=True if double_attention=True, "
   ++ "since the attention layer works on its own outputs")%string.

Definition encoder_attention_msg : string :=
  ("Must provide attn_n_heads, attn_dropout and prioritize_with_attention"
   ++ "when using attention for encoder")%string.

Definition global_pool_msg (global_pool : string) : string :=
  ("global_pool " ++ global_pool ++ " is not defined")%string.

(** [assert cond, msg] *)
Definition py_assert (cond : bool) (msg : string) : result unit :=
  if cond then Ok tt else Err (AssertionError msg).

Definition is_some {A : Type} (o : option A) : bool :=
  match o with Some _ => true | None => false end.

(** ** Construction ([__init__]) *)

Section Construction.

Context (B : Backend).
Local Open Scope result_scope.

(** A call of a layer constructor: raises what the library raises for
    these arguments, otherwise yields the layer. *)
Definition construct (c : LayerCtor) : result unit :=
  match ctor_error B c with
  | Some e => Err e
  | None => Ok tt
  end.

Definition new_MeshConv (cin cout : Z) (bias : option bool) : result MeshConv :=
  let c := mkMeshConv cin cout bias in
  _ <- construct (NewMeshConv c) ;; Ok c.

Definition new_MeshPool (target : Z) : result MeshPool :=
  _ <- construct (NewMeshPool (mkMeshPool target)) ;; Ok (mkMeshPool target).

Definition new_MeshUnpool (target : Z) : result MeshUnpool :=
  _ <- construct (NewMeshUnpool (mkMeshUnpool target)) ;;
  Ok (mkMeshUnpool target).

Definition new_MeshAttention (a : MeshAttention) : result MeshAttention :=
  _ <- construct (NewMeshAttention a) ;; Ok a.

Definition new_InstanceNorm2d (n : Z) : result InstanceNorm2d :=
  _ <- construct (NewInstanceNorm2d (mkInstanceNorm2d n)) ;;
  Ok (mkInstanceNorm2d n).

Definition new_InstanceNorm1d (n : Z) : result InstanceNorm1d :=
  _ <- construct (NewInstanceNorm1d (mkInstanceNorm1d n)) ;;
  Ok (mkInstanceNorm1d n).

Definition new_BatchNorm2d (n : Z) : result BatchNorm2d :=
  _ <- construct (NewBatchNorm2d (mkBatchNorm2d n)) ;; Ok (mkBatchNorm2d n).

Definition new_Linear (i o : Z) : result Linear :=
  _ <- construct (NewLinear (mkLinear i o)) ;; Ok (mkLinear i o).

Definition new_GlobalPool (g : GlobalPool) : result GlobalPool :=
  _ <- construct (NewGlobalPool g) ;; Ok g.

Definition new_NormLayer (f : NormFactory) (a : NormArgs) : result NormLayer :=
  _ <- construct (NewNormLayer (mkNormLayer f a)) ;; Ok (mkNormLayer f a).

(** [for _ in range(n): l.append(c)] *)
Fixpoint rrepeat {A : Type} (n : nat) (c : result A) : result (list A) :=
  match n with
  | O => Ok []
  | S n' => a <- c ;; l <- rrepeat n' c ;; Ok (a :: l)
  end.

(** [DownConv.__init__(in_channels, out_channels, blocks, pool)] *)
Definition DownConv_init (in_channels out_channels blocks pool : Z)
  : result DownConv :=
  conv1 <- new_MeshConv in_channels out_channels None ;;
  conv2 <- rrepeat (Z.to_nat blocks)
                   (new_MeshConv out_channels out_channels None) ;;
  bn <- rrepeat (Z.to_nat (blocks + 1)) (new_InstanceNorm2d out_channels) ;;
  pool_layer <- (if pool =? 0 then Ok None
                 else p <- new_MeshPool pool ;; Ok (Some p)) ;;
  Ok {| dc_bn := bn; dc_pool := pool_layer;
        dc_conv1 := conv1; dc_conv2 := conv2 |}.

(** [DownConvWithAttention.__init__]; [heads] is [attn_n_heads]. *)
Definition DownConvWithAttention_init
    (in_channels out_channels blocks pool heads : Z) (a : AttnArgs)
  : result DownConvWithAttention :=
  base <- DownConv_init in_channels out_channels blocks pool ;;
  _ <- (if truthy (double_attention a)
        then py_assert (truthy (attn_use_values_as_is a)) double_attention_msg
        else Ok tt) ;;
  d_k <- py_int_div out_channels heads ;;
  d_v <- py_int_div out_channels heads ;;
  attention <- new_MeshAttention
    {| ma_n_head := heads; ma_d_model := out_channels;
       ma_d_k := d_k; ma_d_v := d_v;
       ma_attn_max_dist := attn_max_dist a;
       ma_dropout := attn_dropout a;
       ma_use_values_as_is := attn_use_values_as_is a;
       ma_use_positional_encoding := attn_use_positional_encoding a;
       ma_max_relative_position := attn_max_relative_position a |} ;;
  Ok {| dca_base := {| dc_bn := dc_bn base; dc_pool := None;
                       dc_conv1 := dc_conv1 base;
                       dc_conv2 := dc_conv2 base |};
        dca_real_pool := dc_pool base;
        dca_attention := attention;
        dca_prioritize_with_attention := prioritize_with_attention a;
        dca_double_attention := double_attention a |}.

(** [UpConv.__init__]; [unroll=False] is [unroll = 0]. *)
Definition UpConv_init (in_channels out_channels blocks unroll : Z)
    (residual batch_norm transfer_data : bool) : result UpConv :=
  up_conv <- new_MeshConv in_channels out_channels None ;;
  conv1 <- (if transfer_data
            then new_MeshConv (2 * out_channels) out_channels None
            else new_MeshConv out_channels out_channels None) ;;
  conv2 <- rrepeat (Z.to_nat blocks)
                   (new_MeshConv out_channels out_channels None) ;;
  bn <- (if batch_norm
         then rrepeat (Z.to_nat (blocks + 1)) (new_InstanceNorm2d out_channels)
         else Ok []) ;;
  unroll_layer <- (if unroll =? 0 then Ok None
                   else u <- new_MeshUnpool unroll ;; Ok (Some u)) ;;
  Ok {| uc_residual := residual; uc_bn := bn; uc_unroll := unroll_layer;
        uc_transfer_data := transfer_data; uc_up_conv := up_conv;
        uc_conv1 := conv1; uc_conv2 := conv2 |}.

(** Body of the stage loop of [MeshEncoder.__init__] at index [i]. *)
Definition encoder_stage (pools convs : list Z) (blocks : Z) (a : AttnArgs)
    (i : Z) (acc : list DownStage) : result (list DownStage) :=
  pool <- (if i + 1 <? len pools then py_index pools (i + 1) else Ok 0) ;;
  cin <- py_index convs i ;;
  cout <- py_index convs (i + 1) ;;
  stage <- match attn_n_heads a with
           | None =>
               d <- DownConv_init cin cout blocks pool ;; Ok (PlainDown d)
           | Some heads =>
               d <- DownConvWithAttention_init cin cout blocks pool heads a ;;
               Ok (AttnDown d)
           end ;;
  Ok (acc ++ [stage]).

(** Body of [for length in fcs] in [MeshEncoder.__init__]; the state is
    [(self.fcs, self.fcs_bn, last_length)]. *)
Definition encoder_fc (length : Z)
    (st : list Linear * list InstanceNorm1d * Z)
  : result (list Linear * list InstanceNorm1d * Z) :=
  let '(fcs, fcs_bn, last_length) := st in
  l <- new_Linear last_length length ;;
  n <- new_InstanceNorm1d length ;;
  Ok (fcs ++ [l], fcs_bn ++ [n], length).

(** The [if fcs is not None] block of [MeshEncoder.__init__]. *)
Definition encoder_head (pools convs fcs : list Z)
    (global_pool : option string) : result (FcHead * option GlobalPool) :=
  last_length <- py_index convs (-1) ;;
  '(gp, last_length) <-
    match global_pool with
    | Some g =>
        if String.eqb g "max"
        then p <- py_index pools (-1) ;;
             l <- new_GlobalPool (MaxPool1d p) ;; Ok (Some l, last_length)
        else if String.eqb g "avg"
        then p <- py_index pools (-1) ;;
             l <- new_GlobalPool (AvgPool1d p) ;; Ok (Some l, last_length)
        else Err (AssertionError (global_pool_msg g))
    | None =>
        p <- py_index pools (-1) ;; Ok (None, last_length * p)
    end ;;
  first <- py_index fcs 0 ;;
  let fcs := if first =? last_length then py_tail fcs else fcs in
  '(ls, bns, _) <- rfold encoder_fc fcs ([], [], last_length) ;;
  Ok ({| fh_fcs := ls; fh_fcs_bn := bns |}, gp).

(** [MeshEncoder.__init__(pools, convs, fcs, blocks, global_pool, ...)] *)
Definition MeshEncoder_init (pools convs : list Z) (fcs : option (list Z))
    (blocks : Z) (global_pool : option string) (a : AttnArgs)
  : result MeshEncoder :=
  _ <- (if is_some (attn_n_heads a)
        then py_assert (is_some (attn_dropout a)
                        && is_some (prioritize_with_attention a))
                       encoder_attention_msg
        else Ok tt) ;;
  stages <- rfold (encoder_stage pools convs blocks a)
                  (py_range (len convs - 1)) [] ;;
  '(head, gp) <- match fcs with
                 | None => Ok (None, None)
                 | Some fcs =>
                     '(h, gp) <- encoder_head pools convs fcs global_pool ;;
                     Ok (Some h, gp)
                 end ;;
  Ok {| me_fcs := head; me_convs := stages; me_global_pool := gp |}.

(** Body of the stage loop of [MeshDecoder.__init__] at index [i]. *)
Definition decoder_stage (unrolls convs : list Z) (blocks : Z)
    (batch_norm transfer_data : bool) (i : Z) (acc : list UpConv)
  : result (list UpConv) :=
  unroll <- (if i <? len unrolls then py_index unrolls i else Ok 0) ;;
  cin <- py_index convs i ;;
  cout <- py_index convs (i + 1) ;;
  u <- UpConv_init cin cout blocks unroll true batch_norm transfer_data ;;
  Ok (acc ++ [u]).

(** [MeshDecoder.__init__(unrolls, convs, blocks, batch_norm, transfer_data)] *)
Definition MeshDecoder_init (unrolls convs : list Z) (blocks : Z)
    (batch_norm transfer_data : bool) : result MeshDecoder :=
  ups <- rfold (decoder_stage unrolls convs blocks batch_norm transfer_data)
               (py_range (len convs - 2)) [] ;;
  cin <- py_index convs (-2) ;;
  cout <- py_index convs (-1) ;;
  final <- UpConv_init cin cout blocks 0 true batch_norm false ;;
  Ok {| md_up_convs := ups; md_final_conv := final |}.

(** [MeshEncoderDecoder.__init__] ([a = no_attention]) and
    [MeshEncoderDecoderWithAttention.__init__]: the encoder, then the
    decoder on [pools[:-1]] reversed. *)
Definition MeshEncoderDecoder_init_with (pools down_convs up_convs : list Z)
    (blocks : Z) (transfer_data : bool) (a : AttnArgs)
  : result MeshEncoderDecoder :=
  encoder <- MeshEncoder_init pools down_convs None blocks None a ;;
  let unrolls := rev (py_init pools) in
  decoder <- MeshDecoder_init unrolls up_convs blocks true transfer_data ;;
  Ok {| med_transfer_data := transfer_data;
        med_encoder := encoder; med_decoder := decoder |}.

Definition MeshEncoderDecoder_init (pools down_convs up_convs : list Z)
    (blocks : Z) (transfer_data : bool) : result MeshEncoderDecoder :=
  MeshEncoderDecoder_init_with pools down_convs up_convs blocks
                               transfer_data no_attention.

Definition MeshEncoderDecoderWithAttention_init
    (pools down_convs up_convs : list Z) (blocks : Z) (transfer_data : bool)
    (a : AttnArgs) : result MeshEncoderDecoder :=
  MeshEncoderDecoder_init_with pools down_convs up_convs blocks
                               transfer_data a.

(** [MResConv.__init__(in_channels, out_channels, skips)] *)
Definition MResConv_init (in_channels out_channels skips : Z)
  : result MResConv :=
  conv0 <- new_MeshConv in_channels out_channels (Some false) ;;
  blocks <- rrepeat (Z.to_nat skips)
              (bn <- new_BatchNorm2d out_channels ;;
               conv <- new_MeshConv out_channels out_channels (Some false) ;;
               Ok (bn, conv)) ;;
  Ok {| mr_in_channels := in_channels; mr_out_channels := out_channels;
        mr_skips := skips; mr_conv0 := conv0; mr_blocks := blocks |}.

(** [enumerate(l)] *)
Definition py_enumerate {A : Type} (l : list A) : list (Z * A) :=
  combine (py_range (len l)) l.

(** Body of the construction loop of the two classifiers at [(i, ki)];
    [attention] builds attention{i} from [k[i + 1]] when the network has
    attention layers. *)
Definition classifier_stage (k res : list Z) (norm_layer : NormFactory)
    (norm_args : list NormArgs) (nresblocks : Z)
    (attention : option (Z -> result MeshAttention))
    (iki : Z * Z) (acc : list ClassifierStage)
  : result (list ClassifierStage) :=
  let '(i, ki) := iki in
  knext <- py_index k (i + 1) ;;
  conv <- MResConv_init ki knext nresblocks ;;
  args <- py_index norm_args i ;;
  norm <- new_NormLayer norm_layer args ;;
  att <- match attention with
         | None => Ok None
         | Some mk => knext' <- py_index k (i + 1) ;;
                      a <- mk knext' ;; Ok (Some a)
         end ;;
  target <- py_index res (i + 1) ;;
  pool <- new_MeshPool target ;;
  Ok (acc ++ [{| cs_conv := conv; cs_norm := norm;
                 cs_attention := att; cs_pool := pool |}]).

(** [MeshConvNet.__init__] *)
Definition MeshConvNet_init (norm_layer : NormFactory) (nf0 : Z)
    (conv_res : list Z) (nclasses input_res : Z) (pool_res : list Z)
    (fc_n nresblocks : Z) : result MeshConvNet :=
  let k := [nf0] ++ conv_res in
  let res := [input_res] ++ pool_res in
  norm_args <- get_norm_args norm_layer (py_tail k) ;;
  stages <- rfold (classifier_stage k res norm_layer norm_args nresblocks None)
                  (py_enumerate (py_init k)) [] ;;
  last_res <- py_index res (-1) ;;
  gp <- new_GlobalPool (AvgPool1d last_res) ;;
  last_k <- py_index k (-1) ;;
  fc1 <- new_Linear last_k fc_n ;;
  fc2 <- new_Linear fc_n nclasses ;;
  Ok {| cn_k := k; cn_res := res; cn_stages := stages;
        cn_gp := gp; cn_fc1 := fc1; cn_fc2 := fc2 |}.

(** attention{i} of [MeshAttentionNet.__init__], for [d_model = k[i + 1]] *)
Definition classifier_attention (heads : Z) (a : AttnArgs) (d_model : Z)
  : result MeshAttention :=
  d_k <- py_int_div d_model heads ;;
  d_v <- py_int_div d_model heads ;;
  new_MeshAttention
    {| ma_n_head := heads; ma_d_model := d_model;
       ma_d_k := d_k; ma_d_v := d_v;
       ma_attn_max_dist := attn_max_dist a;
       ma_dropout := attn_dropout a;
       ma_use_values_as_is := attn_use_values_as_is a;
       ma_use_positional_encoding := attn_use_positional_encoding a;
       ma_max_relative_position := attn_max_relative_position a |}.

(** [MeshAttentionNet.__init__]; [heads] is the positional
    [attn_n_heads], the other attention arguments come in [a]. *)
Definition MeshAttentionNet_init (norm_layer : NormFactory) (nf0 : Z)
    (conv_res : list Z) (nclasses input_res : Z) (pool_res : list Z)
    (fc_n heads nresblocks : Z) (a : AttnArgs) : result MeshAttentionNet :=
  _ <- (if truthy (double_attention a)
        then py_assert (truthy (attn_use_values_as_is a)) double_attention_msg
        else Ok tt) ;;
  let k := [nf0] ++ conv_res in
  let res := [input_res] ++ pool_res in
  norm_args <- get_norm_args norm_layer (py_tail k) ;;
  stages <- rfold (classifier_stage k res norm_layer norm_args nresblocks
                     (Some (classifier_attention heads a)))
                  (py_enumerate (py_init k)) [] ;;
  last_res <- py_index res (-1) ;;
  gp <- new_GlobalPool (AvgPool1d last_res) ;;
  last_k <- py_index k (-1) ;;
  fc1 <- new_Linear last_k fc_n ;;
  fc2 <- new_Linear fc_n nclasses ;;
  Ok {| an_k := k; an_res := res;
        an_prioritize_with_attention := prioritize_with_attention a;
        an_double_attention := double_attention a;
        an_use_values_as_is := attn_use_values_as_is a;
        an_stages := stages; an_gp := gp; an_fc1 := fc1; an_fc2 := fc2 |}.

End Construction.

(** ** Forward passes *)

Declare Scope fwd_scope.
Delimit Scope fwd_scope with fwd.

Section Forward.

Context (B : Backend).

Local Abbreviation Tensor := (Tensor B).
Local Abbreviation Meshes := (Meshes B).

(** A forward computation: reads and updates the meshes, may raise. *)
Definition M (A : Type) : Type := Meshes -> result (A * Meshes).

Definition ret {A : Type} (a : A) : M A := fun m => Ok (a, m).

Definition bind {A C : Type} (c : M A) (k : A -> M C) : M C :=
  fun m => match c m with
           | Ok (a, m') => k a m'
           | Err e => Err e
           end.

(** A tensor operation that does not touch the meshes. *)
Definition lift {A : Type} (r : result A) : M A :=
  fun m => match r with
           | Ok a => Ok (a, m)
           | Err e => Err e
           end.

Notation "x <- c ;; k" := (bind c (fun x => k))
  (at level 61, c at next level, right associativity) : fwd_scope.
Notation "' pat <- c ;; k" := (bind c (fun x => match x with pat => k end))
  (at level 61, pat pattern, c at next level, right associativity) : fwd_scope.
Local Open Scope fwd_scope.

(** Truth value of [self.bn] (a list or ModuleList): non-empty. *)
Definition nonempty {A : Type} (l : list A) : bool :=
  match l with [] => false | _ :: _ => true end.

(** [if self.bn: x = self.bn[i](x)] *)
Definition apply_bn (bn : list InstanceNorm2d) (i : Z) (x : Tensor) : M Tensor :=
  if nonempty bn
  then n <- lift (py_index bn i) ;; lift (InstanceNorm2d_call B n x)
  else ret x.

(** [for idx, conv in enumerate(self.conv2)] of [DownConv.forward] and
    [UpConv.forward], from index [idx] on; yields [x2]. *)
Fixpoint conv_blocks (bn : list InstanceNorm2d) (residual : bool) (idx : Z)
    (convs : list MeshConv) (x1 x2 : Tensor) : M Tensor :=
  match convs with
  | [] => ret x2
  | conv :: rest =>
      x2 <- MeshConv_call B conv x1 ;;
      x2 <- apply_bn bn (idx + 1) x2 ;;
      x2 <- (if residual then lift (tensor_add B x2 x1) else ret x2) ;;
      let x2 := relu B x2 in
      let x1 := x2 in
      conv_blocks bn residual (idx + 1) rest x1 x2
  end.

(** [DownConv.forward] up to and including [x2 = x2.squeeze(3)]: the
    features before any pooling. *)
Definition DownConv_features (d : DownConv) (fe : Tensor) : M Tensor :=
  x1 <- MeshConv_call B (dc_conv1 d) fe ;;
  x1 <- apply_bn (dc_bn d) 0 x1 ;;
  let x1 := relu B x1 in
  let x2 := x1 in
  (* the down stage always adds the residual *)
  x2 <- conv_blocks (dc_bn d) true 0 (dc_conv2 d) x1 x2 ;;
  lift (squeeze B 3 x2).

(** [DownConv.forward((fe, meshes))]: returns [(x2, before_pool)]. *)
Definition DownConv_forward (d : DownConv) (fe : Tensor)
  : M (Tensor * option Tensor) :=
  x2 <- DownConv_features d fe ;;
  match dc_pool d with
  | Some pool =>
      let before_pool := Some x2 in
      x2 <- MeshPool_call B pool x2 None ;;
      ret (x2, before_pool)
  | None => ret (x2, None)
  end.

(** [DownConvWithAttention.forward] up to the first attention call. *)
Definition DownConvWithAttention_features (d : DownConvWithAttention)
    (fe : Tensor) : M (Tensor * Tensor * Tensor * DistMatrices B) :=
  '(x2, _) <- DownConv_forward (dca_base d) fe ;;
  MeshAttention_call B (dca_attention d) x2 None.

(** [DownConvWithAttention.forward((fe, meshes))] *)
Definition DownConvWithAttention_forward (d : DownConvWithAttention)
    (fe : Tensor) : M (Tensor * option Tensor) :=
  '(x2, attn, attn_per_edge, dist_matrices) <-
      DownConvWithAttention_features d fe ;;
  match dca_real_pool d with
  | Some real_pool =>
      attn_per_edge <-
        (if truthy (dca_double_attention d)
         then '(_, _, ape, _) <- MeshAttention_call B (dca_attention d)
                                   (detach B x2) (Some dist_matrices) ;;
              ret ape
         else ret attn_per_edge) ;;
      let edge_priorities :=
        if truthy (dca_prioritize_with_attention d)
        then Some attn_per_edge else None in
      let before_pool := Some x2 in
      x2 <- MeshPool_call B real_pool x2 edge_priorities ;;
      ret (x2, before_pool)
  | None => ret (x2, None)
  end.

(** [conv((fe, meshes))] for an element of [MeshEncoder.convs]. *)
Definition DownStage_forward (s : DownStage) (fe : Tensor)
  : M (Tensor * option Tensor) :=
  match s with
  | PlainDown d => DownConv_forward d fe
  | AttnDown d => DownConvWithAttention_forward d fe
  end.

(** [torch.cat((x1, from_down), 1)].  The tensor library concatenates
    tensors only: on a sequence that holds None it raises a type error. *)
Definition torch_cat (x1 : Tensor) (from_down : option Tensor) : result Tensor :=
  match from_down with
  | Some t => cat_tensors B x1 t 1
  | None =>
      Err (TypeError "expected Tensor as element 1 in argument 0, but got NoneType")
  end.

(** [UpConv.forward] up to and including the unroll step. *)
Definition UpConv_unrolled (u : UpConv) (from_up : Tensor) : M Tensor :=
  x1 <- MeshConv_call B (uc_up_conv u) from_up ;;
  x1 <- lift (squeeze B 3 x1) ;;
  match uc_unroll u with
  | Some unroll => MeshUnpool_call B unroll x1
  | None => ret x1
  end.

(** [UpConv.forward((from_up, meshes), from_down)] *)
Definition UpConv_forward (u : UpConv) (from_up : Tensor)
    (from_down : option Tensor) : M Tensor :=
  x1 <- UpConv_unrolled u from_up ;;
  x1 <- (if uc_transfer_data u then lift (torch_cat x1 from_down) else ret x1) ;;
  x1 <- MeshConv_call B (uc_conv1 u) x1 ;;
  x1 <- apply_bn (uc_bn u) 0 x1 ;;
  let x1 := relu B x1 in
  let x2 := x1 in
  x2 <- conv_blocks (uc_bn u) (uc_residual u) 0 (uc_conv2 u) x1 x2 ;;
  lift (squeeze B 3 x2).

(** [for conv in self.convs] of [MeshEncoder.forward]; the state is
    [(fe, encoder_outs)]. *)
Fixpoint run_convs (convs : list DownStage) (fe : Tensor)
    (encoder_outs : list (option Tensor))
  : M (Tensor * list (option Tensor)) :=
  match convs with
  | [] => ret (fe, encoder_outs)
  | conv :: rest =>
      '(fe, before_pool) <- DownStage_forward conv fe ;;
      run_convs rest fe (encoder_outs ++ [before_pool])
  end.

(** Body of [for i in range(len(self.fcs))] of [MeshEncoder.forward]. *)
Definition fc_step (h : FcHead) (i : Z) (fe : Tensor) : result Tensor :=
  (l <- py_index (fh_fcs h) i ;;
   fe <- Linear_call B l fe ;;
   fe <- (if nonempty (fh_fcs_bn h)
          then x <- unsqueeze B 1 fe ;;
               n <- py_index (fh_fcs_bn h) i ;;
               y <- InstanceNorm1d_call B n x ;;
               squeeze B 1 y
          else Ok fe) ;;
   Ok (if i <? len (fh_fcs h) - 1 then relu B fe else fe))%res.

(** The fully-connected head of [MeshEncoder.forward]. *)
Definition run_head (global_pool : option GlobalPool) (h : FcHead)
    (fe : Tensor) : result Tensor :=
  (fe <- match global_pool with
         | Some gp => GlobalPool_call B gp fe
         | None => Ok fe
         end ;;
   fe <- flatten_batch B fe ;;
   rfold (fc_step h) (py_range (len (fh_fcs h))) fe)%res.

(** [MeshEncoder.forward((fe, meshes))]: returns [(fe, encoder_outs)]. *)
Definition MeshEncoder_forward (e : MeshEncoder) (fe : Tensor)
  : M (Tensor * list (option Tensor)) :=
  '(fe, encoder_outs) <- run_convs (me_convs e) fe [] ;;
  match me_fcs e with
  | Some h =>
      fe <- lift (run_head (me_global_pool e) h fe) ;;
      ret (fe, encoder_outs)
  | None => ret (fe, encoder_outs)
  end.

(** [before_pool] of iteration [i] of [MeshDecoder.forward]. *)
Definition skip_input (encoder_outs : option (list (option Tensor))) (i : Z)
  : result (option Tensor) :=
  match encoder_outs with
  | Some outs => py_index outs (- (i + 2))
  | None => Ok None
  end.

(** [for i, up_conv in enumerate(self.up_convs)] of
    [MeshDecoder.forward], from index [i] on. *)
Fixpoint run_up_convs (i : Z) (up_convs : list UpConv)
    (encoder_outs : option (list (option Tensor))) (fe : Tensor) : M Tensor :=
  match up_convs with
  | [] => ret fe
  | up_conv :: rest =>
      before_pool <- lift (skip_input encoder_outs i) ;;
      fe <- UpConv_forward up_conv fe before_pool ;;
      run_up_convs (i + 1) rest encoder_outs fe
  end.

(** [MeshDecoder.forward((fe, meshes), encoder_outs)]; the final stage
    is called without a skip argument. *)
Definition MeshDecoder_forward (d : MeshDecoder) (fe : Tensor)
    (encoder_outs : option (list (option Tensor))) : M Tensor :=
  fe <- run_up_convs 0 (md_up_convs d) encoder_outs fe ;;
  UpConv_forward (md_final_conv d) fe None.

(** [MeshEncoderDecoder.forward(x, meshes)] *)
Definition MeshEncoderDecoder_forward (n : MeshEncoderDecoder) (x : Tensor)
  : M Tensor :=
  '(fe, before_pool) <- MeshEncoder_forward (med_encoder n) x ;;
  MeshDecoder_forward (med_decoder n) fe (Some before_pool).

End Forward.

(** ** A symbolic backend

    Tensors are the terms built by the operations applied to them, the
    meshes are the trace of pooling and unpooling calls, every constructor
    accepts its arguments and every operation succeeds.  The forward passes
    run on it and show which operations reach a tensor, in which order. *)

#[warnings="-register-all"]
Inductive SymTensor : Type :=
| SInput (name : Z)
| SMeshConv (c : MeshConv) (x : SymTensor)
| SMeshPool (p : MeshPool) (x : SymTensor) (priorities : option SymTensor)
| SMeshUnpool (u : MeshUnpool) (x : SymTensor)
| SAttnFeatures (a : MeshAttention) (x : SymTensor)
| SAttnWeights (a : MeshAttention) (x : SymTensor)
| SAttnPerEdge (a : MeshAttention) (x : SymTensor)
| SInstanceNorm2d (n : InstanceNorm2d) (x : SymTensor)
| SInstanceNorm1d (n : InstanceNorm1d) (x : SymTensor)
| SLinear (l : Linear) (x : SymTensor)
| SGlobalPool (g : GlobalPool) (x : SymTensor)
| SRelu (x : SymTensor)
| SDetach (x : SymTensor)
| SAdd (x y : SymTensor)
| SSqueeze (dim : Z) (x : SymTensor)
| SUnsqueeze (dim : Z) (x : SymTensor)
| SFlatten (x : SymTensor)
| SCat (x y : SymTensor) (dim : Z).

Inductive MeshEvent : Type :=
| Pooled (target : Z)
| Unpooled (target : Z).

(** Distance matrices: computed from the meshes by an attention layer. *)
Inductive SymDist : Type :=
| SDist (a : MeshAttention).

Definition SymBackend : Backend :=
  {| Tensor := SymTensor;
     Meshes := list MeshEvent;
     DistMatrices := SymDist;
     ctor_error := fun _ => None;
     MeshConv_call := fun c x m => Ok (SMeshConv c x, m);
     MeshPool_call := fun p x pr m => Ok (SMeshPool p x pr, m ++ [Pooled (mp_target p)]);
     MeshUnpool_call := fun u x m => Ok (SMeshUnpool u x, m ++ [Unpooled (mu_target u)]);
     MeshAttention_call := fun a x _ m =>
       Ok ((SAttnFeatures a x, SAttnWeights a x, SAttnPerEdge a x, SDist a), m);
     InstanceNorm2d_call := fun n x => Ok (SInstanceNorm2d n x);
     InstanceNorm1d_call := fun n x => Ok (SInstanceNorm1d n x);
     Linear_call := fun l x => Ok (SLinear l x);
     GlobalPool_call := fun g x => Ok (SGlobalPool g x);
     relu := SRelu;
     detach := SDetach;
     tensor_add := fun x y => Ok (SAdd x y);
     squeeze := fun d x => Ok (SSqueeze d x);
     unsqueeze := fun d x => Ok (SUnsqueeze d x);
     flatten_batch := fun x => Ok (SFlatten x);
     cat_tensors := fun x y d => Ok (SCat x y d) |}.

(** The backend [B] with another pooling operation. *)
Definition with_pool (B : Backend)
    (pool : MeshPool -> Tensor B -> option (Tensor B) -> Meshes B ->
            result (Tensor B * Meshes B)) : Backend :=
  {| Tensor := Tensor B;
     Meshes := Meshes B;
     DistMatrices := DistMatrices B;
     ctor_error := ctor_error B;
     MeshConv_call := MeshConv_call B;
     MeshPool_call := pool;
     MeshUnpool_call := MeshUnpool_call B;
     MeshAttention_call := MeshAttention_call B;
     InstanceNorm2d_call := InstanceNorm2d_call B;
     InstanceNorm1d_call := InstanceNorm1d_call B;
     Linear_call := Linear_call B;
     GlobalPool_call := GlobalPool_call B;
     relu := relu B;
     detach := detach B;
     tensor_add := tensor_add B;
     squeeze := squeeze B;
     unsqueeze := unsqueeze B;
     flatten_batch := flatten_batch B;
     cat_tensors := cat_tensors B |}.

(** ** Notions used in the statements *)

Unset Implicit Arguments.

(** The pooling layer a stage of the encoder was built with. *)
Definition stage_pool (s : DownStage) : option MeshPool :=
  match s with
  | PlainDown d => dc_pool d
  | AttnDown d => dca_real_pool d
  end.

(** The features a stage computes before it pools: those of the
    convolution block, passed through the attention layer if there is one. *)
Definition DownStage_features (B : Backend) (s : DownStage) (fe : Tensor B)
  : M B (Tensor B) :=
  match s with
  | PlainDown d => DownConv_features B d fe
  | AttnDown d =>
      bind (DownConvWithAttention_features B d fe)
           (fun r => ret B (fst (fst (fst r))))
  end.

(** The pooling layer of the stage built at index [i]. *)
Definition built_pool (pools : list Z) (i : nat) : option MeshPool :=
  match nth_error pools (S i) with
  | Some p => if p =? 0 then None else Some (mkMeshPool p)
  | None => None
  end.

(** The length of one flattened sample after the convolution stack, as
    [MeshEncoder.__init__] computes it in [last_length]: the last channel
    count when a global pool is configured, else the last channel count
    times the last pooling target. *)
Definition flattened_length (pools convs : list Z) (global_pool : option string)
  : result Z :=
  (last_length <- py_index convs (-1) ;;
   match global_pool with
   | Some _ => Ok last_length
   | None => p <- py_index pools (-1) ;; Ok (last_length * p)
   end)%res.

(** The linear layers for the widths [fcs], fed with [last_length] inputs. *)
Fixpoint linear_chain (last_length : Z) (fcs : list Z) : list Linear :=
  match fcs with
  | [] => []
  | length :: rest => mkLinear last_length length :: linear_chain length rest
  end.

Section HeadShapes.

Context (B : Backend).

(** The head as the code runs it: every linear layer is followed by its
    normalisation, and all but the last by the nonlinearity. *)
Fixpoint fc_chain (layers : list (Linear * InstanceNorm1d)) (fe : Tensor B)
  : result (Tensor B) :=
  match layers with
  | [] => Ok fe
  | (l, n) :: rest =>
      (fe <- Linear_call B l fe ;;
       x <- unsqueeze B 1 fe ;;
       y <- InstanceNorm1d_call B n x ;;
       fe <- squeeze B 1 y ;;
       fc_chain rest (match rest with [] => fe | _ :: _ => relu B fe end))%res
  end.

(** The head as the specification words it: normalisation and
    nonlinearity between all but the last layer, nothing after the last. *)
Fixpoint fc_chain_as_specified (layers : list (Linear * InstanceNorm1d))
    (fe : Tensor B) : result (Tensor B) :=
  match layers with
  | [] => Ok fe
  | (l, n) :: rest =>
      (fe <- Linear_call B l fe ;;
       match rest with
       | [] => Ok fe
       | _ :: _ =>
           x <- unsqueeze B 1 fe ;;
           y <- InstanceNorm1d_call B n x ;;
           fe <- squeeze B 1 y ;;
           fc_chain_as_specified rest (relu B fe)
       end)%res
  end.

(** The whole head as the specification words it. *)
Definition head_as_specified (global_pool : option GlobalPool) (h : FcHead)
    (fe : Tensor B) : result (Tensor B) :=
  (fe <- match global_pool with
         | Some gp => GlobalPool_call B gp fe
         | None => Ok fe
         end ;;
   fe <- flatten_batch B fe ;;
   fc_chain_as_specified (combine (fh_fcs h) (fh_fcs_bn h)) fe)%res.

End HeadShapes.

(** The head as the code runs it, after the optional global pool and the
    flattening. *)
Definition head_as_built (B : Backend) (global_pool : option GlobalPool)
    (h : FcHead) (fe : Tensor B) : result (Tensor B) :=
  (fe <- match global_pool with
         | Some gp => GlobalPool_call B gp fe
         | None => Ok fe
         end ;;
   fe <- flatten_batch B fe ;;
   fc_chain B (combine (fh_fcs h) (fh_fcs_bn h)) fe)%res.

(** A backend none of whose operations raises. *)
Record BackendTotal (B : Backend) : Prop := mkBackendTotal
  { conv_total : forall c x m, is_ok (MeshConv_call B c x m) = true;
    pool_total : forall p x pr m, is_ok (MeshPool_call B p x pr m) = true;
    attention_total : forall a x d m, is_ok (MeshAttention_call B a x d m) = true;
    norm2d_total : forall n x, is_ok (InstanceNorm2d_call B n x) = true;
    norm1d_total : forall n x, is_ok (InstanceNorm1d_call B n x) = true;
    linear_total : forall l x, is_ok (Linear_call B l x) = true;
    global_pool_total : forall g x, is_ok (GlobalPool_call B g x) = true;
    add_total : forall x y, is_ok (tensor_add B x y) = true;
    squeeze_total : forall d x, is_ok (squeeze B d x) = true;
    unsqueeze_total : forall d x, is_ok (unsqueeze B d x) = true;
    flatten_total : forall x, is_ok (flatten_batch B x) = true }.

(** The normalisation layers cover the blocks: there is none, or one more
    than there are blocks. *)
Definition bn_covers (bn : list InstanceNorm2d) (conv2 : list MeshConv) : Prop :=
  bn = [] \/ (length conv2 < length bn)%nat.

(** A stage whose normalisation layers cover its blocks. *)
Definition stage_wf (s : DownStage) : Prop :=
  match s with
  | PlainDown d => bn_covers (dc_bn d) (dc_conv2 d)
  | AttnDown d => bn_covers (dc_bn (dca_base d)) (dc_conv2 (dca_base d))
  end.

(** The attention arguments pass the checks of the constructors: with
    attention heads given, their number is not zero, the dropout and the
    priority flag are given, and double attention comes with values used as
    they are. *)
Definition attn_args_ok (a : AttnArgs) : bool :=
  match attn_n_heads a with
  | None => true
  | Some heads =>
      negb (heads =? 0)
      && is_some (attn_dropout a) && is_some (prioritize_with_attention a)
      && (negb (truthy (double_attention a)) || truthy (attn_use_values_as_is a))
  end.

(** The channel count per head [int(channels / heads)] can be computed:
    the division raises neither for a zero divisor nor for a quotient out
    of the range of floats. *)
Definition head_size_ok (heads channels : Z) : bool :=
  is_ok (py_int_div channels heads).

(** With attention heads given, the channel count per head can be computed
    for the output channels of every stage, [convs[1:]]. *)
Definition head_sizes_ok (a : AttnArgs) (convs : list Z) : bool :=
  match attn_n_heads a with
  | None => true
  | Some heads => forallb (head_size_ok heads) (py_tail convs)
  end.

(** The normalisation factories [get_norm_args] has arguments for. *)
Definition norm_supported (f : NormFactory) : bool :=
  match f with
  | PartialGroupNorm _ | NoNormClass => true
  | PartialBatchNorm2d | PartialInstanceNorm2d => false
  end.

(** ** Concrete configurations *)

(** Four heads, double attention, values not used as they are. *)
Definition double_only : AttnArgs :=
  mkAttnArgs (Some 4) None None (Some false) (Some false) (Some true) None None.

(** The layer constructors of a library whose convolution rejects a
    negative channel count, and that accepts every other argument. *)
Definition rejects_negative_channels (c : LayerCtor) : option PyError :=
  match c with
  | NewMeshConv conv =>
      if (mc_in_channels conv <? 0) || (mc_out_channels conv <? 0)
      then Some (RuntimeError "Trying to create tensor with negative dimension")
      else None
  | _ => None
  end.

(** The symbolic backend with these constructors. *)
Definition StrictBackend : Backend :=
  {| Tensor := Tensor SymBackend;
     Meshes := Meshes SymBackend;
     DistMatrices := DistMatrices SymBackend;
     ctor_error := rejects_negative_channels;
     MeshConv_call := MeshConv_call SymBackend;
     MeshPool_call := MeshPool_call SymBackend;
     MeshUnpool_call := MeshUnpool_call SymBackend;
     MeshAttention_call := MeshAttention_call SymBackend;
     InstanceNorm2d_call := InstanceNorm2d_call SymBackend;
     InstanceNorm1d_call := InstanceNorm1d_call SymBackend;
     Linear_call := Linear_call SymBackend;
     GlobalPool_call := GlobalPool_call SymBackend;
     relu := relu SymBackend;
     detach := detach SymBackend;
     tensor_add := tensor_add SymBackend;
     squeeze := squeeze SymBackend;
     unsqueeze := unsqueeze SymBackend;
     flatten_batch := flatten_batch SymBackend;
     cat_tensors := cat_tensors SymBackend |}.

(** A stage with skip transfer, as the decoder builds them. *)
Definition transfer_stage : UpConv :=
  {| uc_residual := true;
     uc_bn := [mkInstanceNorm2d 16];
     uc_unroll := Some (mkMeshUnpool 600);
     uc_transfer_data := true;
     uc_up_conv := mkMeshConv 32 16 None;
     uc_conv1 := mkMeshConv 32 16 None;
     uc_conv2 := [] |}.

(** A pooling operation that always raises. *)
Definition failing_pool (p : MeshPool) (x : SymTensor) (pr : option SymTensor)
    (m : list MeshEvent) : result (SymTensor * list MeshEvent) :=
  Err (RuntimeError "pool").

(** The head for the widths 100 and 30 behind 32 pooled channels. *)
Definition two_layer_head : FcHead :=
  {| fh_fcs := [mkLinear 32 100; mkLinear 100 30];
     fh_fcs_bn := [mkInstanceNorm1d 100; mkInstanceNorm1d 30] |}.

(** The output of the last linear layer of [two_layer_head] on the input
    tensor 0, after an average pool over 300 edges. *)
Definition last_linear_output : SymTensor :=
  SLinear (mkLinear 100 30)
    (SRelu (SSqueeze 1 (SInstanceNorm1d (mkInstanceNorm1d 100)
       (SUnsqueeze 1 (SLinear (mkLinear 32 100)
          (SFlatten (SGlobalPool (AvgPool1d 300) (SInput 0)))))))).

(** ** Further functions of the module *)

(** [s.find(sub) != -1]: [sub] occurs in [s]. *)
Fixpoint contains (sub s : string) : bool :=
  if String.prefix sub s then true
  else match s with
       | EmptyString => false
       | String _ rest => contains sub rest
       end.

(** *** Learning-rate schedulers *)

(** What [get_scheduler] returns: a scheduler of [torch.optim.lr_scheduler]
    or, for a policy it does not know, an exception object.  [LambdaLR]
    holds the options its rule reads; the step scheduler has gamma 0.1, the
    plateau scheduler mode 'min', factor 0.2, threshold 0.01, patience 5. *)
Inductive SchedulerValue : Type :=
| LambdaLR (epoch_count niter niter_decay : Z)
| StepLR (step_size : Z)
| ReduceLROnPlateau
| NotImplementedErrorObject (format : string) (arg : string).

Section Schedulers.

(** The exception, if any, that the constructor of a scheduler raises. *)
Variable scheduler_error : SchedulerValue -> option PyError.

Definition new_scheduler (s : SchedulerValue) : result SchedulerValue :=
  match scheduler_error s with
  | Some e => Err e
  | None => Ok s
  end.

(** [get_scheduler(optimizer, opt)], as a function of the options it
    reads.  The last branch returns the exception it builds. *)
Definition get_scheduler (lr_policy : string)
    (epoch_count niter niter_decay lr_decay_iters : Z) : result SchedulerValue :=
  if String.eqb lr_policy "lambda"
  then new_scheduler (LambdaLR epoch_count niter niter_decay)
  else if String.eqb lr_policy "step"
  then new_scheduler (StepLR lr_decay_iters)
  else if String.eqb lr_policy "plateau"
  then new_scheduler ReduceLROnPlateau
  else Ok (NotImplementedErrorObject
             "learning rate policy [%s] is not implemented" lr_policy).

End Schedulers.

(** *** Weight initialisation *)

(** An attribute of a module: absent, None, or a tensor. *)
Inductive Attr : Type :=
| Missing
| IsNone
| IsTensor.

(** What [init_func] reads of a module: the name of its class and its
    [weight] and [bias] attributes. *)
Record ModuleInfo : Type := mkModuleInfo
  { mi_classname : string; mi_weight : Attr; mi_bias : Attr }.

(** The calls into [torch.nn.init]. *)
Inductive InitAction : Type :=
| NormalWeight (mean_is_one : bool) (std : PrimFloat.float)
| XavierNormalWeight (gain : PrimFloat.float)
| KaimingNormalWeight
| OrthogonalWeight (gain : PrimFloat.float)
| ZeroBias.

Definition not_implemented_init_msg (init_type : string) : string :=
  ("initialization method [" ++ init_type ++ "] is not implemented")%string.

(** [hasattr(m, name)] *)
Definition hasattr (a : Attr) : bool :=
  match a with Missing => false | IsNone | IsTensor => true end.

(** [m.weight.data] / [m.bias.data] *)
Definition attr_data (name : string) (a : Attr) : result unit :=
  match a with
  | IsTensor => Ok tt
  | IsNone => Err (AttributeError "data")
  | Missing => Err (AttributeError name)
  end.

(** The first test of [init_func]: a module with a weight whose class name
    has 'Conv' or 'Linear' in it. *)
Definition is_conv_or_linear (m : ModuleInfo) : bool :=
  hasattr (mi_weight m)
  && (contains "Conv" (mi_classname m) || contains "Linear" (mi_classname m)).

(** The initialiser chosen by [init_type] for a convolution or linear
    weight, if [init_type] names one. *)
Definition weight_init_action (init_type : string) (init_gain : PrimFloat.float)
  : option InitAction :=
  if String.eqb init_type "normal" then Some (NormalWeight false init_gain)
  else if String.eqb init_type "xavier" then Some (XavierNormalWeight init_gain)
  else if String.eqb init_type "kaiming" then Some KaimingNormalWeight
  else if String.eqb init_type "orthogonal" then Some (OrthogonalWeight init_gain)
  else None.

Section WeightInit.

(** The exception, if any, an initialiser raises on the tensor of a module. *)
Variable init_error : InitAction -> ModuleInfo -> option PyError.

(** A call of an initialiser on the weight or bias of [m]; the log holds
    the calls made so far. *)
Definition call_init (act : InitAction) (m : ModuleInfo)
    (log : list (ModuleInfo * InitAction)) : result (list (ModuleInfo * InitAction)) :=
  match init_error act m with
  | Some e => Err e
  | None => Ok (log ++ [(m, act)])
  end.

(** [init_func(m)] of [init_weights] *)
Definition init_func (init_type : string) (init_gain : PrimFloat.float)
    (m : ModuleInfo) (log : list (ModuleInfo * InitAction))
  : result (list (ModuleInfo * InitAction)) :=
  (if is_conv_or_linear m
   then match weight_init_action init_type init_gain with
        | Some act => _ <- attr_data "weight" (mi_weight m) ;; call_init act m log
        | None => Err (NotImplementedError (not_implemented_init_msg init_type))
        end
   else if contains "BatchNorm2d" (mi_classname m)
   then _ <- attr_data "weight" (mi_weight m) ;;
        log <- call_init (NormalWeight true init_gain) m log ;;
        _ <- attr_data "bias" (mi_bias m) ;;
        call_init ZeroBias m log
   else Ok log)%res.

(** [init_weights(net, init_type, init_gain)]: [net.apply(init_func)] on
    the modules of the net, in the order [apply] visits them. *)
Definition init_weights (modules : list ModuleInfo) (init_type : string)
    (init_gain : PrimFloat.float) : result (list (ModuleInfo * InitAction)) :=
  rfold (init_func init_type init_gain) modules [].

(** The wrapper [torch.nn.DataParallel] as a module. *)
Definition data_parallel_module : ModuleInfo :=
  mkModuleInfo "DataParallel" Missing Missing.

(** Whether cuda is available, and the exception, if any, that moving the
    net to the devices and wrapping it raises. *)
Variable cuda_is_available : bool.
Variable cuda_error : list Z -> option PyError.

(** [init_net(net, init_type, init_gain, gpu_ids)] on the modules of the
    net: yields whether the net is wrapped in DataParallel, and the
    initialiser calls made. *)
Definition init_net (modules : list ModuleInfo) (init_type : string)
    (init_gain : PrimFloat.float) (gpu_ids : list Z)
  : result (bool * list (ModuleInfo * InitAction)) :=
  (wrapped <- (if 0 <? len gpu_ids
               then _ <- py_assert cuda_is_available "" ;;
                    match cuda_error gpu_ids with
                    | Some e => Err e
                    | None => Ok true
                    end
               else Ok false) ;;
   let modules := if wrapped : bool then modules ++ [data_parallel_module]
                  else modules in
   if negb (String.eqb init_type "none")
   then log <- init_weights modules init_type init_gain ;; Ok (wrapped, log)
   else Ok (wrapped, []))%res.

End WeightInit.

(** *** The network factory *)

(** The options [define_classifier] reads from [opt]. *)
Record Options : Type := mkOptions
  { opt_norm : string;
    opt_num_groups : Z;
    opt_pool_res : list Z;
    opt_fc_n : Z;
    opt_resblocks : Z;
    opt_attn_n_heads : Z;
    opt_attn_max_dist : option Z;
    opt_attn_dropout : option PrimFloat.float;
    opt_prioritize_with_attention : option bool;
    opt_attn_use_values_as_is : option bool;
    opt_double_attention : option bool;
    opt_attn_use_positional_encoding : option bool;
    opt_attn_max_relative_position : option Z }.

(** The attention keyword arguments taken from the options. *)
Definition opt_attn_args (opt : Options) : AttnArgs :=
  {| attn_n_heads := Some (opt_attn_n_heads opt);
     attn_max_dist := opt_attn_max_dist opt;
     attn_dropout := opt_attn_dropout opt;
     prioritize_with_attention := opt_prioritize_with_attention opt;
     attn_use_values_as_is := opt_attn_use_values_as_is opt;
     double_attention := opt_double_attention opt;
     attn_use_positional_encoding := opt_attn_use_positional_encoding opt;
     attn_max_relative_position := opt_attn_max_relative_position opt |}.

(** The networks [define_classifier] builds. *)
Inductive Network : Type :=
| NetMeshConvNet (n : MeshConvNet)
| NetMeshAttentionNet (n : MeshAttentionNet)
| NetMeshEncoderDecoder (n : MeshEncoderDecoder)
| NetMeshEncoderDecoderWithAttention (n : MeshEncoderDecoder).

Definition arch_not_recognized_msg (arch : string) : string :=
  ("Encoder model name [" ++ arch ++ "] is not recognized")%string.

Section Factory.

Context (B : Backend).

(** [define_classifier] up to the call of [init_net]: the normalisation
    factory, then the network selected by [arch]. *)
Definition build_network (input_nc : Z) (ncf : list Z)
    (ninput_edges nclasses : Z) (opt : Options) (arch : string)
  : result Network :=
  (norm_layer <- get_norm_layer (opt_norm opt) (opt_num_groups opt) ;;
   if String.eqb arch "mconvnet"
   then n <- MeshConvNet_init B norm_layer input_nc ncf nclasses ninput_edges
               (opt_pool_res opt) (opt_fc_n opt) (opt_resblocks opt) ;;
        Ok (NetMeshConvNet n)
   else if String.eqb arch "meshattentionnet"
   then n <- MeshAttentionNet_init B norm_layer input_nc ncf nclasses
               ninput_edges (opt_pool_res opt) (opt_fc_n opt)
               (opt_attn_n_heads opt) (opt_resblocks opt) (opt_attn_args opt) ;;
        Ok (NetMeshAttentionNet n)
   else if String.eqb arch "meshunet"
   then let down_convs := [input_nc] ++ ncf in
        let up_convs := rev ncf ++ [nclasses] in
        let pool_res := [ninput_edges] ++ opt_pool_res opt in
        n <- MeshEncoderDecoder_init B pool_res down_convs up_convs
               (opt_resblocks opt) true ;;
        Ok (NetMeshEncoderDecoder n)
   else if String.eqb arch "meshunetwithattention"
   then let down_convs := [input_nc] ++ ncf in
        let up_convs := rev ncf ++ [nclasses] in
        let pool_res := [ninput_edges] ++ opt_pool_res opt in
        n <- MeshEncoderDecoderWithAttention_init B pool_res down_convs up_convs
               (opt_resblocks opt) true (opt_attn_args opt) ;;
        Ok (NetMeshEncoderDecoderWithAttention n)
   else Err (NotImplementedError (arch_not_recognized_msg arch)))%res.

(** The modules [net.apply] visits, as the layer library lays them out. *)
Variable modules_of : Network -> list ModuleInfo.
Variable init_error : InitAction -> ModuleInfo -> option PyError.
Variable cuda_is_available : bool.
Variable cuda_error : list Z -> option PyError.

(** [define_classifier(input_nc, ncf, ninput_edges, nclasses, opt, gpu_ids,
    arch, init_type, init_gain)]: the network, whether it is wrapped in
    DataParallel, and the initialiser calls made on it. *)
Definition define_classifier (input_nc : Z) (ncf : list Z)
    (ninput_edges nclasses : Z) (opt : Options) (gpu_ids : list Z)
    (arch init_type : string) (init_gain : PrimFloat.float)
  : result (Network * bool * list (ModuleInfo * InitAction)) :=
  (net <- build_network input_nc ncf ninput_edges nclasses opt arch ;;
   '(wrapped, log) <- init_net init_error cuda_is_available cuda_error
                        (modules_of net) init_type init_gain gpu_ids ;;
   Ok (net, wrapped, log))%res.

End Factory.

(** ** Notions used in the further statements *)

(** The unroll layer of the decoder stage built at index [i]. *)
Definition built_unroll (unrolls : list Z) (i : nat) : option MeshUnpool :=
  match nth_error unrolls i with
  | Some p => if p =? 0 then None else Some (mkMeshUnpool p)
  | None => None
  end.

(** A backend none of whose operations raises, unpooling and concatenation
    included. *)
Definition DecoderTotal (B : Backend) : Prop :=
  BackendTotal B /\
  (forall u x m, is_ok (MeshUnpool_call B u x m) = true) /\
  (forall x y d, is_ok (cat_tensors B x y d) = true).

(** The skip input of decoder stage [i] can be read and, when the stage
    concatenates it, is a tensor. *)
Definition skip_ready (B : Backend) (transfer_data : bool)
    (encoder_outs : option (list (option (Tensor B)))) (i : Z) : bool :=
  match skip_input B encoder_outs i with
  | Ok before_pool => negb transfer_data || is_some before_pool
  | Err _ => false
  end.

(** The pooling calls of the first [n] stages of an encoder built on
    [pools], in order. *)
Definition pooled_events (pools : list Z) (n : nat) : list MeshEvent :=
  flat_map (fun i => match built_pool pools i with
                     | Some p => [Pooled (mp_target p)]
                     | None => []
                     end) (seq 0 n).

(** The unpooling calls of the first [n] stages of a decoder built on
    [unrolls], in order. *)
Definition unpooled_events (unrolls : list Z) (n : nat) : list MeshEvent :=
  flat_map (fun i => match built_unroll unrolls i with
                     | Some u => [Unpooled (mu_target u)]
                     | None => []
                     end) (seq 0 n).

(** The object [UpConv.__init__] builds, once the layer constructors have
    accepted its layers. *)
Definition UpConv_object (in_channels out_channels blocks : Z)
    (unroll : option MeshUnpool) (residual batch_norm transfer_data : bool)
  : UpConv :=
  {| uc_residual := residual;
     uc_bn := if batch_norm
              then repeat (mkInstanceNorm2d out_channels) (Z.to_nat (blocks + 1))
              else [];
     uc_unroll := unroll;
     uc_transfer_data := transfer_data;
     uc_up_conv := mkMeshConv in_channels out_channels None;
     uc_conv1 := mkMeshConv (if transfer_data then 2 * out_channels
                             else out_channels) out_channels None;
     uc_conv2 := repeat (mkMeshConv out_channels out_channels None)
                        (Z.to_nat blocks) |}.

(** The object [DownConv.__init__] builds, once the layer constructors
    have accepted its layers. *)
Definition DownConv_object (in_channels out_channels blocks : Z)
    (pool : option MeshPool) : DownConv :=
  {| dc_bn := repeat (mkInstanceNorm2d out_channels) (Z.to_nat (blocks + 1));
     dc_pool := pool;
     dc_conv1 := mkMeshConv in_channels out_channels None;
     dc_conv2 := repeat (mkMeshConv out_channels out_channels None)
                        (Z.to_nat blocks) |}.

(** The object [DownConvWithAttention.__init__] builds: the inherited
    fields with the pooling layer moved to [real_pool], and an attention
    layer of [heads] heads of [head_size] channels each over [out_channels]
    channels. *)
Definition DownConvWithAttention_object (in_channels out_channels blocks : Z)
    (pool : option MeshPool) (heads head_size : Z) (a : AttnArgs)
  : DownConvWithAttention :=
  {| dca_base := DownConv_object in_channels out_channels blocks None;
     dca_real_pool := pool;
     dca_attention :=
       {| ma_n_head := heads; ma_d_model := out_channels;
          ma_d_k := head_size;
          ma_d_v := head_size;
          ma_attn_max_dist := attn_max_dist a;
          ma_dropout := attn_dropout a;
          ma_use_values_as_is := attn_use_values_as_is a;
          ma_use_positional_encoding := attn_use_positional_encoding a;
          ma_max_relative_position := attn_max_relative_position a |};
     dca_prioritize_with_attention := prioritize_with_attention a;
     dca_double_attention := double_attention a |}.

(** The stage of the encoder for the channel counts [cin], [cout]; with
    attention heads, each has [head_size] channels. *)
Definition DownStage_object (cin cout blocks : Z) (pool : option MeshPool)
    (head_size : Z) (a : AttnArgs) : DownStage :=
  match attn_n_heads a with
  | None => PlainDown (DownConv_object cin cout blocks pool)
  | Some heads =>
      AttnDown (DownConvWithAttention_object cin cout blocks pool heads
                                             head_size a)
  end.

(** Decoder stage [i] of an encoder-decoder with [n] encoder stages finds
    its skip input: the cache has an entry [-(i + 2)], and, when skip data
    is transferred, the encoder stage [n - 2 - i] that wrote it pools. *)
Definition skip_fed (pools : list Z) (n : nat) (transfer_data : bool) (i : nat)
  : bool :=
  (i + 2 <=? n)%nat
  && (negb transfer_data || is_some (built_pool pools (n - 2 - i))).

(** [pool_res[j]] exists and is not zero. *)
Definition pool_target_set (pool_res : list Z) (j : nat) : bool :=
  match nth_error pool_res j with
  | Some p => negb (p =? 0)
  | None => false
  end.

(** The options of a segmentation run: group normalisation, three pooling
    targets, one residual block. *)
Definition segmentation_options : Options :=
  mkOptions "group" 16 [1800; 1350; 600] 100 1 4 None None None None None
            None None.

(** The priorities an attention stage hands to its pooling layer, on the
    symbolic backend: none without [prioritize_with_attention]; else the
    per-edge attention of the first pass over the features [x], or, with
    double attention, of a second pass over the detached output of the
    first. *)
Definition sym_edge_priorities (d : DownConvWithAttention) (x : SymTensor)
  : option SymTensor :=
  if truthy (dca_prioritize_with_attention d)
  then Some (SAttnPerEdge (dca_attention d)
               (if truthy (dca_double_attention d)
                then SDetach (SAttnFeatures (dca_attention d) x)
                else x))
  else None.

(** The values of [global_pool] the head block of [MeshEncoder.__init__]
    has a branch for: None, 'max' and 'avg'. *)
Definition known_global_pool (global_pool : option string) : bool :=
  match global_pool with
  | None => true
  | Some g => String.eqb g "max" || String.eqb g "avg"
  end.

(** ** Forward passes of the classifiers *)

From Stdlib Require DecimalString.

(** The operations of the tensor library that only the classifiers call:
    a [BatchNorm2d] layer, a layer made by one of the partial factories of
    [get_norm_layer], and [x.view(-1, n)].  Each may raise. *)
Record ClassifierOps (B : Backend) : Type := mkClassifierOps
  { BatchNorm2d_call : BatchNorm2d -> Tensor B -> result (Tensor B);
    TorchNorm_call : NormLayer -> Tensor B -> result (Tensor B);
    view_rows : Z -> Tensor B -> result (Tensor B) }.

Arguments BatchNorm2d_call {B} _ _ _.
Arguments TorchNorm_call {B} _ _ _.
Arguments view_rows {B} _ _ _.

(** ['name{}'.format(i)] *)
Definition indexed_name (name : string) (i : Z) : string :=
  (name ++ DecimalString.NilZero.string_of_int (Z.to_int i))%string.

(** [getattr(self, 'name{}'.format(i))] for the layers a constructor has
    set with [setattr] for the indices [0], [1], ... in turn: layer [k] of
    the list is the attribute of [first + k]. *)
Definition py_getattr {A : Type} (name : string) (first : Z) (layers : list A)
    (i : Z) : result A :=
  if i <? first then Err (AttributeError (indexed_name name i))
  else match nth_error layers (Z.to_nat (i - first)) with
       | Some a => Ok a
       | None => Err (AttributeError (indexed_name name i))
       end.

Section ClassifierForward.

Context (B : Backend) (ops : ClassifierOps B).

Local Notation "x <- c ;; k" := (bind c (fun x => k))
  (at level 61, c at next level, right associativity) : fwd_scope.
Local Notation "' pat <- c ;; k" :=
  (bind c (fun x => match x with pat => k end))
  (at level 61, pat pattern, c at next level, right associativity) : fwd_scope.
Local Open Scope fwd_scope.

(** [for x in l: acc = body(x, acc)] in a forward computation. *)
Fixpoint mfold {A S : Type} (body : A -> S -> M B S) (l : list A) (acc : S)
  : M B S :=
  match l with
  | [] => ret B acc
  | x :: rest => acc <- body x acc ;; mfold body rest acc
  end.

(** [NoNorm.forward(x)] *)
Definition NoNorm_forward (x : Tensor B) : Tensor B := x.

(** A call of a layer [norm_layer(...)] made from a factory of
    [get_norm_layer]. *)
Definition NormLayer_call (n : NormLayer) (x : Tensor B) : result (Tensor B) :=
  match nl_factory n with
  | NoNormClass => Ok (NoNorm_forward x)
  | _ => TorchNorm_call ops n x
  end.

(** Body of [for i in range(self.skips)] of [MResConv.forward]. *)
Definition MResConv_block (r : MResConv) (i : Z) (x : Tensor B)
  : M B (Tensor B) :=
  '(bn, _) <- lift B (py_getattr "bn" 1 (mr_blocks r) (i + 1)) ;;
  x <- lift B (BatchNorm2d_call ops bn (relu B x)) ;;
  '(_, conv) <- lift B (py_getattr "conv" 1 (mr_blocks r) (i + 1)) ;;
  MeshConv_call B conv x.

(** [MResConv.forward(x, mesh)] *)
Definition MResConv_forward (r : MResConv) (x : Tensor B) : M B (Tensor B) :=
  x <- MeshConv_call B (mr_conv0 r) x ;;
  let x1 := x in
  x <- mfold (MResConv_block r) (py_range (mr_skips r)) x ;;
  x <- lift B (tensor_add B x x1) ;;
  ret B (relu B x).

(** The lines of the loop of both classifiers up to the normalised,
    rectified features of stage [i]. *)
Definition classifier_features (stages : list ClassifierStage) (i : Z)
    (x : Tensor B) : M B (ClassifierStage * Tensor B) :=
  s <- lift B (py_getattr "conv" 0 stages i) ;;
  x <- MResConv_forward (cs_conv s) x ;;
  x <- lift B (NormLayer_call (cs_norm s) x) ;;
  ret B (s, relu B x).

(** Body of the loop of [MeshConvNet.forward]. *)
Definition MeshConvNet_stage (net : MeshConvNet) (i : Z) (x : Tensor B)
  : M B (Tensor B) :=
  '(s, x) <- classifier_features (cn_stages net) i x ;;
  MeshPool_call B (cs_pool s) x None.

(** The lines after the loop of both classifiers. *)
Definition classifier_tail (k : list Z) (gp : GlobalPool) (fc1 fc2 : Linear)
    (x : Tensor B) : result (Tensor B) :=
  (x <- GlobalPool_call B gp x ;;
   last_k <- py_index k (-1) ;;
   x <- view_rows ops last_k x ;;
   x <- Linear_call B fc1 x ;;
   let x := relu B x in
   Linear_call B fc2 x)%res.

(** [MeshConvNet.forward(x, mesh)] *)
Definition MeshConvNet_forward (net : MeshConvNet) (x : Tensor B)
  : M B (Tensor B) :=
  x <- mfold (MeshConvNet_stage net) (py_range (len (cn_k net) - 1)) x ;;
  lift B (classifier_tail (cn_k net) (cn_gp net) (cn_fc1 net) (cn_fc2 net) x).

(** Body of the loop of [MeshAttentionNet.forward]. *)
Definition MeshAttentionNet_stage (net : MeshAttentionNet) (i : Z)
    (x : Tensor B) : M B (Tensor B) :=
  '(s, x) <- classifier_features (an_stages net) i x ;;
  attention_layer <- lift B (match cs_attention s with
                           | Some a => Ok a
                           | None => Err (AttributeError
                                            (indexed_name "attention" i))
                           end) ;;
  '(x, attn, attn_per_edge, dist_matrices) <-
      MeshAttention_call B attention_layer x None ;;
  attn_per_edge <-
    (if truthy (an_double_attention net)
     then '(_, _, ape, _) <- MeshAttention_call B attention_layer
                               (detach B x) (Some dist_matrices) ;;
          ret B ape
     else ret B attn_per_edge) ;;
  let edge_priorities :=
    if truthy (an_prioritize_with_attention net)
    then Some attn_per_edge else None in
  MeshPool_call B (cs_pool s) x edge_priorities.

(** [MeshAttentionNet.forward(x, mesh)] *)
Definition MeshAttentionNet_forward (net : MeshAttentionNet) (x : Tensor B)
  : M B (Tensor B) :=
  x <- mfold (MeshAttentionNet_stage net) (py_range (len (an_k net) - 1)) x ;;
  lift B (classifier_tail (an_k net) (an_gp net) (an_fc1 net) (an_fc2 net) x).

End ClassifierForward.

(** *** A symbolic backend with the classifiers' operations

    As the symbolic backend above, with terms for the three operations of
    [ClassifierOps] as well. *)

#[warnings="-register-all"]
Inductive ClsTensor : Type :=
| KInput (name : Z)
| KMeshConv (c : MeshConv) (x : ClsTensor)
| KMeshPool (p : MeshPool) (x : ClsTensor) (priorities : option ClsTensor)
| KMeshUnpool (u : MeshUnpool) (x : ClsTensor)
| KAttnFeatures (a : MeshAttention) (x : ClsTensor)
| KAttnWeights (a : MeshAttention) (x : ClsTensor)
| KAttnPerEdge (a : MeshAttention) (x : ClsTensor)
| KInstanceNorm2d (n : InstanceNorm2d) (x : ClsTensor)
| KInstanceNorm1d (n : InstanceNorm1d) (x : ClsTensor)
| KLinear (l : Linear) (x : ClsTensor)
| KGlobalPool (g : GlobalPool) (x : ClsTensor)
| KRelu (x : ClsTensor)
| KDetach (x : ClsTensor)
| KAdd (x y : ClsTensor)
| KSqueeze (dim : Z) (x : ClsTensor)
| KUnsqueeze (dim : Z) (x : ClsTensor)
| KFlatten (x : ClsTensor)
| KCat (x y : ClsTensor) (dim : Z)
| KBatchNorm2d (n : BatchNorm2d) (x : ClsTensor)
| KTorchNorm (n : NormLayer) (x : ClsTensor)
| KView (n : Z) (x : ClsTensor).

Definition ClsBackend : Backend :=
  {| Tensor := ClsTensor;
     Meshes := list MeshEvent;
     DistMatrices := SymDist;
     ctor_error := fun _ => None;
     MeshConv_call := fun c x m => Ok (KMeshConv c x, m);
     MeshPool_call := fun p x pr m => Ok (KMeshPool p x pr, m ++ [Pooled (mp_target p)]);
     MeshUnpool_call := fun u x m => Ok (KMeshUnpool u x, m ++ [Unpooled (mu_target u)]);
     MeshAttention_call := fun a x _ m =>
       Ok ((KAttnFeatures a x, KAttnWeights a x, KAttnPerEdge a x, SDist a), m);
     InstanceNorm2d_call := fun n x => Ok (KInstanceNorm2d n x);
     InstanceNorm1d_call := fun n x => Ok (KInstanceNorm1d n x);
     Linear_call := fun l x => Ok (KLinear l x);
     GlobalPool_call := fun g x => Ok (KGlobalPool g x);
     relu := KRelu;
     detach := KDetach;
     tensor_add := fun x y => Ok (KAdd x y);
     squeeze := fun d x => Ok (KSqueeze d x);
     unsqueeze := fun d x => Ok (KUnsqueeze d x);
     flatten_batch := fun x => Ok (KFlatten x);
     cat_tensors := fun x y d => Ok (KCat x y d) |}.

Definition ClsOps : ClassifierOps ClsBackend :=
  mkClassifierOps ClsBackend
    (fun n x => Ok (KBatchNorm2d n x))
    (fun n x => Ok (KTorchNorm n x))
    (fun n x => Ok (KView n x)).

(** *** Notions used in the statements on the classifiers *)

(** None of the classifiers' own operations raises. *)
Record ClassifierOpsTotal (B : Backend) (ops : ClassifierOps B) : Prop :=
  mkClassifierOpsTotal
  { batch_norm_total : forall n x, is_ok (BatchNorm2d_call ops n x) = true;
    torch_norm_total : forall n x, is_ok (TorchNorm_call ops n x) = true;
    view_total : forall n x, is_ok (view_rows ops n x) = true }.

(** The object [MResConv(in_channels, out_channels, skips)]. *)
Definition MResConv_object (in_channels out_channels skips : Z) : MResConv :=
  {| mr_in_channels := in_channels; mr_out_channels := out_channels;
     mr_skips := skips;
     mr_conv0 := mkMeshConv in_channels out_channels (Some false);
     mr_blocks := repeat (mkBatchNorm2d out_channels,
                          mkMeshConv out_channels out_channels (Some false))
                         (Z.to_nat skips) |}.

(** The term of a block of [MResConv.forward] on [out_channels] channels. *)
Definition sym_res_block (out_channels : Z) (x : ClsTensor) : ClsTensor :=
  KMeshConv (mkMeshConv out_channels out_channels (Some false))
            (KBatchNorm2d (mkBatchNorm2d out_channels) (KRelu x)).

(** The priorities a stage of the attention classifier hands to its
    pooling layer, on the symbolic backend; [x] is what the attention layer
    [a] of the stage is applied to. *)
Definition cls_edge_priorities (net : MeshAttentionNet) (a : MeshAttention)
    (x : ClsTensor) : option ClsTensor :=
  if truthy (an_prioritize_with_attention net)
  then Some (KAttnPerEdge a
               (if truthy (an_double_attention net)
                then KDetach (KAttnFeatures a x)
                else x))
  else None.

(** The term of [MResConv(in_channels, out_channels, skips).forward] on
    [x]: the blocks are applied to the output of [conv0], which is then
    added to their result. *)
Definition sym_res_conv (in_channels out_channels skips : Z) (x : ClsTensor)
  : ClsTensor :=
  let x1 := KMeshConv (mkMeshConv in_channels out_channels (Some false)) x in
  KRelu (KAdd (Nat.iter (Z.to_nat skips) (sym_res_block out_channels) x1) x1).

(** The term of a call of the normalisation layer [n] on [x]. *)
Definition sym_norm (n : NormLayer) (x : ClsTensor) : ClsTensor :=
  match nl_factory n with
  | NoNormClass => x
  | _ => KTorchNorm n x
  end.

(** The term of the lines after the loop of the classifiers. *)
Definition sym_classifier_tail (last_k last_res fc_n nclasses : Z)
    (x : ClsTensor) : ClsTensor :=
  KLinear (mkLinear fc_n nclasses)
    (KRelu (KLinear (mkLinear last_k fc_n)
              (KView last_k (KGlobalPool (AvgPool1d last_res) x)))).

(** ** The up-convolution stage with attention *)

(** What [UpConvWithAttention.forward] reads of the object: the inherited
    stage and the attention layer. *)
Record UpConvWithAttention : Type := mkUpConvWithAttention
  { uca_base : UpConv;
    uca_attention : MeshAttention }.

(** A value in the tuple an attention layer returns. *)
Inductive AttnValue (B : Backend) : Type :=
| VTensor (t : Tensor B)
| VDistMatrices (d : DistMatrices B).

Arguments VTensor {B} t.
Arguments VDistMatrices {B} d.

(** [a, b, c = values] for a tuple [values]: it must have three entries. *)
Definition unpack_three {V : Type} (values : list V) : result (V * V * V) :=
  match values with
  | [a; b; c] => Ok (a, b, c)
  | _ =>
      if 3 <? len values
      then Err (ValueError "too many values to unpack (expected 3)")
      else Err (ValueError
                  (indexed_name "not enough values to unpack (expected 3, got "
                                (len values) ++ ")"))
  end.

(** The tuple [(x, attn, attn_per_edge, dist_matrices)] that
    [MeshAttentionNet.forward] and [DownConvWithAttention.forward] unpack
    from a call of the attention layer. *)
Definition attention_tuple (B : Backend)
    (r : Tensor B * Tensor B * Tensor B * DistMatrices B)
  : list (AttnValue B) :=
  let '(x, attn, attn_per_edge, dist_matrices) := r in
  [VTensor x; VTensor attn; VTensor attn_per_edge; VDistMatrices dist_matrices].

(** The call [attention(x2, meshes)] of the attention layer of the
    backend, as the tuple it returns. *)
Definition backend_attention (B : Backend) (a : MeshAttention) (x : Tensor B)
  : M B (list (AttnValue B)) :=
  fun meshes =>
    match MeshAttention_call B a x None meshes with
    | Ok (r, meshes) => Ok (attention_tuple B r, meshes)
    | Err e => Err e
    end.

Section UpAttention.

Context (B : Backend).

(** The call [self.attention(x2, meshes)], for an attention layer that
    returns a tuple of any length. *)
Variable attention_call : MeshAttention -> Tensor B -> M B (list (AttnValue B)).

Local Notation "x <- c ;; k" := (bind c (fun x => k))
  (at level 61, c at next level, right associativity) : fwd_scope.
Local Notation "' pat <- c ;; k" :=
  (bind c (fun x => match x with pat => k end))
  (at level 61, pat pattern, c at next level, right associativity) : fwd_scope.
Local Open Scope fwd_scope.

(** [UpConvWithAttention.forward((from_up, meshes), from_down)]; the value
    returned is [x2], the first of the three unpacked. *)
Definition UpConvWithAttention_forward (u : UpConvWithAttention)
    (from_up : Tensor B) (from_down : option (Tensor B)) : M B (AttnValue B) :=
  x2 <- UpConv_forward B (uca_base u) from_up from_down ;;
  values <- attention_call (uca_attention u) x2 ;;
  '(x2, _, _) <- lift B (unpack_three values) ;;
  ret B x2.

End UpAttention.

(** * Properties *)

(** ** True division of integers *)

Lemma pow2_pos (n : Z) : 0 <= n -> 0 < 2 ^ n.
Proof. intro H. apply Z.pow_pos_nonneg; lia. Qed.

Lemma pow2_split (n m : Z) : 0 <= n -> 0 <= m -> 2 ^ (n + m) = 2 ^ n * 2 ^ m.
Proof. intros. apply Z.pow_add_r; lia. Qed.

Lemma pow2_le (n m : Z) : 0 <= n <= m -> 2 ^ n <= 2 ^ m.
Proof. intro H. apply Z.pow_le_mono_r; lia. Qed.

(** [x / y < 2^e], with the powers on the side that keeps them integers,
    is the same at every scale [N]. *)
Lemma scaled_lt_iff (x y e N : Z) :
  0 <= N -> 0 <= N + e ->
  (x * 2 ^ Z.max 0 (- e) < y * 2 ^ Z.max 0 e <-> x * 2 ^ N < y * 2 ^ (N + e)).
Proof.
  intros HN HNe. destruct (Z.le_gt_cases 0 e) as [He | He].
  - rewrite (Z.max_l 0 (- e)), (Z.max_r 0 e) by lia.
    rewrite Z.pow_0_r, Z.mul_1_r, (Z.add_comm N e), (pow2_split e N) by lia.
    rewrite Z.mul_assoc. pose proof (pow2_pos N HN).
    split; intro H0; nia.
  - rewrite (Z.max_r 0 (- e)), (Z.max_l 0 e) by lia.
    rewrite Z.pow_0_r, Z.mul_1_r.
    replace N with (- e + (N + e)) at 1 by lia.
    rewrite (pow2_split (- e) (N + e)) by lia.
    rewrite Z.mul_assoc. pose proof (pow2_pos (N + e) HNe).
    split; intro H0; nia.
Qed.

Lemma scaled_le_iff (x y e N : Z) :
  0 <= N -> 0 <= N + e ->
  (y * 2 ^ Z.max 0 e <= x * 2 ^ Z.max 0 (- e) <-> y * 2 ^ (N + e) <= x * 2 ^ N).
Proof.
  intros HN HNe. pose proof (scaled_lt_iff x y e N HN HNe) as H. lia.
Qed.

Section QuotientLog2.

Variables a b : Z.
Hypothesis a_pos : 0 < a.
Hypothesis b_pos : 0 < b.

(** [a / b < 2^(quotient_log2 a b + 1)] *)
Lemma quotient_log2_upper (N : Z) :
  0 <= N -> 0 <= N + quotient_log2 a b + 1 ->
  a * 2 ^ N < b * 2 ^ (N + quotient_log2 a b + 1).
Proof.
  intros HN HNe. unfold quotient_log2 in *.
  destruct (Z.log2_spec a a_pos) as [Hla Hua].
  destruct (Z.log2_spec b b_pos) as [Hlb Hub].
  pose proof (Z.log2_nonneg a) as Hla0. pose proof (Z.log2_nonneg b) as Hlb0.
  set (k := Z.log2 a - Z.log2 b) in *.
  rewrite !Z.shiftl_mul_pow2 in * by lia.
  destruct (Z.ltb_spec (a * 2 ^ Z.max 0 (- k)) (b * 2 ^ Z.max 0 k)) as [Hlt | Hge].
  - replace (N + (k - 1) + 1) with (N + k) in * by lia.
    apply (scaled_lt_iff a b k N); [lia | lia | exact Hlt].
  - (* a < 2^(la+1) = 2^lb * 2^(k+1) <= b * 2^(k+1) *)
    apply Z.lt_le_trans with (2 ^ (Z.log2 a + 1 + N)).
    + rewrite (pow2_split (Z.log2 a + 1) N) by lia.
      pose proof (pow2_pos N HN).
      replace (Z.succ (Z.log2 a)) with (Z.log2 a + 1) in Hua by lia. nia.
    + replace (Z.log2 a + 1 + N) with (Z.log2 b + (N + k + 1)) by (unfold k; lia).
      rewrite (pow2_split (Z.log2 b) (N + k + 1)) by lia.
      pose proof (pow2_pos (N + k + 1) HNe). nia.
Qed.

(** [2^(quotient_log2 a b) <= a / b] *)
Lemma quotient_log2_lower (N : Z) :
  0 <= N -> 0 <= N + quotient_log2 a b ->
  b * 2 ^ (N + quotient_log2 a b) <= a * 2 ^ N.
Proof.
  intros HN HNe. unfold quotient_log2 in *.
  destruct (Z.log2_spec a a_pos) as [Hla Hua].
  destruct (Z.log2_spec b b_pos) as [Hlb Hub].
  pose proof (Z.log2_nonneg a) as Hla0. pose proof (Z.log2_nonneg b) as Hlb0.
  set (k := Z.log2 a - Z.log2 b) in *.
  rewrite !Z.shiftl_mul_pow2 in * by lia.
  destruct (Z.ltb_spec (a * 2 ^ Z.max 0 (- k)) (b * 2 ^ Z.max 0 k)) as [Hlt | Hge].
  - (* b * 2^(k-1) < 2^(lb+1) * 2^(k-1) = 2^la <= a *)
    apply Z.le_trans with (2 ^ (Z.log2 a + N)).
    + replace (Z.log2 a + N) with (Z.log2 b + 1 + (N + (k - 1))) by (unfold k; lia).
      rewrite (pow2_split (Z.log2 b + 1) (N + (k - 1))) by lia.
      pose proof (pow2_pos (N + (k - 1)) HNe).
      replace (Z.succ (Z.log2 b)) with (Z.log2 b + 1) in Hub by lia. nia.
    + rewrite (pow2_split (Z.log2 a) N) by lia. pose proof (pow2_pos N HN). nia.
  - apply (scaled_le_iff a b k N); [lia | lia | exact Hge].
Qed.

End QuotientLog2.

Lemma quotient_log2_le (a b : Z) :
  0 <= a -> 0 < b -> quotient_log2 a b <= Z.log2 a.
Proof.
  intros Ha Hb. unfold quotient_log2.
  pose proof (Z.log2_nonneg b).
  destruct (_ <? _); lia.
Qed.

(** The mantissa of the nearest float has at most 53 bits, or is [2^53]. *)
Lemma nearest_float_mantissa (a b : Z) :
  0 <= a -> 0 < b ->
  let num := Z.shiftl a (Z.max 0 (- snd (nearest_float a b))) in
  let den := Z.shiftl b (Z.max 0 (snd (nearest_float a b))) in
  0 < den /\ 0 <= num / den < 2 ^ 53 /\
  0 <= fst (nearest_float a b) <= 2 ^ 53.
Proof.
  intros Ha Hb. unfold nearest_float. cbv zeta. simpl fst. simpl snd.
  set (e := Z.max (quotient_log2 a b - 52) (-1074)).
  rewrite !Z.shiftl_mul_pow2 by lia.
  set (num := a * 2 ^ Z.max 0 (- e)). set (den := b * 2 ^ Z.max 0 e).
  assert (Hden : 0 < den).
  { unfold den. pose proof (pow2_pos (Z.max 0 e)). nia. }
  assert (Hnum : 0 <= num).
  { unfold num. pose proof (pow2_pos (Z.max 0 (- e))). nia. }
  assert (Hm : 0 <= num / den < 2 ^ 53).
  { split; [apply Z.div_pos; lia|].
    apply Z.div_lt_upper_bound; [exact Hden|].
    destruct (Z.eq_dec a 0) as [-> | Hne].
    { unfold num. rewrite Z.mul_0_l. pose proof (pow2_pos 53). nia. }
    unfold num, den.
    replace (b * 2 ^ Z.max 0 e * 2 ^ 53) with ((2 ^ 53 * b) * 2 ^ Z.max 0 e)
      by ring.
    set (N := Z.max 0 (- e) + Z.max 0 (- quotient_log2 a b)).
    apply (scaled_lt_iff a (2 ^ 53 * b) e N); [lia | lia |].
    apply Z.lt_le_trans with (b * 2 ^ (N + quotient_log2 a b + 1)).
    - apply quotient_log2_upper; lia.
    - replace (2 ^ 53 * b * 2 ^ (N + e)) with (b * (2 ^ 53 * 2 ^ (N + e)))
        by ring.
      rewrite <- (pow2_split 53 (N + e)) by lia.
      apply Z.mul_le_mono_nonneg_l; [lia|]. apply pow2_le. lia. }
  split; [exact Hden|]. split; [exact Hm|].
  match goal with
  | |- context [if ?c then _ else _] => destruct c
  end; lia.
Qed.

(** [int(a / b)] raises the overflow error only for [|a| >= 2^1023]. *)
Lemma py_int_div_returns (a b : Z) :
  b <> 0 -> Z.abs a < 2 ^ 1023 -> is_ok (py_int_div a b) = true.
Proof.
  intros Hb Ha. unfold py_int_div.
  destruct (Z.eqb_spec b 0) as [E | _]; [contradiction|].
  destruct (nearest_float (Z.abs a) (Z.abs b)) as [m e] eqn:E.
  assert (Hbpos : 0 < Z.abs b) by lia.
  pose proof (nearest_float_mantissa (Z.abs a) (Z.abs b) (Z.abs_nonneg a) Hbpos)
    as H.
  rewrite E in H. simpl in H. destruct H as (_ & _ & Hm).
  assert (He : e <= 970).
  { unfold nearest_float in E. inversion E as [[Em Ee]].
    pose proof (quotient_log2_le (Z.abs a) (Z.abs b)) as Hq.
    assert (Z.log2 (Z.abs a) < 1023).
    { destruct (Z.eq_dec (Z.abs a) 0) as [-> | Hne]; [reflexivity|].
      apply Z.log2_lt_pow2; lia. }
    lia. }
  assert (Hlog : Z.log2 m <= 53).
  { rewrite <- (Z.log2_pow2 53) by lia. apply Z.log2_le_mono. lia. }
  destruct (Z.leb_spec 1024 (Z.log2 m + e)) as [H | _]; [lia | reflexivity].
Qed.

(** Rounding a scaled quotient up does not reach the next integer, unless
    the divisor is at least twice the scale. *)
Lemma round_up_same_floor (A Bb P : Z) :
  0 <= A -> 0 < Bb -> 0 < P ->
  Bb <= 2 * ((A * P) mod Bb) ->
  (2 * P <= Bb -> False) ->
  (A * P / Bb + 1) / P = A / Bb.
Proof.
  intros HA HB HP Hup Hsmall.
  pose proof (Z.div_mod (A * P) Bb ltac:(lia)) as Hm0.
  pose proof (Z.mod_pos_bound (A * P) Bb HB) as Hr.
  pose proof (Z.div_mod A Bb ltac:(lia)) as Hq.
  pose proof (Z.mod_pos_bound A Bb HB) as Hra.
  set (m0 := A * P / Bb) in *. set (r := (A * P) mod Bb) in *.
  set (q := A / Bb) in *. set (ra := A mod Bb) in *.
  (* m0 = P * q + t with t = ra * P / Bb *)
  assert (Hm0q : m0 / P = q).
  { unfold m0, q. rewrite Z.div_div by lia.
    rewrite (Z.mul_comm Bb P), <- (Z.mul_comm P A).
    rewrite <- (Z.mul_comm A P), <- (Z.mul_comm Bb P).
    apply Z.div_mul_cancel_r; lia. }
  pose proof (Z.div_mod m0 P ltac:(lia)) as Hd.
  pose proof (Z.mod_pos_bound m0 P HP) as Ht.
  rewrite Hm0q in Hd. set (t := m0 mod P) in *.
  destruct (Z.lt_ge_cases (t + 1) P) as [Hlt | Hge].
  - symmetry. apply (Z.div_unique _ _ _ (t + 1)); lia.
  - exfalso. assert (Et : t = P - 1) by lia.
    (* r = Bb - P * (Bb - ra) *)
    assert (Er : r = Bb - P * (Bb - ra)) by nia.
    apply Hsmall. nia.
Qed.

(** [int(a / b)] returns for a divisor other than zero only. *)
Lemma py_int_div_divisor (a b q : Z) : py_int_div a b = Ok q -> b <> 0.
Proof.
  unfold py_int_div. intros H E. subst b. discriminate H.
Qed.

(** For [|a| < 2^53] the float nearest to the quotient truncates to the
    integer quotient: [int(a / b)] is then the quotient rounded toward
    zero. *)
Lemma py_int_div_exact (a b : Z) :
  b <> 0 -> Z.abs a < 2 ^ 53 -> py_int_div a b = Ok (Z.quot a b).
Proof.
  intros Hb Ha. unfold py_int_div.
  destruct (Z.eqb_spec b 0) as [E | _]; [contradiction|].
  rewrite (Z.quot_div a b Hb).
  assert (HA : 0 <= Z.abs a) by apply Z.abs_nonneg.
  assert (HB : 0 < Z.abs b) by lia.
  set (A := Z.abs a) in *. set (Bb := Z.abs b) in *.
  pose proof (nearest_float_mantissa A Bb HA HB) as Hmant.
  cbv zeta in Hmant. destruct Hmant as (Hden & Hm0 & Hm).
  unfold nearest_float in *. cbv zeta in *. simpl fst in *. simpl snd in *.
  set (e := Z.max (quotient_log2 A Bb - 52) (-1074)) in *.
  assert (Hfl : quotient_log2 A Bb <= 52).
  { pose proof (quotient_log2_le A Bb HA HB).
    destruct (Z.eq_dec A 0) as [E | Hne]; [rewrite E in *; simpl in *; lia|].
    assert (Z.log2 A < 53) by (apply Z.log2_lt_pow2; lia). lia. }
  assert (He : e <= 0) by lia.
  replace (Z.max 0 e) with 0 in * by lia.
  replace (Z.max 0 (- e)) with (- e) in * by lia.
  rewrite !Z.shiftl_mul_pow2 in * by lia.
  rewrite Z.pow_0_r, Z.mul_1_r in *.
  set (P := 2 ^ (- e)) in *.
  assert (HP : 0 < P) by (apply pow2_pos; lia).
  assert (Hshift : forall m, Z.shiftl m e = m / P).
  { intro m. replace e with (- (- e)) at 1 by lia.
    rewrite Z.shiftl_opp_r, Z.shiftr_div_pow2 by lia. reflexivity. }
  assert (Hfloor : A * P / Bb / P = A / Bb).
  { rewrite Z.div_div by lia. apply Z.div_mul_cancel_r; lia. }
  match goal with
  | |- context [if ?c then A * P / Bb + 1 else _] => destruct c eqn:Hup
  end.
  - (* rounded up *)
    assert (Hr : Bb <= 2 * ((A * P) mod Bb)).
    { apply orb_prop in Hup. destruct Hup as [H | H].
      - apply Z.ltb_lt in H. lia.
      - apply andb_prop in H. destruct H as [H _]. apply Z.eqb_eq in H. lia. }
    assert (Hsame : (A * P / Bb + 1) / P = A / Bb).
    { destruct (Z.eq_dec A 0) as [E | Hne].
      { rewrite E in Hr. rewrite Z.mul_0_l, Z.mod_0_l in Hr by lia. lia. }
      destruct (Z.le_gt_cases (-1074) (quotient_log2 A Bb - 52)) as [Hun | Hcl].
      - apply round_up_same_floor; try lia.
        intro Hbig.
        assert (Ee : - e = 52 - quotient_log2 A Bb) by lia.
        pose proof (quotient_log2_lower A Bb ltac:(lia) HB (- e + 1)
                      ltac:(lia) ltac:(lia)) as Hlow.
        replace (- e + 1 + quotient_log2 A Bb) with 53 in Hlow by lia.
        rewrite (pow2_split (- e) 1) in Hlow by lia.
        fold P in Hlow. change (2 ^ 1) with 2 in Hlow. nia.
      - (* subnormal scale: the mantissa is far below the scale *)
        assert (Ee : - e = 1074) by lia.
        assert (HPbig : 2 ^ 53 + 1 < P).
        { unfold P. rewrite Ee. reflexivity. }
        rewrite (Z.div_small (A * P / Bb + 1) P) by lia.
        rewrite <- Hfloor. symmetry. apply Z.div_small. lia. }
    assert (Hlog : Z.log2 (A * P / Bb + 1) <= 53).
    { rewrite <- (Z.log2_pow2 53) by lia. apply Z.log2_le_mono. lia. }
    destruct (Z.leb_spec 1024 (Z.log2 (A * P / Bb + 1) + e)) as [H | _]; [lia|].
    rewrite Hshift, Hsame. reflexivity.
  - assert (Hlog : Z.log2 (A * P / Bb) <= 53).
    { rewrite <- (Z.log2_pow2 53) by lia. apply Z.log2_le_mono. lia. }
    destruct (Z.leb_spec 1024 (Z.log2 (A * P / Bb) + e)) as [H | _]; [lia|].
    rewrite Hshift, Hfloor. reflexivity.
Qed.

Example sym_encoder_run :
  match MeshEncoder_init SymBackend [1000; 600; 300] [5; 16; 32] None 0 None
                         no_attention with
  | Ok e => match MeshEncoder_forward SymBackend e (SInput 0) [] with
            | Ok ((_, outs), m) =>
                (map is_some outs, m) = ([true; true], [Pooled 600; Pooled 300])
            | Err _ => False
            end
  | Err _ => False
  end.
Proof. vm_compute. reflexivity. Qed.

(** ** Basic facts about the monads and the loops *)

Lemma rbind_ok {A C : Type} (c : result A) (k : A -> result C) (r : C) :
  rbind c k = Ok r -> exists a, c = Ok a /\ k a = Ok r.
Proof. destruct c as [a | e]; simpl; intro H; [eauto | discriminate]. Qed.

Lemma bind_ok (B : Backend) {A C : Type} (c : M B A) (k : A -> M B C)
    (m m' : Meshes B) (r : C) :
  bind c k m = Ok (r, m') ->
  exists a m1, c m = Ok (a, m1) /\ k a m1 = Ok (r, m').
Proof.
  unfold bind. destruct (c m) as [[a m1] | e]; intro H; [eauto | discriminate].
Qed.

Lemma lift_ok (B : Backend) {A : Type} (r : result A) (m m' : Meshes B) (a : A) :
  lift B r m = Ok (a, m') -> r = Ok a /\ m' = m.
Proof.
  unfold lift. destruct r; intro H; inversion H; subst; auto.
Qed.

Lemma bind_assoc (B : Backend) {A C D : Type} (c : M B A) (k : A -> M B C)
    (k' : C -> M B D) (m : Meshes B) :
  bind (bind c k) k' m = bind c (fun a => bind (k a) k') m.
Proof. unfold bind. destruct (c m) as [[a m1] | e]; reflexivity. Qed.

Lemma bind_ext (B : Backend) {A C : Type} (c : M B A) (k k' : A -> M B C)
    (m : Meshes B) :
  (forall a m1, k a m1 = k' a m1) -> bind c k m = bind c k' m.
Proof.
  intro H. unfold bind. destruct (c m) as [[a m1] | e]; [apply H | reflexivity].
Qed.

(** A loop in the error monad preserves what each iteration preserves. *)
Lemma rfold_invariant {A S : Type} (P : S -> Prop) (body : A -> S -> result S) :
  (forall x acc acc', body x acc = Ok acc' -> P acc -> P acc') ->
  forall l acc r, rfold body l acc = Ok r -> P acc -> P r.
Proof.
  intros Hbody l. induction l as [| x rest IH]; simpl; intros acc r H Hacc.
  - inversion H; subst; assumption.
  - apply rbind_ok in H. destruct H as (acc' & Hx & Hrest).
    eapply IH; eauto.
Qed.

Lemma rfold_app {A S : Type} (body : A -> S -> result S) (l1 l2 : list A) (acc : S) :
  rfold body (l1 ++ l2) acc = rbind (rfold body l1 acc) (rfold body l2).
Proof.
  revert acc. induction l1 as [| x rest IH]; simpl; intro acc; [reflexivity|].
  destruct (body x acc) as [acc' | e]; simpl; [apply IH | reflexivity].
Qed.

(** ** Loss selection *)

(** C8. [define_loss] has no branch for a selector other than
    'classification' and 'segmentation': on any such selector the call
    ends in the unbound-local error of [return loss], not in a
    configuration error that names the selector. *)
Theorem define_loss_unknown_selector :
  forall mode : string,
    mode <> "classification"%string ->
    mode <> "segmentation"%string ->
    define_loss mode = Err (UnboundLocalError "loss").
Proof.
  intros mode Hc Hs. unfold define_loss.
  destruct (String.eqb_spec mode "classification") as [E | _]; [contradiction|].
  destruct (String.eqb_spec mode "segmentation") as [E | _]; [contradiction|].
  reflexivity.
Qed.

Lemma define_loss_unknown_selector_witness :
  define_loss "regression" = Err (UnboundLocalError "loss").
Proof.
  apply (define_loss_unknown_selector "regression");
    intro H; discriminate H.
Defined.

(** The sibling selectors of the module do raise an identifying error. *)
Lemma get_norm_layer_unknown_selector :
  get_norm_layer "layer" 1
  = Err (NotImplementedError "normalization layer [layer] is not found").
Proof. reflexivity. Qed.

Lemma define_loss_known_selectors :
  define_loss "classification" = Ok (CrossEntropyLoss None) /\
  define_loss "segmentation" = Ok (CrossEntropyLoss (Some (-1))).
Proof. split; reflexivity. Qed.

(** Where the float division departs from the integer quotient: it rounds
    from [2^53] on, also up to the next integer, and raises for a quotient
    out of range; the constructor of an attention stage raises with it. *)
Lemma py_int_div_float_effects :
  py_int_div 130 4 = Ok 32 /\
  py_int_div (-130) 4 = Ok (-32) /\
  py_int_div (2 ^ 53 + 1) 1 = Ok (2 ^ 53) /\
  py_int_div (3 * 10 ^ 30 - 1) (10 ^ 30) = Ok 3 /\
  py_int_div (10 ^ 400) 1 = Err (OverflowError overflow_msg) /\
  DownConvWithAttention_init SymBackend 5 (10 ^ 400) 0 600 1
    (mkAttnArgs (Some 1) None (Some PrimFloat.zero) (Some true) None None None
                None)
  = Err (OverflowError overflow_msg).
Proof.
  repeat split; vm_compute; reflexivity.
Qed.

(** ** The attention flag check *)

Section AttentionFlags.

Context (B : Backend).

(** C2, as the code has it.  With [double_attention] set and
    [attn_use_values_as_is] not set, the constructor of [MeshAttentionNet]
    raises the assertion error before anything else, whatever its other
    arguments.  The constructor of [DownConvWithAttention] never returns an
    object, but it runs the inherited [DownConv] constructor first: it
    raises the assertion error when that constructor has returned,
    whatever the number of heads and the other attention arguments are,
    and the error of that constructor when it raises. *)
Theorem double_attention_needs_values_as_is :
  forall a : AttnArgs,
    truthy (double_attention a) = true ->
    truthy (attn_use_values_as_is a) = false ->
    (forall norm_layer nf0 conv_res nclasses input_res pool_res fc_n heads
            nresblocks,
        MeshAttentionNet_init B norm_layer nf0 conv_res nclasses input_res
                              pool_res fc_n heads nresblocks a
        = Err (AssertionError double_attention_msg)) /\
    (forall in_channels out_channels blocks pool heads,
        DownConvWithAttention_init B in_channels out_channels blocks pool
                                   heads a
        = match DownConv_init B in_channels out_channels blocks pool with
          | Ok _ => Err (AssertionError double_attention_msg)
          | Err e => Err e
          end) /\
    (forall in_channels out_channels blocks pool heads,
        (forall c, ctor_error B c = None) ->
        DownConvWithAttention_init B in_channels out_channels blocks pool
                                   heads a
        = Err (AssertionError double_attention_msg)).
Proof.
  intros a Hd Hv.
  assert (Hinit : forall in_channels out_channels blocks pool heads,
             DownConvWithAttention_init B in_channels out_channels blocks pool
                                        heads a
             = match DownConv_init B in_channels out_channels blocks pool with
               | Ok _ => Err (AssertionError double_attention_msg)
               | Err e => Err e
               end).
  { intros. unfold DownConvWithAttention_init. rewrite Hd, Hv.
    destruct (DownConv_init B in_channels out_channels blocks pool);
      reflexivity. }
  split; [|split].
  - intros. unfold MeshAttentionNet_init. rewrite Hd, Hv. reflexivity.
  - exact Hinit.
  - intros in_channels out_channels blocks pool heads accept. rewrite Hinit.
    assert (Hbase : is_ok (DownConv_init B in_channels out_channels blocks pool)
                    = true).
    { unfold DownConv_init, new_MeshConv, new_InstanceNorm2d, new_MeshPool,
        construct.
      rewrite !accept. simpl.
      assert (Hrep : forall (A : Type) (x : A) n,
                 rrepeat n (Ok x) = Ok (repeat x n)).
      { intros A x n. induction n as [| n IH]; [reflexivity|].
        simpl. rewrite IH. reflexivity. }
      rewrite !Hrep. simpl.
      destruct (pool =? 0); reflexivity. }
    destruct (DownConv_init B in_channels out_channels blocks pool);
      [reflexivity | discriminate Hbase].
Qed.

End AttentionFlags.

Lemma double_attention_needs_values_as_is_witness :
  MeshAttentionNet_init SymBackend NoNormClass 5 [16; 32] 30 750 [600; 450]
                        100 4 1 double_only
  = Err (AssertionError double_attention_msg) /\
  DownConvWithAttention_init SymBackend 5 16 0 600 0 double_only
  = Err (AssertionError double_attention_msg).
Proof.
  destruct (double_attention_needs_values_as_is SymBackend double_only
              eq_refl eq_refl) as (Hnet & _ & Hdown).
  split.
  - apply Hnet.
  - apply Hdown. intro c. reflexivity.
Defined.

(** C2 as stated fails for [DownConvWithAttention]: the configuration
    error is not raised regardless of every other argument.  On a backend
    whose convolution rejects a negative channel count, the constructor
    called with such a count and the two flags raises the error of the
    convolution, from the inherited constructor, and the assertion is not
    reached. *)
Lemma inherited_constructor_raises_first :
  truthy (double_attention double_only) = true /\
  truthy (attn_use_values_as_is double_only) = false /\
  DownConvWithAttention_init StrictBackend (-1) 16 0 600 4 double_only
  = Err (RuntimeError "Trying to create tensor with negative dimension") /\
  DownConvWithAttention_init StrictBackend (-1) 16 0 600 4 double_only
  <> Err (AssertionError double_attention_msg) /\
  DownConvWithAttention_init StrictBackend 5 16 0 600 4 double_only
  = Err (AssertionError double_attention_msg).
Proof.
  split; [reflexivity|]. split; [reflexivity|].
  split; [reflexivity|]. split; [discriminate | reflexivity].
Qed.

(** ** The up-convolution stage *)

(** Splits a successful chain of binds in the error monad. *)
Ltac unbind H :=
  repeat (apply rbind_ok in H;
          let x := fresh "x" in
          let Hx := fresh "Hx" in
          destruct H as (x & Hx & H)).

Lemma new_MeshConv_ok (B : Backend) (cin cout : Z) (bias : option bool) (c : MeshConv) :
  new_MeshConv B cin cout bias = Ok c -> c = mkMeshConv cin cout bias.
Proof.
  unfold new_MeshConv. intro H. unbind H. inversion H. reflexivity.
Qed.

Lemma new_MeshPool_ok (B : Backend) (target : Z) (p : MeshPool) :
  new_MeshPool B target = Ok p -> p = mkMeshPool target.
Proof.
  unfold new_MeshPool. intro H. unbind H. inversion H. reflexivity.
Qed.

Lemma new_Linear_ok (B : Backend) (i o : Z) (l : Linear) :
  new_Linear B i o = Ok l -> l = mkLinear i o.
Proof.
  unfold new_Linear. intro H. unbind H. inversion H. reflexivity.
Qed.

Lemma new_InstanceNorm1d_ok (B : Backend) (n : Z) (l : InstanceNorm1d) :
  new_InstanceNorm1d B n = Ok l -> l = mkInstanceNorm1d n.
Proof.
  unfold new_InstanceNorm1d. intro H. unbind H. inversion H. reflexivity.
Qed.

Section UpStage.

Context (B : Backend).

(** C5. An [UpConv] built with [transfer_data] declares its main
    convolution [conv1] with [2 * out_channels] input channels, and its
    forward pass concatenates the skip input before it; built without,
    [conv1] has [out_channels] input channels and the forward pass does
    not look at the skip input at all. *)
Theorem UpConv_conv1_channels :
  forall in_channels out_channels blocks unroll residual batch_norm
         transfer_data u,
    UpConv_init B in_channels out_channels blocks unroll residual batch_norm
                transfer_data = Ok u ->
    uc_transfer_data u = transfer_data /\
    mc_out_channels (uc_conv1 u) = out_channels /\
    (transfer_data = true ->
     mc_in_channels (uc_conv1 u) = 2 * out_channels) /\
    (transfer_data = false ->
     mc_in_channels (uc_conv1 u) = out_channels /\
     forall from_up from_down from_down' m,
       UpConv_forward B u from_up from_down m
       = UpConv_forward B u from_up from_down' m).
Proof.
  intros until u. intro H. unfold UpConv_init in H. unbind H.
  inversion H; subst u; clear H; simpl.
  destruct transfer_data; apply new_MeshConv_ok in Hx0; subst x0; simpl.
  - split; [reflexivity|]. split; [reflexivity|].
    split; [reflexivity | intro H; discriminate H].
  - split; [reflexivity|]. split; [reflexivity|].
    split; [intro H; discriminate H | intros _].
    split; reflexivity.
Qed.

(** A stage that raises on a null skip stops the loop of the decoder. *)
Lemma run_up_convs_null_skip_raises (u : UpConv) (up_convs : list UpConv) :
  (forall from_up m, is_ok (UpConv_forward B u from_up None m) = false) ->
  In u up_convs ->
  forall i fe m,
  exists e, run_up_convs B i up_convs None fe m = Err e.
Proof.
  intros Hfail. induction up_convs as [| v rest IH]; intros Hin i fe m.
  - destruct Hin.
  - simpl. unfold bind, lift. simpl.
    destruct (UpConv_forward B v fe None m) as [[fe' m'] | e] eqn:Hv.
    + destruct Hin as [-> | Hin].
      * specialize (Hfail fe m). rewrite Hv in Hfail. discriminate Hfail.
      * apply IH. assumption.
    + eauto.
Qed.

(** C9. An [UpConv] with [transfer_data] set, called with no skip input,
    never returns: once the up-convolution and the unroll have run, the
    concatenation raises; there is no branch that goes on without the
    skip.  So does a decoder built with [transfer_data] that has at least
    one up-convolution stage and is called without a skip cache. *)
Theorem UpConv_null_skip_raises :
  forall u : UpConv,
    uc_transfer_data u = true ->
    (forall from_up m,
        UpConv_forward B u from_up None m
        = match UpConv_unrolled B u from_up m with
          | Ok _ => Err (TypeError
              "expected Tensor as element 1 in argument 0, but got NoneType")
          | Err e => Err e
          end) /\
    (forall from_up m, is_ok (UpConv_forward B u from_up None m) = false) /\
    (forall d : MeshDecoder,
        In u (md_up_convs d) ->
        forall fe m, is_ok (MeshDecoder_forward B d fe None m) = false).
Proof.
  intros u Ht.
  assert (Hfwd : forall from_up m,
             UpConv_forward B u from_up None m
             = match UpConv_unrolled B u from_up m with
               | Ok _ => Err (TypeError
                   "expected Tensor as element 1 in argument 0, but got NoneType")
               | Err e => Err e
               end).
  { intros. unfold UpConv_forward, bind. rewrite Ht.
    destruct (UpConv_unrolled B u from_up m) as [[x1 m1] | e]; reflexivity. }
  assert (Hfail : forall from_up m,
             is_ok (UpConv_forward B u from_up None m) = false).
  { intros. rewrite Hfwd.
    destruct (UpConv_unrolled B u from_up m) as [[x1 m1] | e]; reflexivity. }
  repeat split; auto.
  intros d Hin fe m. unfold MeshDecoder_forward, bind.
  destruct (run_up_convs_null_skip_raises u _ Hfail Hin 0 fe m) as [e ->].
  reflexivity.
Qed.

End UpStage.

Lemma UpConv_conv1_channels_witness :
  (exists u, UpConv_init SymBackend 32 16 1 600 true true true = Ok u /\
             mc_in_channels (uc_conv1 u) = 32) /\
  (exists u, UpConv_init SymBackend 32 16 1 600 true true false = Ok u /\
             mc_in_channels (uc_conv1 u) = 16).
Proof.
  split; eexists; (split; [reflexivity|]).
  - apply (UpConv_conv1_channels SymBackend 32 16 1 600 true true true _ eq_refl).
    reflexivity.
  - apply (UpConv_conv1_channels SymBackend 32 16 1 600 true true false _ eq_refl).
    reflexivity.
Defined.

Lemma UpConv_null_skip_raises_witness :
  UpConv_init SymBackend 32 16 0 600 true true true = Ok transfer_stage /\
  UpConv_forward SymBackend transfer_stage (SInput 0) None []
  = Err (TypeError "expected Tensor as element 1 in argument 0, but got NoneType").
Proof.
  split; [reflexivity|].
  destruct (UpConv_null_skip_raises SymBackend transfer_stage eq_refl) as [H _].
  rewrite H. reflexivity.
Defined.

(** ** The decoder *)

Section Decoder.

Context (B : Backend).

(** The loop of the decoder over [pre ++ u :: post], started at index
    [i]: the stages of [pre] run first, then [u] is called with the skip
    input of index [i + len pre]. *)
Lemma run_up_convs_split (pre : list UpConv) (u : UpConv) (post : list UpConv)
    (encoder_outs : option (list (option (Tensor B)))) :
  forall i fe m,
    run_up_convs B i (pre ++ u :: post) encoder_outs fe m
    = bind (run_up_convs B i pre encoder_outs fe)
        (fun fe_i =>
           bind (lift B (skip_input B encoder_outs (i + len pre)))
             (fun before_pool =>
                bind (UpConv_forward B u fe_i before_pool)
                  (fun fe' =>
                     run_up_convs B (i + len pre + 1) post encoder_outs fe')))
        m.
Proof.
  induction pre as [| v pre IH]; intros i fe m.
  - simpl. unfold len. simpl. rewrite Z.add_0_r. reflexivity.
  - simpl. rewrite bind_assoc. apply bind_ext. intros bp m1.
    rewrite bind_assoc. apply bind_ext. intros fe1 m2.
    rewrite IH.
    replace (i + 1 + len pre) with (i + len (v :: pre))
      by (unfold len; simpl length; lia).
    reflexivity.
Qed.

Lemma UpConv_init_final (cin cout blocks : Z) (batch_norm : bool) (u : UpConv) :
  UpConv_init B cin cout blocks 0 true batch_norm false = Ok u ->
  uc_unroll u = None /\ uc_transfer_data u = false /\
  uc_up_conv u = mkMeshConv cin cout None /\
  uc_conv1 u = mkMeshConv cout cout None.
Proof.
  intro H. unfold UpConv_init in H. unbind H.
  inversion H; subst u; clear H; simpl.
  apply new_MeshConv_ok in Hx, Hx0. simpl in Hx3. inversion Hx3.
  subst. auto.
Qed.

(** C3. In the decoder's forward pass the up-convolution stage at
    position [i] (after the stages [pre], [i = len pre]) is called with
    [encoder_outs[-(i + 2)]] as its skip input, and with None when no
    skip cache is given; the final stage is built without unroll and
    without skip transfer, from the last but one to the last declared
    channel count, and is called with a null skip. *)
Theorem MeshDecoder_skip_inputs :
  forall unrolls convs blocks batch_norm transfer_data d,
    MeshDecoder_init B unrolls convs blocks batch_norm transfer_data = Ok d ->
    (forall pre u post outs fe m,
        md_up_convs d = pre ++ u :: post ->
        run_up_convs B 0 (md_up_convs d) (Some outs) fe m
        = bind (run_up_convs B 0 pre (Some outs) fe)
            (fun fe_i =>
               bind (lift B (py_index outs (- (len pre + 2))))
                 (fun before_pool =>
                    bind (UpConv_forward B u fe_i before_pool)
                      (fun fe' =>
                         run_up_convs B (len pre + 1) post (Some outs) fe')))
            m) /\
    (forall pre u post fe m,
        md_up_convs d = pre ++ u :: post ->
        run_up_convs B 0 (md_up_convs d) None fe m
        = bind (run_up_convs B 0 pre None fe)
            (fun fe_i =>
               bind (UpConv_forward B u fe_i None)
                 (fun fe' => run_up_convs B (len pre + 1) post None fe'))
            m) /\
    (forall fe encoder_outs m,
        MeshDecoder_forward B d fe encoder_outs m
        = bind (run_up_convs B 0 (md_up_convs d) encoder_outs fe)
            (fun fe' => UpConv_forward B (md_final_conv d) fe' None) m) /\
    uc_unroll (md_final_conv d) = None /\
    uc_transfer_data (md_final_conv d) = false /\
    py_index convs (-2) = Ok (mc_in_channels (uc_up_conv (md_final_conv d))) /\
    py_index convs (-1) = Ok (mc_out_channels (uc_up_conv (md_final_conv d))) /\
    py_index convs (-1) = Ok (mc_out_channels (uc_conv1 (md_final_conv d))).
Proof.
  intros until d. intro H.
  split; [|split; [|split]].
  - intros pre u post outs fe m E. rewrite E, run_up_convs_split. reflexivity.
  - intros pre u post fe m E. rewrite E, run_up_convs_split.
    unfold bind, lift. simpl.
    destruct (run_up_convs B 0 pre None fe m) as [[fe_i m1] | e]; reflexivity.
  - reflexivity.
  - unfold MeshDecoder_init in H. unbind H.
    inversion H; subst d; clear H; simpl.
    apply UpConv_init_final in Hx2. destruct Hx2 as (Hu & Ht & Hup & Hc1).
    rewrite Hu, Ht, Hup, Hc1. simpl. auto.
Qed.

End Decoder.

Lemma MeshDecoder_skip_inputs_witness :
  exists d,
    MeshDecoder_init SymBackend [1350; 1800; 2280] [256; 128; 64; 32; 8] 0
                     true true = Ok d /\
    uc_unroll (md_final_conv d) = None /\
    uc_transfer_data (md_final_conv d) = false /\
    mc_out_channels (uc_conv1 (md_final_conv d)) = 8.
Proof.
  eexists. split; [reflexivity|].
  pose proof (MeshDecoder_skip_inputs SymBackend [1350; 1800; 2280]
                [256; 128; 64; 32; 8] 0 true true _ eq_refl)
    as (_ & _ & _ & Hu & Ht & _ & _ & Hc).
  split; [exact Hu|]. split; [exact Ht|]. inversion Hc. reflexivity.
Defined.

(** ** The down-convolution stage *)

Section DownStageNoPool.

Context (B : Backend).

Variable pool' :
  MeshPool -> Tensor B -> option (Tensor B) -> Meshes B ->
  result (Tensor B * Meshes B).

Lemma conv_blocks_with_pool (bn : list InstanceNorm2d) (residual : bool)
    (convs : list MeshConv) :
  forall idx x1 x2 m,
    conv_blocks (with_pool B pool') bn residual idx convs x1 x2 m
    = conv_blocks B bn residual idx convs x1 x2 m.
Proof.
  induction convs as [| conv rest IH]; intros idx x1 x2 m; [reflexivity|].
  simpl.
  apply (bind_ext B). intros a m1.
  apply (bind_ext B). intros a' m2.
  apply (bind_ext B). intros a'' m3.
  apply IH.
Qed.

Lemma DownConv_features_with_pool (d : DownConv) (fe : Tensor B) (m : Meshes B) :
  DownConv_features (with_pool B pool') d fe m = DownConv_features B d fe m.
Proof.
  unfold DownConv_features.
  apply (bind_ext B). intros a m1.
  apply (bind_ext B). intros a' m2.
  change (bind (conv_blocks (with_pool B pool') (dc_bn d) true 0 (dc_conv2 d)
                            (relu B a') (relu B a'))
               (fun x2 => lift B (squeeze B 3 x2)) m2
          = bind (conv_blocks B (dc_bn d) true 0 (dc_conv2 d)
                              (relu B a') (relu B a'))
                 (fun x2 => lift B (squeeze B 3 x2)) m2).
  unfold bind. rewrite conv_blocks_with_pool. reflexivity.
Qed.

Lemma DownConv_init_pool (cin cout blocks pool : Z) (d : DownConv) :
  DownConv_init B cin cout blocks pool = Ok d ->
  dc_pool d = if pool =? 0 then None else Some (mkMeshPool pool).
Proof.
  intro H. unfold DownConv_init in H. unbind H.
  inversion H; subst d; clear H; simpl.
  destruct (pool =? 0).
  - inversion Hx2. reflexivity.
  - apply rbind_ok in Hx2. destruct Hx2 as (p & Hp & Hx2).
    apply new_MeshPool_ok in Hp. inversion Hx2. subst. reflexivity.
Qed.

(** C7. A [DownConv] built with [pool = 0] has no pooling layer: its
    forward pass returns the features of the convolution block and a null
    snapshot, and the result is the same whatever the pooling operation
    of the backend is.  A [DownConvWithAttention] built with [pool = 0]
    returns the features of the attention layer applied to those of the
    convolution block, with a null snapshot, in the same way. *)
Theorem DownConv_without_pool :
  forall in_channels out_channels blocks,
    (forall d,
        DownConv_init B in_channels out_channels blocks 0 = Ok d ->
        dc_pool d = None /\
        forall fe m,
          DownConv_forward B d fe m
          = bind (DownConv_features B d fe) (fun x2 => ret B (x2, None)) m /\
          DownConv_forward (with_pool B pool') d fe m
          = DownConv_forward B d fe m) /\
    (forall heads a d,
        DownConvWithAttention_init B in_channels out_channels blocks 0 heads a
        = Ok d ->
        dca_real_pool d = None /\
        forall fe m,
          DownConvWithAttention_forward B d fe m
          = bind (DownConv_features B (dca_base d) fe)
              (fun x2 =>
                 bind (MeshAttention_call B (dca_attention d) x2 None)
                   (fun r => ret B (fst (fst (fst r)), None))) m /\
          DownConvWithAttention_forward (with_pool B pool') d fe m
          = DownConvWithAttention_forward B d fe m).
Proof.
  intros. split.
  - intros d H. apply DownConv_init_pool in H. simpl in H.
    split; [exact H|]. intros fe m.
    unfold DownConv_forward. rewrite H. split; [reflexivity|].
    unfold bind. rewrite DownConv_features_with_pool. reflexivity.
  - intros heads a d H. unfold DownConvWithAttention_init in H. unbind H.
    apply DownConv_init_pool in Hx. simpl in Hx.
    inversion H; subst d; clear H; simpl.
    split; [exact Hx|]. intros fe m.
    unfold DownConvWithAttention_forward, DownConvWithAttention_features,
      DownConv_forward.
    simpl. rewrite Hx. split.
    + rewrite !bind_assoc. apply bind_ext. intros y m1.
      unfold bind, ret.
      destruct (MeshAttention_call B x3 y None m1)
        as [[[[[z attn] ape] dm] m2] | e]; reflexivity.
    + unfold bind. rewrite DownConv_features_with_pool. reflexivity.
Qed.

End DownStageNoPool.

Lemma DownConv_without_pool_witness :
  exists d,
    DownConv_init SymBackend 5 16 1 0 = Ok d /\
    DownConv_forward (with_pool SymBackend failing_pool) d (SInput 0) []
    = DownConv_forward SymBackend d (SInput 0) [] /\
    exists x2, DownConv_forward SymBackend d (SInput 0) [] = Ok ((x2, None), []).
Proof.
  eexists. split; [reflexivity|].
  destruct (DownConv_without_pool SymBackend failing_pool 5 16 1) as [H _].
  destruct (H _ eq_refl) as [_ Hf]. destruct (Hf (SInput 0) []) as [Hfeat Hsame].
  split; [exact Hsame|]. rewrite Hfeat. eexists. reflexivity.
Defined.

(** ** The fully-connected head of the encoder *)

Section FcHeadConstruction.

Context (B : Backend).

Lemma encoder_fc_loop (fcs : list Z) :
  forall ls bns last ls' bns' last',
    rfold (encoder_fc B) fcs (ls, bns, last) = Ok (ls', bns', last') ->
    ls' = ls ++ linear_chain last fcs /\
    bns' = bns ++ map mkInstanceNorm1d fcs.
Proof.
  induction fcs as [| w rest IH]; simpl; intros ls bns last ls' bns' last' H.
  - inversion H; subst. rewrite !app_nil_r. auto.
  - apply rbind_ok in H. destruct H as ([[ls1 bns1] last1] & Hstep & Hrest).
    unfold encoder_fc in Hstep.
    unbind Hstep. inversion Hstep; subst; clear Hstep.
    apply new_Linear_ok in Hx. apply new_InstanceNorm1d_ok in Hx0. subst.
    apply IH in Hrest. destruct Hrest as [-> ->].
    rewrite <- !app_assoc. auto.
Qed.

(** What the head block of the constructor builds. *)
Lemma encoder_head_layers (pools convs fcs : list Z)
    (global_pool : option string) (h : FcHead) (gp : option GlobalPool) :
  encoder_head B pools convs fcs global_pool = Ok (h, gp) ->
  exists last_length first,
    flattened_length pools convs global_pool = Ok last_length /\
    py_index fcs 0 = Ok first /\
    let kept := if first =? last_length then py_tail fcs else fcs in
    fh_fcs h = linear_chain last_length kept /\
    fh_fcs_bn h = map mkInstanceNorm1d kept.
Proof.
  intro H. unfold encoder_head in H.
  apply rbind_ok in H. destruct H as (c & Hc & H).
  apply rbind_ok in H. destruct H as ([gp' last] & Hgp & H).
  apply rbind_ok in H. destruct H as (first & Hfirst & H).
  apply rbind_ok in H. destruct H as ([[ls bns] l'] & Hloop & H).
  inversion H; subst; clear H. simpl.
  apply encoder_fc_loop in Hloop. destruct Hloop as [-> ->].
  exists last, first. split; [|auto].
  unfold flattened_length. rewrite Hc. simpl.
  destruct global_pool as [g |].
  - destruct (String.eqb g "max").
    + unbind Hgp. inversion Hgp; subst. reflexivity.
    + destruct (String.eqb g "avg"); [|discriminate Hgp].
      unbind Hgp. inversion Hgp; subst. reflexivity.
  - unbind Hgp. inversion Hgp; subst. rewrite Hx. reflexivity.
Qed.

(** C10. When the first declared width of the fully-connected head
    equals the flattened input length, the constructor drops it: the head
    holds one linear layer per remaining width, the first of them taking
    the flattened input to the second declared width. *)
Theorem MeshEncoder_drops_matching_first_width :
  forall pools convs first rest blocks global_pool a e,
    MeshEncoder_init B pools convs (Some (first :: rest)) blocks global_pool a
    = Ok e ->
    flattened_length pools convs global_pool = Ok first ->
    exists h,
      me_fcs e = Some h /\
      fh_fcs h = linear_chain first rest /\
      length (fh_fcs h) = length rest /\
      fh_fcs_bn h = map mkInstanceNorm1d rest.
Proof.
  intros until e. intros H Hlen. unfold MeshEncoder_init in H.
  apply rbind_ok in H. destruct H as (_ & _ & H).
  apply rbind_ok in H. destruct H as (stages & _ & H).
  apply rbind_ok in H. destruct H as ([head gp] & Hhead & H).
  inversion H; subst e; clear H. simpl.
  apply rbind_ok in Hhead. destruct Hhead as ([h gp'] & Hh & Hhead).
  inversion Hhead; subst; clear Hhead.
  apply encoder_head_layers in Hh.
  destruct Hh as (last & first' & Hlast & Hfirst & Hfcs & Hbn).
  rewrite Hlen in Hlast. inversion Hlast; subst last.
  inversion Hfirst; subst first'. rewrite Z.eqb_refl in Hfcs, Hbn.
  simpl in Hfcs, Hbn.
  exists h. repeat split; try assumption.
  rewrite Hfcs. clear. generalize first.
  induction rest as [| w r IH]; simpl; intro f; [reflexivity|].
  rewrite IH. reflexivity.
Qed.

End FcHeadConstruction.

Lemma MeshEncoder_drops_matching_first_width_witness :
  exists e h,
    MeshEncoder_init SymBackend [1000; 600; 300] [5; 16; 32]
                     (Some [32; 100; 30]) 0 (Some "avg"%string) no_attention
    = Ok e /\
    me_fcs e = Some h /\
    fh_fcs h = [mkLinear 32 100; mkLinear 100 30].
Proof.
  eexists.
  destruct (MeshEncoder_drops_matching_first_width SymBackend
              [1000; 600; 300] [5; 16; 32] 32 [100; 30] 0 (Some "avg"%string)
              no_attention _ eq_refl eq_refl) as (h & Hh & Hfcs & _).
  exists h. split; [reflexivity|]. split; [exact Hh | exact Hfcs].
Defined.

(** ** The fully-connected head in the forward pass *)

Lemma py_index_nat {A : Type} (l : list A) (n : nat) :
  py_index l (Z.of_nat n)
  = match nth_error l n with Some a => Ok a | None => Err IndexError end.
Proof.
  unfold py_index.
  destruct (Z.ltb_spec (Z.of_nat n) 0) as [H | _]; [lia|].
  destruct (Z.ltb_spec (Z.of_nat n) 0) as [H | _]; [lia|].
  rewrite Nat2Z.id. reflexivity.
Qed.

Lemma py_index_middle {A : Type} (pre : list A) (a : A) (post : list A) :
  py_index (pre ++ a :: post) (len pre) = Ok a.
Proof.
  unfold len. rewrite py_index_nat, nth_error_app2 by lia.
  rewrite Nat.sub_diag. reflexivity.
Qed.

Lemma py_range_len {A : Type} (l : list A) :
  py_range (len l) = map Z.of_nat (seq 0 (length l)).
Proof. unfold py_range, len. rewrite Nat2Z.id. reflexivity. Qed.

Section FcHeadForward.

Context (B : Backend).

(** The loop over the indices of [fcs], from the position after [pre]. *)
Lemma fc_loop_from (h : FcHead) (rest : list Linear) :
  forall (rest_bn : list InstanceNorm1d) (pre : list Linear)
         (pre_bn : list InstanceNorm1d) (fe : Tensor B),
    fh_fcs h = pre ++ rest ->
    fh_fcs_bn h = pre_bn ++ rest_bn ->
    length pre_bn = length pre ->
    length rest_bn = length rest ->
    rfold (fc_step B h) (map Z.of_nat (seq (length pre) (length rest))) fe
    = fc_chain B (combine rest rest_bn) fe.
Proof.
  induction rest as [| l rest IH];
    intros rest_bn pre pre_bn fe Hfcs Hbn Hpre Hrest.
  - reflexivity.
  - destruct rest_bn as [| n rest_bn]; [discriminate Hrest|].
    simpl in Hrest. injection Hrest as Hrest.
    simpl seq. simpl map. simpl rfold. simpl combine. simpl fc_chain.
    assert (Hstep : forall fe,
               fc_step B h (Z.of_nat (length pre)) fe
               = (fe <- Linear_call B l fe ;;
                  x <- unsqueeze B 1 fe ;;
                  y <- InstanceNorm1d_call B n x ;;
                  fe <- squeeze B 1 y ;;
                  Ok (match rest with [] => fe | _ :: _ => relu B fe end))%res).
    { intro fe0. unfold fc_step. rewrite Hfcs, Hbn.
      assert (Hl : py_index (pre ++ l :: rest) (Z.of_nat (length pre)) = Ok l)
        by apply py_index_middle.
      assert (Hn : py_index (pre_bn ++ n :: rest_bn) (Z.of_nat (length pre))
                   = Ok n)
        by (rewrite <- Hpre; apply py_index_middle).
      rewrite Hl, Hn. simpl rbind at 1.
      replace (nonempty (pre_bn ++ n :: rest_bn)) with true
        by (destruct pre_bn; reflexivity).
      replace (Z.of_nat (length pre) <? len (pre ++ l :: rest) - 1)
        with (match rest with [] => false | _ :: _ => true end).
      2:{ unfold len. rewrite length_app. simpl length.
          destruct rest; simpl length.
          - symmetry. apply Z.ltb_ge. lia.
          - symmetry. apply Z.ltb_lt. lia. }
      destruct (Linear_call B l fe0) as [fe1 |]; [simpl|reflexivity].
      destruct (unsqueeze B 1 fe1) as [x |]; [simpl|reflexivity].
      destruct (InstanceNorm1d_call B n x) as [y |]; [simpl|reflexivity].
      destruct (squeeze B 1 y) as [fe2 |]; [simpl|reflexivity].
      destruct rest; reflexivity. }
    rewrite Hstep.
    destruct (Linear_call B l fe) as [fe1 |]; [simpl|reflexivity].
    destruct (unsqueeze B 1 fe1) as [x |]; [simpl|reflexivity].
    destruct (InstanceNorm1d_call B n x) as [y |]; [simpl|reflexivity].
    destruct (squeeze B 1 y) as [fe2 |]; [simpl|reflexivity].
    replace (match combine rest rest_bn with
             | [] => fe2
             | _ :: _ => relu B fe2
             end)
      with (match rest with [] => fe2 | _ :: _ => relu B fe2 end)
      by (destruct rest, rest_bn; try discriminate Hrest; reflexivity).
    specialize (IH rest_bn (pre ++ [l]) (pre_bn ++ [n])).
    rewrite !length_app in IH. simpl length in IH.
    rewrite !Nat.add_1_r in IH. apply IH.
    + rewrite <- app_assoc. exact Hfcs.
    + rewrite <- app_assoc. exact Hbn.
    + f_equal. exact Hpre.
    + exact Hrest.
Qed.

End FcHeadForward.

Lemma linear_chain_length (fcs : list Z) :
  forall last, length (linear_chain last fcs) = length fcs.
Proof.
  induction fcs as [| w rest IH]; simpl; intro last; [reflexivity|].
  rewrite IH. reflexivity.
Qed.

Section FcHeadClaim.

Context (B : Backend).

Lemma run_head_as_built (global_pool : option GlobalPool) (h : FcHead) :
  length (fh_fcs_bn h) = length (fh_fcs h) ->
  forall fe, run_head B global_pool h fe = head_as_built B global_pool h fe.
Proof.
  intros Hlen fe. unfold run_head, head_as_built.
  destruct (match global_pool with
            | Some gp => GlobalPool_call B gp fe
            | None => Ok fe
            end) as [fe1 |]; [simpl|reflexivity].
  destruct (flatten_batch B fe1) as [fe2 |]; [simpl|reflexivity].
  rewrite py_range_len.
  apply (fc_loop_from B h (fh_fcs h) (fh_fcs_bn h) [] [] fe2);
    auto.
Qed.

(** C6, as the code has it. With a fully-connected head, the forward
    pass of the encoder applies the global pool if one is configured,
    flattens, and applies the linear layers in order; each linear layer,
    the last one included, is followed by its normalisation, and each but
    the last by the nonlinearity. *)
Theorem MeshEncoder_head_forward :
  forall pools convs fcs blocks global_pool a e,
    MeshEncoder_init B pools convs (Some fcs) blocks global_pool a = Ok e ->
    exists h,
      me_fcs e = Some h /\
      length (fh_fcs_bn h) = length (fh_fcs h) /\
      (forall fe,
          run_head B (me_global_pool e) h fe
          = head_as_built B (me_global_pool e) h fe) /\
      (forall fe m,
          MeshEncoder_forward B e fe m
          = bind (run_convs B (me_convs e) fe [])
              (fun r =>
                 bind (lift B (head_as_built B (me_global_pool e) h (fst r)))
                   (fun fe' => ret B (fe', snd r))) m).
Proof.
  intros until e. intro H. unfold MeshEncoder_init in H.
  apply rbind_ok in H. destruct H as (_ & _ & H).
  apply rbind_ok in H. destruct H as (stages & _ & H).
  apply rbind_ok in H. destruct H as ([head gp] & Hhead & H).
  inversion H; subst e; clear H. simpl.
  apply rbind_ok in Hhead. destruct Hhead as ([h gp'] & Hh & Hhead).
  inversion Hhead; subst; clear Hhead.
  apply encoder_head_layers in Hh.
  destruct Hh as (last & first & _ & _ & Hfcs & Hbn).
  assert (Hlen : length (fh_fcs_bn h) = length (fh_fcs h)).
  { rewrite Hfcs, Hbn, linear_chain_length, length_map. reflexivity. }
  exists h. split; [reflexivity|]. split; [exact Hlen|].
  split; [apply run_head_as_built; exact Hlen|].
  intros fe m. unfold MeshEncoder_forward. simpl.
  apply bind_ext. intros [fe1 outs] m1. simpl.
  rewrite run_head_as_built by exact Hlen. reflexivity.
Qed.

End FcHeadClaim.

Lemma MeshEncoder_head_forward_witness :
  exists e h,
    MeshEncoder_init SymBackend [1000; 600; 300] [5; 16; 32] (Some [100; 30])
                     0 (Some "avg"%string) no_attention = Ok e /\
    me_fcs e = Some h /\
    run_head SymBackend (me_global_pool e) h (SInput 0)
    = head_as_built SymBackend (me_global_pool e) h (SInput 0).
Proof.
  eexists.
  destruct (MeshEncoder_head_forward SymBackend [1000; 600; 300] [5; 16; 32]
              [100; 30] 0 (Some "avg"%string) no_attention _ eq_refl)
    as (h & Hh & _ & Hrun & _).
  exists h. split; [reflexivity|]. split; [exact Hh | apply Hrun].
Defined.

(** C6 as stated fails: the normalisation does follow the final linear
    layer.  On the head built for the widths 100 and 30 the forward pass
    ends with the normalisation of the output of the last linear layer,
    where the statement has the bare output of that layer. *)
Lemma final_layer_is_normalised :
  (exists e,
      MeshEncoder_init SymBackend [1000; 600; 300] [5; 16; 32] (Some [100; 30])
                       0 (Some "avg"%string) no_attention = Ok e /\
      me_fcs e = Some two_layer_head /\
      me_global_pool e = Some (AvgPool1d 300)) /\
  run_head SymBackend (Some (AvgPool1d 300)) two_layer_head (SInput 0)
  = Ok (SSqueeze 1 (SInstanceNorm1d (mkInstanceNorm1d 30)
                      (SUnsqueeze 1 last_linear_output))) /\
  head_as_specified SymBackend (Some (AvgPool1d 300)) two_layer_head (SInput 0)
  = Ok last_linear_output /\
  run_head SymBackend (Some (AvgPool1d 300)) two_layer_head (SInput 0)
  <> head_as_specified SymBackend (Some (AvgPool1d 300)) two_layer_head
                       (SInput 0).
Proof.
  split.
  - eexists. split; [reflexivity|]. split; reflexivity.
  - split; [reflexivity|]. split; [reflexivity|].
    intro H. vm_compute in H. discriminate H.
Qed.

(** ** The encoder and its skip cache *)

(** A loop that appends one element per iteration builds the list of these
    elements, each related to the item of its iteration. *)
Lemma rfold_snoc {A T : Type} (body : A -> list T -> result (list T))
    (P : A -> T -> Prop) (l : list A) :
  (forall x acc acc',
      In x l -> body x acc = Ok acc' -> exists t, acc' = acc ++ [t] /\ P x t) ->
  forall acc r,
    rfold body l acc = Ok r -> exists ts, r = acc ++ ts /\ Forall2 P l ts.
Proof.
  induction l as [| x rest IH]; intros Hbody acc r H; simpl in H.
  - inversion H; subst. exists []. rewrite app_nil_r. auto.
  - apply rbind_ok in H. destruct H as (acc1 & Hx & Hrest).
    destruct (Hbody x acc acc1 (or_introl eq_refl) Hx) as (t & -> & Ht).
    apply IH in Hrest.
    + destruct Hrest as (ts & -> & Hts). exists (t :: ts).
      rewrite <- app_assoc. simpl. auto.
    + intros y a a' Hin. apply Hbody. right. exact Hin.
Qed.

Lemma Forall2_range_nth {T : Type} (P : Z -> T -> Prop) (k : nat) :
  forall (s : nat) (ts : list T),
    Forall2 P (map Z.of_nat (seq s k)) ts ->
    length ts = k /\
    forall i t, nth_error ts i = Some t -> P (Z.of_nat (s + i)) t.
Proof.
  induction k as [| k IH]; intros s ts H; simpl in H.
  - inversion H; subst. split; [reflexivity|]. intros [| i] t Hi; discriminate Hi.
  - inversion H as [| x t0 xs ts0 Hhd Htl]; subst.
    apply IH in Htl. destruct Htl as [Hlen Hnth].
    split; [simpl; rewrite Hlen; reflexivity|].
    intros [| i] t Hi; simpl in Hi.
    + inversion Hi; subst. rewrite Nat.add_0_r. exact Hhd.
    + apply Hnth in Hi. replace (s + S i)%nat with (S s + i)%nat by lia.
      exact Hi.
Qed.

Lemma In_py_range (n i : Z) : In i (py_range n) -> 0 <= i < n.
Proof.
  unfold py_range. rewrite in_map_iff. intros (k & <- & Hk).
  apply in_seq in Hk. lia.
Qed.

Lemma py_index_in_range {A : Type} (l : list A) (i : Z) :
  0 <= i < len l ->
  exists a, py_index l i = Ok a /\ nth_error l (Z.to_nat i) = Some a.
Proof.
  intros Hi.
  assert (Ei : py_index l i = py_index l (Z.of_nat (Z.to_nat i)))
    by (rewrite Z2Nat.id by lia; reflexivity).
  rewrite Ei, py_index_nat.
  destruct (nth_error l (Z.to_nat i)) as [a |] eqn:E; [eauto|].
  apply nth_error_None in E. unfold len in Hi. lia.
Qed.

Section EncoderConstruction.

Context (B : Backend).

Lemma DownConvWithAttention_init_pool (cin cout blocks pool heads : Z)
    (a : AttnArgs) (d : DownConvWithAttention) :
  DownConvWithAttention_init B cin cout blocks pool heads a = Ok d ->
  dca_real_pool d = if pool =? 0 then None else Some (mkMeshPool pool).
Proof.
  intro H. unfold DownConvWithAttention_init in H. unbind H.
  inversion H; subst d; clear H; simpl.
  eapply DownConv_init_pool. eassumption.
Qed.

Lemma encoder_stage_pool (pools convs : list Z) (blocks : Z) (a : AttnArgs)
    (i : Z) (acc acc' : list DownStage) :
  0 <= i ->
  encoder_stage B pools convs blocks a i acc = Ok acc' ->
  exists s, acc' = acc ++ [s] /\ stage_pool s = built_pool pools (Z.to_nat i).
Proof.
  intros Hi H. unfold encoder_stage in H.
  apply rbind_ok in H. destruct H as (pool & Hpool & H).
  apply rbind_ok in H. destruct H as (cin & _ & H).
  apply rbind_ok in H. destruct H as (cout & _ & H).
  apply rbind_ok in H. destruct H as (s & Hs & H).
  inversion H; subst acc'; clear H.
  exists s. split; [reflexivity|].
  assert (Hbuilt : built_pool pools (Z.to_nat i)
                   = if pool =? 0 then None else Some (mkMeshPool pool)).
  { unfold built_pool.
    destruct (Z.ltb_spec (i + 1) (len pools)) as [Hlt | Hge].
    - destruct (py_index_in_range pools (i + 1)) as (p & Hp & Hnth); [lia|].
      rewrite Hp in Hpool. inversion Hpool; subst p.
      replace (S (Z.to_nat i)) with (Z.to_nat (i + 1)) by lia.
      rewrite Hnth. reflexivity.
    - inversion Hpool; subst pool.
      assert (E : nth_error pools (S (Z.to_nat i)) = None)
        by (apply nth_error_None; unfold len in Hge; lia).
      rewrite E. reflexivity. }
  rewrite Hbuilt.
  destruct (attn_n_heads a) as [heads |].
  - apply rbind_ok in Hs. destruct Hs as (d & Hd & Hs).
    inversion Hs; subst s. simpl.
    eapply DownConvWithAttention_init_pool. eassumption.
  - apply rbind_ok in Hs. destruct Hs as (d & Hd & Hs).
    inversion Hs; subst s. simpl.
    eapply DownConv_init_pool. eassumption.
Qed.

(** The stages [MeshEncoder.__init__] builds: one per index of
    [range(len(convs) - 1)], with the pooling layer of its index. *)
Lemma MeshEncoder_init_stages (pools convs : list Z) (fcs : option (list Z))
    (blocks : Z) (global_pool : option string) (a : AttnArgs) (e : MeshEncoder) :
  MeshEncoder_init B pools convs fcs blocks global_pool a = Ok e ->
  length (me_convs e) = Z.to_nat (len convs - 1) /\
  forall i s, nth_error (me_convs e) i = Some s ->
              stage_pool s = built_pool pools i.
Proof.
  intro H. unfold MeshEncoder_init in H.
  apply rbind_ok in H. destruct H as (_ & _ & H).
  apply rbind_ok in H. destruct H as (stages & Hstages & H).
  apply rbind_ok in H. destruct H as ([head gp] & _ & H).
  inversion H; subst e; clear H. simpl.
  apply (rfold_snoc _ (fun i s => stage_pool s = built_pool pools (Z.to_nat i)))
    in Hstages.
  - destruct Hstages as (ts & -> & Hts). simpl.
    apply Forall2_range_nth in Hts. destruct Hts as [Hlen Hnth].
    split; [exact Hlen|].
    intros i s Hi. apply Hnth in Hi. simpl in Hi.
    rewrite Nat2Z.id in Hi. exact Hi.
  - intros i acc acc' Hin Hbody. apply In_py_range in Hin.
    eapply encoder_stage_pool; [lia | eassumption].
Qed.

End EncoderConstruction.

Section EncoderForward.

Context (B : Backend).

(** What a stage returns as [before_pool]: its features when it has a
    pooling layer, None when it has not. *)
Lemma DownStage_forward_snapshot (s : DownStage) (fe fe' : Tensor B)
    (bp : option (Tensor B)) (m m' : Meshes B) :
  DownStage_forward B s fe m = Ok ((fe', bp), m') ->
  match stage_pool s with
  | None =>
      bp = None /\ DownStage_features B s fe m = Ok (fe', m')
  | Some _ =>
      exists t m1, bp = Some t /\ DownStage_features B s fe m = Ok (t, m1)
  end.
Proof.
  destruct s as [d | d]; simpl; intro H.
  - unfold DownConv_forward in H.
    apply bind_ok in H. destruct H as (x2 & m1 & Hfeat & H).
    destruct (dc_pool d) as [pool |].
    + apply bind_ok in H. destruct H as (x2' & m2 & _ & H).
      inversion H; subst. eauto.
    + inversion H; subst. auto.
  - unfold DownConvWithAttention_forward in H.
    apply bind_ok in H.
    destruct H as ([[[x2 attn] ape] dm] & m1 & Hfeat & H).
    destruct (dca_real_pool d) as [pool |].
    + apply bind_ok in H. destruct H as (ape' & m2 & _ & H).
      apply bind_ok in H. destruct H as (x2' & m3 & _ & H).
      inversion H; subst. exists x2, m1.
      unfold bind. rewrite Hfeat. split; reflexivity.
    + inversion H; subst.
      unfold bind. rewrite Hfeat. split; reflexivity.
Qed.

(** The accumulator of the stage loop only grows at its end. *)
Lemma run_convs_acc (convs : list DownStage) :
  forall fe acc m,
    run_convs B convs fe acc m
    = match run_convs B convs fe [] m with
      | Ok ((fe', outs), m') => Ok ((fe', acc ++ outs), m')
      | Err e => Err e
      end.
Proof.
  induction convs as [| conv rest IH]; intros fe acc m; simpl.
  - unfold ret. rewrite app_nil_r. reflexivity.
  - unfold bind.
    destruct (DownStage_forward B conv fe m) as [[[fe1 bp] m1] | e];
      [|reflexivity].
    rewrite (IH fe1 (acc ++ [bp]) m1), (IH fe1 [bp] m1).
    destruct (run_convs B rest fe1 [] m1) as [[[fe' outs] m'] | e];
      [|reflexivity].
    rewrite <- app_assoc. reflexivity.
Qed.

Lemma run_convs_cons (conv : DownStage) (rest : list DownStage)
    (fe : Tensor B) (m : Meshes B) :
  run_convs B (conv :: rest) fe [] m
  = match DownStage_forward B conv fe m with
    | Ok ((fe1, bp), m1) =>
        match run_convs B rest fe1 [] m1 with
        | Ok ((fe', outs), m') => Ok ((fe', bp :: outs), m')
        | Err e => Err e
        end
    | Err e => Err e
    end.
Proof.
  simpl. unfold bind.
  destruct (DownStage_forward B conv fe m) as [[[fe1 bp] m1] | e];
    [|reflexivity].
  rewrite run_convs_acc. reflexivity.
Qed.

(** The stage loop returns one entry per stage; entry [i] is what stage
    [i] returned as [before_pool] when run on the output of the stages
    before it. *)
Lemma run_convs_entries (convs : list DownStage) :
  forall fe m fe' outs m',
    run_convs B convs fe [] m = Ok ((fe', outs), m') ->
    length outs = length convs /\
    forall i s,
      nth_error convs i = Some s ->
      exists fe_i m_i fe_i' bp m_i',
        run_convs B (firstn i convs) fe [] m = Ok ((fe_i, firstn i outs), m_i) /\
        DownStage_forward B s fe_i m_i = Ok ((fe_i', bp), m_i') /\
        nth_error outs i = Some bp.
Proof.
  induction convs as [| conv rest IH]; intros fe m fe' outs m' H.
  - simpl in H. inversion H; subst. split; [reflexivity|].
    intros [| i] s Hs; discriminate Hs.
  - rewrite run_convs_cons in H.
    destruct (DownStage_forward B conv fe m) as [[[fe1 bp] m1] | e] eqn:Hconv;
      [|discriminate H].
    destruct (run_convs B rest fe1 [] m1) as [[[fe2 outs2] m2] | e] eqn:Hrest;
      [|discriminate H].
    inversion H; subst; clear H.
    destruct (IH _ _ _ _ _ Hrest) as [Hlen Hnth].
    split; [simpl; rewrite Hlen; reflexivity|].
    intros [| i] s Hs; simpl in Hs.
    + inversion Hs; subst s. exists fe, m, fe1, bp, m1. auto.
    + destruct (Hnth i s Hs) as (fe_i & m_i & fe_i' & bp_i & m_i' & Hrun & Hfwd & Hbp).
      exists fe_i, m_i, fe_i', bp_i, m_i'.
      split; [|auto].
      simpl firstn. rewrite run_convs_cons, Hconv, Hrun. reflexivity.
Qed.

End EncoderForward.

Section EncoderSkipCache.

Context (B : Backend).

Lemma MeshEncoder_forward_convs (e : MeshEncoder) (fe fe' : Tensor B)
    (outs : list (option (Tensor B))) (m m' : Meshes B) :
  MeshEncoder_forward B e fe m = Ok ((fe', outs), m') ->
  exists fe1, run_convs B (me_convs e) fe [] m = Ok ((fe1, outs), m').
Proof.
  unfold MeshEncoder_forward. intro H.
  apply bind_ok in H. destruct H as ([fe1 outs1] & m1 & Hrun & H).
  destruct (me_fcs e) as [h |].
  - apply bind_ok in H. destruct H as (fe2 & m2 & Hhead & H).
    apply lift_ok in Hhead. destruct Hhead as [_ ->].
    inversion H; subst. eauto.
  - inversion H; subst. eauto.
Qed.

Lemma built_pool_some (pools : list Z) (i : nat) :
  is_some (built_pool pools i) = true <->
  Z.of_nat i + 1 < len pools /\
  exists p, py_index pools (Z.of_nat i + 1) = Ok p /\ p <> 0.
Proof.
  unfold built_pool.
  replace (Z.of_nat i + 1) with (Z.of_nat (S i)) by lia.
  rewrite py_index_nat.
  destruct (nth_error pools (S i)) as [p |] eqn:E.
  - assert (Hlt : (S i < length pools)%nat)
      by (apply nth_error_Some; congruence).
    destruct (Z.eqb_spec p 0) as [-> | Hp]; simpl.
    + split; [discriminate|]. intros (_ & q & Hq & Hne).
      inversion Hq; subst. contradiction.
    + split; [|reflexivity]. intros _. unfold len. split; [lia|eauto].
  - simpl. split; [discriminate|]. intros (_ & q & Hq & _). discriminate Hq.
Qed.

End EncoderSkipCache.


(** ** The forward pass of the encoder returns *)

Lemma is_ok_true {A : Type} (r : result A) :
  is_ok r = true -> exists a, r = Ok a.
Proof. destruct r; [eauto | discriminate]. Qed.

Lemma rrepeat_length {A : Type} (c : result A) (n : nat) :
  forall l, rrepeat n c = Ok l -> length l = n.
Proof.
  induction n as [| n IH]; simpl; intros l H.
  - inversion H. reflexivity.
  - apply rbind_ok in H. destruct H as (a & _ & H).
    apply rbind_ok in H. destruct H as (l' & Hl' & H).
    inversion H; subst. simpl. rewrite (IH l' Hl'). reflexivity.
Qed.

Section EncoderReturns.

Context (B : Backend).
Hypothesis total : BackendTotal B.

Lemma bind_returns {A C : Type} (c : M B A) (k : A -> M B C) (m : Meshes B) :
  is_ok (c m) = true ->
  (forall a m1, is_ok (k a m1) = true) ->
  is_ok (bind c k m) = true.
Proof.
  intros Hc Hk. unfold bind. destruct (c m) as [[a m1] | e];
    [apply Hk | discriminate Hc].
Qed.

Lemma lift_returns {A : Type} (r : result A) (m : Meshes B) :
  is_ok r = true -> is_ok (lift B r m) = true.
Proof. destruct r; [reflexivity | discriminate]. Qed.

Lemma apply_bn_returns (bn : list InstanceNorm2d) (i : Z) (x : Tensor B)
    (m : Meshes B) :
  bn = [] \/ 0 <= i < len bn ->
  is_ok (apply_bn B bn i x m) = true.
Proof.
  intros H. unfold apply_bn. destruct bn as [| n0 bn']; [reflexivity|].
  destruct H as [H | H]; [discriminate H|].
  simpl nonempty. cbv iota.
  destruct (py_index_in_range (n0 :: bn') i H) as (n & Hn & _).
  unfold bind. rewrite Hn. simpl.
  apply lift_returns, (norm2d_total B total).
Qed.

Lemma conv_blocks_returns (bn : list InstanceNorm2d) (residual : bool)
    (convs : list MeshConv) :
  forall idx x1 x2 m,
    0 <= idx ->
    bn = [] \/ idx + len convs < len bn ->
    is_ok (conv_blocks B bn residual idx convs x1 x2 m) = true.
Proof.
  induction convs as [| conv rest IH]; intros idx x1 x2 m Hidx Hbn;
    [reflexivity|].
  assert (Hlen : len (conv :: rest) = len rest + 1)
    by (unfold len; simpl length; lia).
  assert (Hpos : 0 <= len rest) by (unfold len; lia).
  simpl. apply bind_returns; [apply (conv_total B total)|].
  intros y m1. apply bind_returns.
  { apply apply_bn_returns. destruct Hbn as [Hbn | Hbn]; [left; exact Hbn|].
    right. lia. }
  intros y' m2. apply bind_returns.
  { destruct residual; [|reflexivity].
    apply lift_returns, (add_total B total). }
  intros y'' m3. apply IH; [lia|].
  destruct Hbn as [Hbn | Hbn]; [left; exact Hbn | right; lia].
Qed.

Lemma DownConv_features_returns (d : DownConv) (fe : Tensor B) (m : Meshes B) :
  bn_covers (dc_bn d) (dc_conv2 d) ->
  is_ok (DownConv_features B d fe m) = true.
Proof.
  intros Hwf. unfold DownConv_features.
  apply bind_returns; [apply (conv_total B total)|]. intros x1 m1.
  apply bind_returns.
  { apply apply_bn_returns. destruct Hwf as [Hwf | Hwf]; [left; exact Hwf|].
    right. unfold len. lia. }
  intros x1' m2. apply bind_returns.
  { apply conv_blocks_returns; [lia|].
    destruct Hwf as [Hwf | Hwf]; [left; exact Hwf|].
    right. unfold len. lia. }
  intros x2 m3. apply lift_returns, (squeeze_total B total).
Qed.

Lemma DownConv_forward_returns (d : DownConv) (fe : Tensor B) (m : Meshes B) :
  bn_covers (dc_bn d) (dc_conv2 d) ->
  is_ok (DownConv_forward B d fe m) = true.
Proof.
  intros Hwf. unfold DownConv_forward.
  apply bind_returns; [apply DownConv_features_returns; exact Hwf|].
  intros x2 m1. destruct (dc_pool d) as [pool |]; [|reflexivity].
  apply bind_returns; [apply (pool_total B total)|]. reflexivity.
Qed.

Lemma DownStage_forward_returns (s : DownStage) (fe : Tensor B) (m : Meshes B) :
  stage_wf s -> is_ok (DownStage_forward B s fe m) = true.
Proof.
  destruct s as [d | d]; simpl; intro Hwf.
  - apply DownConv_forward_returns. exact Hwf.
  - unfold DownConvWithAttention_forward, DownConvWithAttention_features.
    apply bind_returns.
    { apply bind_returns; [apply DownConv_forward_returns; exact Hwf|].
      intros [x2 bp] m1. apply (attention_total B total). }
    intros [[[x2 attn] ape] dm] m1.
    destruct (dca_real_pool d) as [pool |]; [|reflexivity].
    apply bind_returns.
    { destruct (truthy (dca_double_attention d)); [|reflexivity].
      apply bind_returns; [apply (attention_total B total)|].
      intros [[[y1 y2] y3] y4] m2. reflexivity. }
    intros ape' m2.
    apply bind_returns; [apply (pool_total B total)|]. reflexivity.
Qed.

Lemma run_convs_returns (convs : list DownStage) :
  Forall stage_wf convs ->
  forall fe acc m, is_ok (run_convs B convs fe acc m) = true.
Proof.
  induction 1 as [| conv rest Hconv Hrest IH]; intros fe acc m;
    [reflexivity|].
  simpl. apply bind_returns; [apply DownStage_forward_returns; exact Hconv|].
  intros [fe1 bp] m1. apply IH.
Qed.

Lemma fc_chain_returns (layers : list (Linear * InstanceNorm1d)) :
  forall fe, is_ok (fc_chain B layers fe) = true.
Proof.
  induction layers as [| [l n] rest IH]; intro fe; [reflexivity|].
  simpl.
  destruct (is_ok_true _ (linear_total B total l fe)) as [fe1 ->]. simpl.
  destruct (is_ok_true _ (unsqueeze_total B total 1 fe1)) as [x ->]. simpl.
  destruct (is_ok_true _ (norm1d_total B total n x)) as [y ->]. simpl.
  destruct (is_ok_true _ (squeeze_total B total 1 y)) as [fe2 ->]. simpl.
  apply IH.
Qed.

Lemma head_as_built_returns (gp : option GlobalPool) (h : FcHead) (fe : Tensor B) :
  is_ok (head_as_built B gp h fe) = true.
Proof.
  unfold head_as_built.
  assert (Hgp : exists fe1, match gp with
                            | Some g => GlobalPool_call B g fe
                            | None => Ok fe
                            end = Ok fe1).
  { destruct gp as [g |]; [|eauto].
    apply is_ok_true, (global_pool_total B total). }
  destruct Hgp as [fe1 ->]. simpl.
  destruct (is_ok_true _ (flatten_total B total fe1)) as [fe2 ->]. simpl.
  apply fc_chain_returns.
Qed.

End EncoderReturns.

Section BuiltEncoderReturns.

Context (B : Backend).

Lemma DownConv_init_covers (cin cout blocks pool : Z) (d : DownConv) :
  DownConv_init B cin cout blocks pool = Ok d ->
  bn_covers (dc_bn d) (dc_conv2 d).
Proof.
  intro H. unfold DownConv_init in H.
  apply rbind_ok in H. destruct H as (conv1 & _ & H).
  apply rbind_ok in H. destruct H as (conv2 & Hconv2 & H).
  apply rbind_ok in H. destruct H as (bn & Hbn & H).
  apply rbind_ok in H. destruct H as (pl & _ & H).
  inversion H; subst d; clear H. simpl.
  apply rrepeat_length in Hconv2, Hbn.
  unfold bn_covers. rewrite Hconv2, Hbn.
  destruct (Z_le_gt_dec (blocks + 1) 0) as [Hle | Hgt].
  - left. destruct bn as [| n bn']; [reflexivity|].
    simpl in Hbn. lia.
  - right. lia.
Qed.

Lemma encoder_stage_wf (pools convs : list Z) (blocks : Z) (a : AttnArgs)
    (i : Z) (acc acc' : list DownStage) :
  encoder_stage B pools convs blocks a i acc = Ok acc' ->
  Forall stage_wf acc -> Forall stage_wf acc'.
Proof.
  intros H Hacc. unfold encoder_stage in H.
  apply rbind_ok in H. destruct H as (pool & _ & H).
  apply rbind_ok in H. destruct H as (cin & _ & H).
  apply rbind_ok in H. destruct H as (cout & _ & H).
  apply rbind_ok in H. destruct H as (s & Hs & H).
  inversion H; subst acc'; clear H.
  apply Forall_app. split; [exact Hacc|]. constructor; [|constructor].
  destruct (attn_n_heads a) as [heads |].
  - apply rbind_ok in Hs. destruct Hs as (d & Hd & Hs).
    inversion Hs; subst s. simpl.
    unfold DownConvWithAttention_init in Hd.
    apply rbind_ok in Hd. destruct Hd as (base & Hbase & Hd).
    unbind Hd. inversion Hd; subst d. simpl.
    eapply DownConv_init_covers. eassumption.
  - apply rbind_ok in Hs. destruct Hs as (d & Hd & Hs).
    inversion Hs; subst s. simpl.
    eapply DownConv_init_covers. eassumption.
Qed.

Lemma MeshEncoder_init_wf (pools convs : list Z) (fcs : option (list Z))
    (blocks : Z) (global_pool : option string) (a : AttnArgs) (e : MeshEncoder) :
  MeshEncoder_init B pools convs fcs blocks global_pool a = Ok e ->
  Forall stage_wf (me_convs e) /\
  forall h, me_fcs e = Some h -> length (fh_fcs_bn h) = length (fh_fcs h).
Proof.
  intro H. unfold MeshEncoder_init in H.
  apply rbind_ok in H. destruct H as (_ & _ & H).
  apply rbind_ok in H. destruct H as (stages & Hstages & H).
  apply rbind_ok in H. destruct H as ([head gp] & Hhead & H).
  inversion H; subst e; clear H. simpl. split.
  - eapply (rfold_invariant (Forall stage_wf)); [|exact Hstages|constructor].
    intros i acc acc' Hbody. eapply encoder_stage_wf. exact Hbody.
  - intros h Hh. subst head. destruct fcs as [fcs |]; [|discriminate Hhead].
    apply rbind_ok in Hhead. destruct Hhead as ([h' gp'] & Hh' & Hhead).
    inversion Hhead; subst; clear Hhead.
    apply encoder_head_layers in Hh'.
    destruct Hh' as (last & first & _ & _ & Hfcs & Hbn).
    rewrite Hfcs, Hbn, linear_chain_length, length_map. reflexivity.
Qed.

(** On a backend whose operations do not raise, the forward pass of a
    built encoder returns. *)
Lemma MeshEncoder_forward_returns (pools convs : list Z)
    (fcs : option (list Z)) (blocks : Z) (global_pool : option string)
    (a : AttnArgs) (e : MeshEncoder) :
  MeshEncoder_init B pools convs fcs blocks global_pool a = Ok e ->
  BackendTotal B ->
  forall fe m, is_ok (MeshEncoder_forward B e fe m) = true.
Proof.
  intros Hinit total fe m.
  apply MeshEncoder_init_wf in Hinit. destruct Hinit as [Hwf Hhead].
  unfold MeshEncoder_forward.
  apply bind_returns; [apply run_convs_returns; assumption|].
  intros [fe1 outs] m1.
  destruct (me_fcs e) as [h |]; [|reflexivity].
  apply bind_returns; [|reflexivity].
  apply lift_returns. rewrite run_head_as_built by (apply Hhead; reflexivity).
  apply head_as_built_returns. exact total.
Qed.

End BuiltEncoderReturns.

Section SkipCache.

Context (B : Backend).

(** C1. The forward pass of a built encoder returns whenever the
    operations of the backend do.  The skip cache it returns has one
    entry per stage, and the encoder has [len(convs) - 1] stages (none
    when [convs] is empty).  Entry [i] is not None exactly when the stage
    was built with a pooling target, that is when [i + 1 < len(pools)]
    and [pools[i + 1]] is not zero; it then holds the features stage [i]
    computed, before pooling, from the output of the stages before it. *)
Theorem MeshEncoder_skip_cache :
  forall pools convs fcs blocks global_pool a e,
    MeshEncoder_init B pools convs fcs blocks global_pool a = Ok e ->
    len (me_convs e) = Z.max 0 (len convs - 1) /\
    (BackendTotal B ->
     forall fe m, exists fe' outs m',
         MeshEncoder_forward B e fe m = Ok ((fe', outs), m')) /\
    forall fe m fe' outs m',
    MeshEncoder_forward B e fe m = Ok ((fe', outs), m') ->
    length outs = length (me_convs e) /\
    forall i : nat,
      (i < length outs)%nat ->
      ((exists t, nth_error outs i = Some (Some t)) <->
       (Z.of_nat i + 1 < len pools /\
        exists p, py_index pools (Z.of_nat i + 1) = Ok p /\ p <> 0)) /\
      (forall t,
          nth_error outs i = Some (Some t) ->
          exists s fe_i m_i m_i',
            nth_error (me_convs e) i = Some s /\
            run_convs B (firstn i (me_convs e)) fe [] m
            = Ok ((fe_i, firstn i outs), m_i) /\
            DownStage_features B s fe_i m_i = Ok (t, m_i')).
Proof.
  intros until e. intros Hinit.
  pose proof (MeshEncoder_forward_returns B _ _ _ _ _ _ _ Hinit) as Hreturns.
  apply MeshEncoder_init_stages in Hinit. destruct Hinit as [Hcount Hpools].
  split; [unfold len at 1; rewrite Hcount; lia|].
  split.
  { intros total fe m.
    destruct (is_ok_true _ (Hreturns total fe m)) as [[[fe' outs] m'] H].
    eauto. }
  intros fe m fe' outs m' Hfwd.
  apply MeshEncoder_forward_convs in Hfwd. destruct Hfwd as [fe1 Hrun].
  apply run_convs_entries in Hrun. destruct Hrun as [Hlen Hentries].
  split; [exact Hlen|].
  intros i Hi.
  destruct (nth_error (me_convs e) i) as [s |] eqn:Hs.
  2:{ apply nth_error_None in Hs. lia. }
  destruct (Hentries i s Hs)
    as (fe_i & m_i & fe_i' & bp & m_i' & Hprefix & Hstage & Hbp).
  apply DownStage_forward_snapshot in Hstage.
  rewrite <- built_pool_some, <- (Hpools i s Hs).
  destruct (stage_pool s) as [pool |]; simpl.
  - destruct Hstage as (t & m1 & -> & Hfeat). split.
    + split; [reflexivity | eauto].
    + intros t' Ht'. rewrite Hbp in Ht'. inversion Ht'; subst t'.
      exists s, fe_i, m_i, m1. auto.
  - destruct Hstage as [-> _]. split.
    + split; [|discriminate]. intros [t Ht]. rewrite Hbp in Ht. discriminate Ht.
    + intros t Ht. rewrite Hbp in Ht. discriminate Ht.
Qed.

End SkipCache.

Lemma MeshEncoder_skip_cache_witness :
  exists e fe' outs,
    MeshEncoder_init SymBackend [2280; 1800; 1350; 600] [5; 32; 64; 128; 256]
                     None 0 None no_attention = Ok e /\
    MeshEncoder_forward SymBackend e (SInput 0) []
    = Ok ((fe', outs), [Pooled 1800; Pooled 1350; Pooled 600]) /\
    length outs = 4%nat /\
    map is_some outs = [true; true; true; false].
Proof.
  eexists. eexists. eexists.
  split; [reflexivity|]. split; [reflexivity|].
  destruct (MeshEncoder_skip_cache SymBackend [2280; 1800; 1350; 600]
              [5; 32; 64; 128; 256] None 0 None no_attention _ eq_refl)
    as (_ & _ & Hcache).
  destruct (Hcache (SInput 0) [] _ _ _ eq_refl) as (Hlen & _).
  split; [exact Hlen | reflexivity].
Defined.

(** ** Schedule lengths at construction *)

Lemma rrepeat_ok {A : Type} (a : A) (n : nat) :
  rrepeat n (Ok a) = Ok (repeat a n).
Proof.
  induction n as [| n IH]; simpl; [reflexivity|]. rewrite IH. reflexivity.
Qed.

(** A loop whose iterations all succeed succeeds. *)
Lemma rfold_returns {A S : Type} (body : A -> S -> result S) (l : list A) :
  (forall x acc, In x l -> is_ok (body x acc) = true) ->
  forall acc, is_ok (rfold body l acc) = true.
Proof.
  induction l as [| x rest IH]; intros Hbody acc; [reflexivity|].
  simpl. destruct (body x acc) as [acc' | e] eqn:Hx.
  - simpl. apply IH. intros y a Hin. apply Hbody. right. exact Hin.
  - specialize (Hbody x acc (or_introl eq_refl)). rewrite Hx in Hbody.
    discriminate Hbody.
Qed.

(** A loop stops with the error of its first failing iteration. *)
Lemma rfold_first_failure {A S : Type} (body : A -> S -> result S)
    (good : A -> bool) (e : PyError) (l : list A) :
  (forall x acc, In x l -> good x = true -> is_ok (body x acc) = true) ->
  (forall x acc, In x l -> good x = false -> body x acc = Err e) ->
  forall acc,
    if forallb good l then is_ok (rfold body l acc) = true
    else rfold body l acc = Err e.
Proof.
  induction l as [| x rest IH]; intros Hgood Hbad acc; [reflexivity|].
  simpl. destruct (good x) eqn:Hx; simpl.
  - pose proof (Hgood x acc (or_introl eq_refl) Hx) as Hgx.
    destruct (body x acc) as [acc' |]; [simpl|discriminate Hgx].
    apply IH; intros y a Hin; [apply Hgood | apply Hbad]; right; exact Hin.
  - rewrite (Hbad x acc (or_introl eq_refl) Hx). reflexivity.
Qed.

Lemma is_ok_rbind {A C : Type} (c : result A) (k : A -> result C) :
  is_ok c = true ->
  (forall a, c = Ok a -> is_ok (k a) = true) ->
  is_ok (rbind c k) = true.
Proof.
  destruct c as [a | e]; simpl; intros Hc Hk; [apply Hk; reflexivity|].
  discriminate Hc.
Qed.

Section BuiltDecoder.

Context (B : Backend).

Lemma UpConv_init_transfer (cin cout blocks unroll : Z)
    (residual batch_norm transfer_data : bool) (u : UpConv) :
  UpConv_init B cin cout blocks unroll residual batch_norm transfer_data = Ok u ->
  uc_transfer_data u = transfer_data.
Proof.
  intro H. unfold UpConv_init in H. unbind H. inversion H. reflexivity.
Qed.

(** The up-convolution stages of a built decoder: one per index of
    [range(len(convs) - 2)], all with the decoder's transfer flag. *)
Lemma MeshDecoder_init_up_convs (unrolls convs : list Z) (blocks : Z)
    (batch_norm transfer_data : bool) (d : MeshDecoder) :
  MeshDecoder_init B unrolls convs blocks batch_norm transfer_data = Ok d ->
  length (md_up_convs d) = Z.to_nat (len convs - 2) /\
  Forall (fun u => uc_transfer_data u = transfer_data) (md_up_convs d).
Proof.
  intro H. unfold MeshDecoder_init in H.
  apply rbind_ok in H. destruct H as (ups & Hups & H).
  unbind H. inversion H; subst d; clear H. simpl.
  apply (rfold_snoc _ (fun (_ : Z) u => uc_transfer_data u = transfer_data))
    in Hups.
  - destruct Hups as (ts & -> & Hts). simpl.
    split.
    + apply Forall2_length in Hts. rewrite <- Hts.
      unfold py_range. rewrite length_map, length_seq. reflexivity.
    + clear -Hts. induction Hts; constructor; assumption.
  - intros i acc acc' _ Hbody. unfold decoder_stage in Hbody.
    apply rbind_ok in Hbody. destruct Hbody as (unroll & _ & Hbody).
    apply rbind_ok in Hbody. destruct Hbody as (cin & _ & Hbody).
    apply rbind_ok in Hbody. destruct Hbody as (cout & _ & Hbody).
    apply rbind_ok in Hbody. destruct Hbody as (u & Hu & Hbody).
    inversion Hbody; subst acc'.
    exists u. split; [reflexivity|].
    eapply UpConv_init_transfer. exact Hu.
Qed.

(** A decoder built with skip transfer and at least one up-convolution
    stage does not run without a skip cache. *)
Corollary MeshDecoder_needs_skip_cache (unrolls convs : list Z) (blocks : Z)
    (batch_norm : bool) (d : MeshDecoder) :
  MeshDecoder_init B unrolls convs blocks batch_norm true = Ok d ->
  3 <= len convs ->
  forall fe m, is_ok (MeshDecoder_forward B d fe None m) = false.
Proof.
  intros Hinit Hlen fe m.
  apply MeshDecoder_init_up_convs in Hinit. destruct Hinit as [Hcount Hflags].
  destruct (md_up_convs d) as [| u rest] eqn:E; [simpl in Hcount; lia|].
  inversion Hflags as [| u' rest' Hu _]; subst.
  assert (Hfail : forall from_up m0,
             is_ok (UpConv_forward B u from_up None m0) = false).
  { intros from_up m0. unfold UpConv_forward, bind. rewrite Hu.
    destruct (UpConv_unrolled B u from_up m0) as [[x1 m1] | e]; reflexivity. }
  unfold MeshDecoder_forward, bind.
  destruct (run_up_convs_null_skip_raises B u (md_up_convs d) Hfail
              ltac:(rewrite E; left; reflexivity) 0 fe m) as [e ->].
  reflexivity.
Qed.

End BuiltDecoder.

Section AcceptingBackend.

Context (B : Backend).
Hypothesis accept : forall c, ctor_error B c = None.

Lemma new_MeshConv_accept (cin cout : Z) (bias : option bool) :
  new_MeshConv B cin cout bias = Ok (mkMeshConv cin cout bias).
Proof. unfold new_MeshConv, construct. rewrite accept. reflexivity. Qed.

Lemma new_MeshPool_accept (t : Z) : new_MeshPool B t = Ok (mkMeshPool t).
Proof. unfold new_MeshPool, construct. rewrite accept. reflexivity. Qed.

Lemma new_MeshUnpool_accept (t : Z) : new_MeshUnpool B t = Ok (mkMeshUnpool t).
Proof. unfold new_MeshUnpool, construct. rewrite accept. reflexivity. Qed.

Lemma new_MeshAttention_accept (a : MeshAttention) :
  new_MeshAttention B a = Ok a.
Proof. unfold new_MeshAttention, construct. rewrite accept. reflexivity. Qed.

Lemma new_InstanceNorm2d_accept (n : Z) :
  new_InstanceNorm2d B n = Ok (mkInstanceNorm2d n).
Proof. unfold new_InstanceNorm2d, construct. rewrite accept. reflexivity. Qed.

Lemma new_BatchNorm2d_accept (n : Z) :
  new_BatchNorm2d B n = Ok (mkBatchNorm2d n).
Proof. unfold new_BatchNorm2d, construct. rewrite accept. reflexivity. Qed.

Lemma new_Linear_accept (i o : Z) : new_Linear B i o = Ok (mkLinear i o).
Proof. unfold new_Linear, construct. rewrite accept. reflexivity. Qed.

Lemma new_GlobalPool_accept (g : GlobalPool) : new_GlobalPool B g = Ok g.
Proof. unfold new_GlobalPool, construct. rewrite accept. reflexivity. Qed.

Lemma new_NormLayer_accept (f : NormFactory) (a : NormArgs) :
  new_NormLayer B f a = Ok (mkNormLayer f a).
Proof. unfold new_NormLayer, construct. rewrite accept. reflexivity. Qed.

Lemma DownConv_init_accept (cin cout blocks pool : Z) :
  is_ok (DownConv_init B cin cout blocks pool) = true.
Proof.
  unfold DownConv_init.
  rewrite !new_MeshConv_accept, new_InstanceNorm2d_accept, !rrepeat_ok.
  simpl. destruct (pool =? 0); [reflexivity|].
  rewrite new_MeshPool_accept. reflexivity.
Qed.

Lemma DownConvWithAttention_init_accept (cin cout blocks pool heads : Z)
    (a : AttnArgs) :
  head_size_ok heads cout = true ->
  negb (truthy (double_attention a)) || truthy (attn_use_values_as_is a) = true ->
  is_ok (DownConvWithAttention_init B cin cout blocks pool heads a) = true.
Proof.
  intros Hheads Hflags. unfold DownConvWithAttention_init.
  apply is_ok_rbind; [apply DownConv_init_accept|]. intros base _.
  apply is_ok_rbind.
  { destruct (truthy (double_attention a)); [|reflexivity].
    simpl in Hflags. rewrite Hflags. reflexivity. }
  intros _ _. unfold head_size_ok in Hheads.
  destruct (py_int_div cout heads) as [d |]; [|discriminate Hheads].
  simpl. rewrite new_MeshAttention_accept. reflexivity.
Qed.

Lemma UpConv_init_accept (cin cout blocks unroll : Z)
    (residual batch_norm transfer_data : bool) :
  is_ok (UpConv_init B cin cout blocks unroll residual batch_norm
                     transfer_data) = true.
Proof.
  unfold UpConv_init.
  rewrite new_MeshConv_accept. simpl.
  destruct transfer_data; rewrite !new_MeshConv_accept, rrepeat_ok; simpl;
    (destruct batch_norm;
     [rewrite new_InstanceNorm2d_accept, rrepeat_ok|]; simpl;
     (destruct (unroll =? 0); [reflexivity|];
      rewrite new_MeshUnpool_accept; reflexivity)).
Qed.

Lemma encoder_stage_accept (pools convs : list Z) (blocks : Z) (a : AttnArgs)
    (i : Z) (acc : list DownStage) :
  attn_args_ok a = true ->
  head_sizes_ok a convs = true ->
  0 <= i < len convs - 1 ->
  is_ok (encoder_stage B pools convs blocks a i acc) = true.
Proof.
  intros Ha Hsizes Hi. unfold encoder_stage.
  apply is_ok_rbind.
  { destruct (Z.ltb_spec (i + 1) (len pools)) as [Hlt | _]; [|reflexivity].
    destruct (py_index_in_range pools (i + 1)) as (p & -> & _);
      [lia | reflexivity]. }
  intros pool _.
  destruct (py_index_in_range convs i) as (cin & -> & _); [lia|].
  destruct (py_index_in_range convs (i + 1)) as (cout & -> & Hcout); [lia|].
  simpl. unfold attn_args_ok in Ha. unfold head_sizes_ok in Hsizes.
  destruct (attn_n_heads a) as [heads |].
  - apply andb_prop in Ha. destruct Ha as [Ha Hflags].
    apply is_ok_rbind; [|reflexivity].
    apply is_ok_rbind; [|reflexivity].
    apply DownConvWithAttention_init_accept; [|exact Hflags].
    rewrite forallb_forall in Hsizes. apply Hsizes.
    replace (Z.to_nat (i + 1)) with (S (Z.to_nat i)) in Hcout by lia.
    destruct convs as [| c0 rest]; [discriminate Hcout|].
    simpl in Hcout. apply nth_error_In in Hcout. exact Hcout.
  - apply is_ok_rbind; [|reflexivity].
    apply is_ok_rbind; [apply DownConv_init_accept | reflexivity].
Qed.

Lemma MeshEncoder_init_accept (pools convs : list Z) (blocks : Z) (a : AttnArgs) :
  attn_args_ok a = true ->
  head_sizes_ok a convs = true ->
  is_ok (MeshEncoder_init B pools convs None blocks None a) = true.
Proof.
  intros Ha Hsizes. unfold MeshEncoder_init.
  apply is_ok_rbind.
  { pose proof Ha as Ha'. unfold attn_args_ok in Ha'.
    destruct (attn_n_heads a) as [heads |]; [|reflexivity]. simpl.
    apply andb_prop in Ha'. destruct Ha' as [Ha' _].
    apply andb_prop in Ha'. destruct Ha' as [Ha' Hprio].
    apply andb_prop in Ha'. destruct Ha' as [_ Hdrop].
    rewrite Hdrop, Hprio. reflexivity. }
  intros _ _. apply is_ok_rbind; [|reflexivity].
  apply rfold_returns. intros i acc Hin. apply In_py_range in Hin.
  apply encoder_stage_accept; assumption.
Qed.

End AcceptingBackend.

Lemma py_index_last_but {A : Type} (l : list A) (k : Z) :
  0 < k ->
  is_ok (py_index l (- k)) = (k <=? len l) /\
  (len l < k -> py_index l (- k) = Err IndexError).
Proof.
  intros Hk. unfold py_index.
  destruct (Z.ltb_spec (- k) 0) as [_ | H]; [|lia].
  destruct (Z.ltb_spec (len l + - k) 0) as [Hneg | Hpos].
  - split; [|reflexivity]. simpl. symmetry. apply Z.leb_gt. lia.
  - destruct (nth_error l (Z.to_nat (len l + - k))) as [a |] eqn:E.
    + split; [|lia]. simpl. symmetry. apply Z.leb_le. lia.
    + apply nth_error_None in E. unfold len in *. lia.
Qed.

Lemma length_py_init {A : Type} (a : A) (l : list A) :
  length (py_init (a :: l)) = length l.
Proof.
  unfold py_init. revert a. induction l as [| b l IH]; intro a; [reflexivity|].
  transitivity (S (length (removelast (b :: l)))); [reflexivity|].
  rewrite IH. reflexivity.
Qed.

Lemma In_py_enumerate {A : Type} (l : list A) (i : Z) (x : A) :
  In (i, x) (py_enumerate l) -> 0 <= i < len l.
Proof.
  unfold py_enumerate. intro H. apply in_combine_l in H.
  apply In_py_range. exact H.
Qed.

(** The items of [enumerate(l)] all have an index below [p] exactly when
    [l] has at most [p] elements. *)
Lemma forallb_py_enumerate {A : Type} (l : list A) (p : Z) :
  0 <= p ->
  forallb (fun ix : Z * A => fst ix <? p) (py_enumerate l) = (len l <=? p).
Proof.
  intros Hp. destruct (Z.leb_spec (len l) p) as [Hle | Hgt].
  - apply forallb_forall. intros [i x] Hin. apply In_py_enumerate in Hin.
    simpl. apply Z.ltb_lt. lia.
  - destruct (forallb _ (py_enumerate l)) eqn:E; [|reflexivity].
    exfalso. rewrite forallb_forall in E.
    destruct (nth_error l (Z.to_nat p)) as [x |] eqn:Hx.
    2:{ apply nth_error_None in Hx. unfold len in Hgt. lia. }
    assert (Hin : In (p, x) (py_enumerate l)).
    { unfold py_enumerate. rewrite py_range_len.
      assert (Hlt : (Z.to_nat p < length l)%nat) by (unfold len in Hgt; lia).
      replace (p, x)
        with (nth (Z.to_nat p) (combine (map Z.of_nat (seq 0 (length l))) l)
                  (0, x)).
      - apply nth_In. rewrite length_combine, length_map, length_seq. lia.
      - rewrite combine_nth by (rewrite length_map, length_seq; reflexivity).
        f_equal.
        + change 0 with (Z.of_nat 0). rewrite map_nth, seq_nth by exact Hlt.
          simpl. lia.
        + apply nth_error_nth. exact Hx. }
    apply E in Hin. simpl in Hin. apply Z.ltb_lt in Hin. lia.
Qed.

Section AcceptingNetworks.

Context (B : Backend).
Hypothesis accept : forall c, ctor_error B c = None.

Lemma decoder_stage_accept (unrolls convs : list Z) (blocks : Z)
    (batch_norm transfer_data : bool) (i : Z) (acc : list UpConv) :
  0 <= i < len convs - 2 ->
  is_ok (decoder_stage B unrolls convs blocks batch_norm transfer_data i acc)
  = true.
Proof.
  intros Hi. unfold decoder_stage.
  apply is_ok_rbind.
  { destruct (Z.ltb_spec i (len unrolls)) as [Hlt | _]; [|reflexivity].
    destruct (py_index_in_range unrolls i) as (u & -> & _);
      [lia | reflexivity]. }
  intros unroll _.
  destruct (py_index_in_range convs i) as (cin & -> & _); [lia|].
  destruct (py_index_in_range convs (i + 1)) as (cout & -> & _); [lia|].
  simpl. apply is_ok_rbind; [|reflexivity].
  apply UpConv_init_accept. exact accept.
Qed.

Lemma MeshDecoder_init_accept (unrolls convs : list Z) (blocks : Z)
    (batch_norm transfer_data : bool) :
  is_ok (MeshDecoder_init B unrolls convs blocks batch_norm transfer_data)
  = (2 <=? len convs).
Proof.
  unfold MeshDecoder_init.
  assert (Hloop : is_ok (rfold (decoder_stage B unrolls convs blocks batch_norm
                                  transfer_data)
                               (py_range (len convs - 2)) []) = true).
  { apply rfold_returns. intros i acc Hin. apply In_py_range in Hin.
    apply decoder_stage_accept. exact Hin. }
  destruct (is_ok_true _ Hloop) as [ups ->]. simpl.
  destruct (py_index_last_but convs 2) as [H2 H2']; [lia|].
  destruct (Z.leb_spec 2 (len convs)) as [Hle | Hgt].
  - destruct (is_ok_true _ H2) as [cin Hcin].
    change (-2) with (- (2)). rewrite Hcin. simpl.
    destruct (py_index_last_but convs 1) as [H1 _]; [lia|].
    replace (1 <=? len convs) with true in H1 by (symmetry; apply Z.leb_le; lia).
    destruct (is_ok_true _ H1) as [cout Hcout].
    change (-1) with (- (1)). rewrite Hcout. simpl.
    apply is_ok_rbind; [|reflexivity].
    apply UpConv_init_accept. exact accept.
  - change (-2) with (- (2)). rewrite (H2' Hgt). reflexivity.
Qed.

Lemma MeshEncoderDecoder_init_with_accept (pools down_convs up_convs : list Z)
    (blocks : Z) (transfer_data : bool) (a : AttnArgs) :
  attn_args_ok a = true ->
  head_sizes_ok a down_convs = true ->
  is_ok (MeshEncoderDecoder_init_with B pools down_convs up_convs blocks
                                      transfer_data a)
  = (2 <=? len up_convs).
Proof.
  intros Ha Hsizes. unfold MeshEncoderDecoder_init_with.
  destruct (is_ok_true _ (MeshEncoder_init_accept B accept pools down_convs
                            blocks a Ha Hsizes)) as [e ->].
  simpl.
  pose proof (MeshDecoder_init_accept (rev (py_init pools)) up_convs blocks
                true transfer_data) as Hdec.
  destruct (MeshDecoder_init B (rev (py_init pools)) up_convs blocks true
                             transfer_data) as [d |]; exact Hdec.
Qed.

End AcceptingNetworks.

Lemma get_norm_args_supported (f : NormFactory) (nfeats : list Z) :
  norm_supported f = true ->
  exists args, get_norm_args f nfeats = Ok args /\ length args = length nfeats.
Proof.
  destruct f; simpl; intro H; try discriminate H.
  - exists (map ArgNumChannels nfeats). rewrite length_map. auto.
  - exists (map (fun _ => ArgFake) nfeats). rewrite length_map. auto.
Qed.

Section AcceptingClassifiers.

Context (B : Backend).
Hypothesis accept : forall c, ctor_error B c = None.

Lemma MResConv_init_accept (cin cout skips : Z) :
  is_ok (MResConv_init B cin cout skips) = true.
Proof.
  unfold MResConv_init.
  rewrite !new_MeshConv_accept, new_BatchNorm2d_accept by exact accept.
  simpl. rewrite rrepeat_ok. reflexivity.
Qed.

Lemma classifier_attention_accept (heads : Z) (a : AttnArgs) (d_model : Z) :
  head_size_ok heads d_model = true ->
  is_ok (classifier_attention B heads a d_model) = true.
Proof.
  intro Hheads. unfold classifier_attention. unfold head_size_ok in Hheads.
  destruct (py_int_div d_model heads) as [d |]; [|discriminate Hheads].
  simpl. rewrite new_MeshAttention_accept by exact accept. reflexivity.
Qed.

Variables (nf0 input_res nresblocks : Z) (conv_res pool_res : list Z).
Variables (norm_layer : NormFactory) (norm_args : list NormArgs).
Variable attention : option (Z -> result MeshAttention).

Hypothesis norm_args_length : length norm_args = length conv_res.
Hypothesis attention_accept :
  forall mk d, attention = Some mk -> In d conv_res -> is_ok (mk d) = true.

(** An iteration of the classifier loop succeeds while the pooling
    schedule has an entry for it, and raises an index error after. *)
Lemma classifier_stage_cases (i ki : Z) (acc : list ClassifierStage) :
  0 <= i < len conv_res ->
  if i <? len pool_res
  then is_ok (classifier_stage B ([nf0] ++ conv_res) ([input_res] ++ pool_res)
                norm_layer norm_args nresblocks attention (i, ki) acc) = true
  else classifier_stage B ([nf0] ++ conv_res) ([input_res] ++ pool_res)
         norm_layer norm_args nresblocks attention (i, ki) acc
       = Err IndexError.
Proof.
  intros Hi. unfold classifier_stage.
  change ([nf0] ++ conv_res) with (nf0 :: conv_res).
  change ([input_res] ++ pool_res) with (input_res :: pool_res).
  assert (Hk : len (nf0 :: conv_res) = len conv_res + 1)
    by (unfold len; simpl length; lia).
  assert (Hres : len (input_res :: pool_res) = len pool_res + 1)
    by (unfold len; simpl length; lia).
  destruct (py_index_in_range (nf0 :: conv_res) (i + 1))
    as (knext & Hknext & Hin); [lia|].
  replace (Z.to_nat (i + 1)) with (S (Z.to_nat i)) in Hin by lia.
  simpl in Hin. apply nth_error_In in Hin.
  destruct (is_ok_true _ (MResConv_init_accept ki knext nresblocks))
    as [conv Hconv].
  destruct (py_index_in_range norm_args i) as (args & Hargs & _);
    [unfold len; rewrite norm_args_length; exact Hi|].
  assert (Hatt : exists att,
             match attention with
             | Some mk => rbind (mk knext) (fun a => Ok (Some a))
             | None => Ok None
             end = Ok att).
  { destruct attention as [mk |] eqn:E; [|eauto].
    destruct (is_ok_true _ (attention_accept mk knext eq_refl Hin)) as [a ->].
    simpl. eauto. }
  destruct Hatt as [att Hatt].
  destruct (Z.ltb_spec i (len pool_res)) as [Hlt | Hge];
    rewrite Hknext; simpl; rewrite Hconv; simpl; rewrite Hargs; simpl;
    rewrite new_NormLayer_accept by exact accept; simpl;
    rewrite Hatt; simpl.
  - destruct (py_index_in_range (input_res :: pool_res) (i + 1))
      as (target & -> & _); [lia|].
    simpl. rewrite new_MeshPool_accept by exact accept. reflexivity.
  - unfold py_index.
    destruct (Z.ltb_spec (i + 1) 0) as [H | _]; [lia|].
    destruct (Z.ltb_spec (i + 1) 0) as [H | _]; [lia|].
    assert (E : nth_error (input_res :: pool_res) (Z.to_nat (i + 1)) = None)
      by (apply nth_error_None; unfold len in *; simpl length; lia).
    rewrite E. reflexivity.
Qed.

Lemma classifier_loop_cases :
  if len conv_res <=? len pool_res
  then is_ok (rfold (classifier_stage B ([nf0] ++ conv_res)
                       ([input_res] ++ pool_res) norm_layer norm_args
                       nresblocks attention)
                    (py_enumerate (py_init ([nf0] ++ conv_res))) []) = true
  else rfold (classifier_stage B ([nf0] ++ conv_res)
                ([input_res] ++ pool_res) norm_layer norm_args
                nresblocks attention)
             (py_enumerate (py_init ([nf0] ++ conv_res))) []
       = Err IndexError.
Proof.
  assert (Hlen : len (py_init ([nf0] ++ conv_res)) = len conv_res)
    by (unfold len; simpl app; rewrite length_py_init; reflexivity).
  rewrite <- Hlen.
  rewrite <- (forallb_py_enumerate (py_init ([nf0] ++ conv_res)) (len pool_res))
    by (unfold len; lia).
  apply rfold_first_failure.
  - intros [i ki] acc Hin Hgood. apply In_py_enumerate in Hin.
    rewrite Hlen in Hin. simpl in Hgood.
    pose proof (classifier_stage_cases i ki acc Hin) as H.
    rewrite Hgood in H. exact H.
  - intros [i ki] acc Hin Hbad. apply In_py_enumerate in Hin.
    rewrite Hlen in Hin. simpl in Hbad.
    pose proof (classifier_stage_cases i ki acc Hin) as H.
    rewrite Hbad in H. exact H.
Qed.

End AcceptingClassifiers.

Section ScheduleLengths.

Context (B : Backend).
Hypothesis accept : forall c, ctor_error B c = None.

Lemma classifier_tail_accept (res k : list Z) (x y fc_n nclasses : Z)
    {N : Type} (mk : GlobalPool -> Linear -> Linear -> N) :
  is_ok (rbind (py_index (x :: res) (-1)) (fun last_res =>
         rbind (new_GlobalPool B (AvgPool1d last_res)) (fun gp =>
         rbind (py_index (y :: k) (-1)) (fun last_k =>
         rbind (new_Linear B last_k fc_n) (fun fc1 =>
         rbind (new_Linear B fc_n nclasses) (fun fc2 =>
         Ok (mk gp fc1 fc2))))))) = true.
Proof.
  destruct (py_index_last_but (x :: res) 1) as [Hres _]; [lia|].
  replace (1 <=? len (x :: res)) with true in Hres
    by (symmetry; apply Z.leb_le; unfold len; simpl length; lia).
  destruct (is_ok_true _ Hres) as [last_res Hlast_res].
  destruct (py_index_last_but (y :: k) 1) as [Hk _]; [lia|].
  replace (1 <=? len (y :: k)) with true in Hk
    by (symmetry; apply Z.leb_le; unfold len; simpl length; lia).
  destruct (is_ok_true _ Hk) as [last_k Hlast_k].
  change (-1) with (- (1)). rewrite Hlast_res, Hlast_k. simpl.
  rewrite new_GlobalPool_accept by exact accept. simpl.
  rewrite !new_Linear_accept by exact accept. reflexivity.
Qed.

Lemma MeshConvNet_init_cases (norm_layer : NormFactory) (nf0 : Z)
    (conv_res : list Z) (nclasses input_res : Z) (pool_res : list Z)
    (fc_n nresblocks : Z) :
  norm_supported norm_layer = true ->
  if len conv_res <=? len pool_res
  then is_ok (MeshConvNet_init B norm_layer nf0 conv_res nclasses input_res
                               pool_res fc_n nresblocks) = true
  else MeshConvNet_init B norm_layer nf0 conv_res nclasses input_res
                        pool_res fc_n nresblocks = Err IndexError.
Proof.
  intros Hnorm. unfold MeshConvNet_init.
  destruct (get_norm_args_supported norm_layer (py_tail ([nf0] ++ conv_res))
              Hnorm) as (args & -> & Hlen).
  simpl in Hlen.
  pose proof (classifier_loop_cases B accept nf0 input_res nresblocks conv_res
                pool_res norm_layer args None Hlen) as Hloop.
  assert (Hatt : forall (mk : Z -> result MeshAttention) (d : Z),
             None = Some mk -> In d conv_res -> is_ok (mk d) = true)
    by (intros mk d E; discriminate E).
  specialize (Hloop Hatt).
  destruct (len conv_res <=? len pool_res); unfold rbind at 1; cbv beta iota.
  - destruct (is_ok_true _ Hloop) as [stages ->].
    unfold rbind at 1. cbv beta iota. apply classifier_tail_accept.
  - rewrite Hloop. reflexivity.
Qed.

Lemma MeshAttentionNet_init_cases (norm_layer : NormFactory) (nf0 : Z)
    (conv_res : list Z) (nclasses input_res : Z) (pool_res : list Z)
    (fc_n heads nresblocks : Z) (a : AttnArgs) :
  norm_supported norm_layer = true ->
  forallb (head_size_ok heads) conv_res = true ->
  negb (truthy (double_attention a)) || truthy (attn_use_values_as_is a) = true ->
  if len conv_res <=? len pool_res
  then is_ok (MeshAttentionNet_init B norm_layer nf0 conv_res nclasses
                input_res pool_res fc_n heads nresblocks a) = true
  else MeshAttentionNet_init B norm_layer nf0 conv_res nclasses input_res
         pool_res fc_n heads nresblocks a = Err IndexError.
Proof.
  intros Hnorm Hheads Hflags. unfold MeshAttentionNet_init.
  assert (Hassert : (if truthy (double_attention a)
                     then py_assert (truthy (attn_use_values_as_is a))
                                    double_attention_msg
                     else Ok tt) = Ok tt).
  { destruct (truthy (double_attention a)); [|reflexivity].
    simpl in Hflags. rewrite Hflags. reflexivity. }
  rewrite Hassert.
  destruct (get_norm_args_supported norm_layer (py_tail ([nf0] ++ conv_res))
              Hnorm) as (args & -> & Hlen).
  simpl in Hlen.
  pose proof (classifier_loop_cases B accept nf0 input_res nresblocks conv_res
                pool_res norm_layer args
                (Some (classifier_attention B heads a)) Hlen) as Hloop.
  assert (Hatt : forall mk d,
             Some (classifier_attention B heads a) = Some mk ->
             In d conv_res ->
             is_ok (mk d) = true).
  { intros mk d E Hin. inversion E; subst mk.
    apply classifier_attention_accept; [exact accept|].
    rewrite forallb_forall in Hheads. apply Hheads. exact Hin. }
  specialize (Hloop Hatt).
  destruct (len conv_res <=? len pool_res);
    unfold rbind at 1; cbv beta iota; unfold rbind at 1; cbv beta iota.
  - destruct (is_ok_true _ Hloop) as [stages ->].
    unfold rbind at 1. cbv beta iota. apply classifier_tail_accept.
  - rewrite Hloop. reflexivity.
Qed.

End ScheduleLengths.

(** C4, as the code has it. No constructor compares the lengths of the
    two schedules.  When the layer constructors accept their arguments, the
    encoder-decoder networks are built for every pair of lengths (the
    decoder needs two channel counts; with attention, the attention
    arguments pass their own checks and the channel count per head,
    [int(c / attn_n_heads)], can be computed for the output channels [c] of
    the stages): a stage of the encoder is built with the pooling target
    [pools[i + 1]] when [i + 1 < len(pools)] and without pooling otherwise.
    The two classifiers, with a normalisation [get_norm_args] knows (and,
    with attention, channel counts per head that can be computed), raise
    an index error when [pool_res] is shorter than [conv_res] and are built
    when it is as long or longer.  The channel count per head can be
    computed whenever the number of heads is not zero and the channel count
    is below [2^1023] in absolute value; the division raises for zero heads
    and for a quotient out of the range of floats. *)
Theorem schedule_lengths_unchecked :
  forall B : Backend,
    (forall c, ctor_error B c = None) ->
    (forall pools down_convs up_convs blocks transfer_data,
        is_ok (MeshEncoderDecoder_init B pools down_convs up_convs blocks
                                       transfer_data)
        = (2 <=? len up_convs)) /\
    (forall pools down_convs up_convs blocks transfer_data a,
        attn_args_ok a = true ->
        head_sizes_ok a down_convs = true ->
        is_ok (MeshEncoderDecoderWithAttention_init B pools down_convs up_convs
                                                    blocks transfer_data a)
        = (2 <=? len up_convs)) /\
    (forall pools convs fcs blocks global_pool a e,
        MeshEncoder_init B pools convs fcs blocks global_pool a = Ok e ->
        length (me_convs e) = Z.to_nat (len convs - 1) /\
        forall i s, nth_error (me_convs e) i = Some s ->
                    stage_pool s = built_pool pools i) /\
    (forall norm_layer nf0 conv_res nclasses input_res pool_res fc_n nresblocks,
        norm_supported norm_layer = true ->
        if len conv_res <=? len pool_res
        then is_ok (MeshConvNet_init B norm_layer nf0 conv_res nclasses
                                     input_res pool_res fc_n nresblocks) = true
        else MeshConvNet_init B norm_layer nf0 conv_res nclasses input_res
                              pool_res fc_n nresblocks = Err IndexError) /\
    (forall norm_layer nf0 conv_res nclasses input_res pool_res fc_n heads
            nresblocks a,
        norm_supported norm_layer = true ->
        forallb (head_size_ok heads) conv_res = true ->
        negb (truthy (double_attention a)) || truthy (attn_use_values_as_is a)
        = true ->
        if len conv_res <=? len pool_res
        then is_ok (MeshAttentionNet_init B norm_layer nf0 conv_res nclasses
                      input_res pool_res fc_n heads nresblocks a) = true
        else MeshAttentionNet_init B norm_layer nf0 conv_res nclasses input_res
               pool_res fc_n heads nresblocks a = Err IndexError) /\
    (forall heads channels,
        (heads <> 0 -> Z.abs channels < 2 ^ 1023 ->
         head_size_ok heads channels = true) /\
        (heads = 0 -> py_int_div channels heads = Err ZeroDivisionError) /\
        (forall e, py_int_div channels heads = Err e ->
                   e = ZeroDivisionError \/ e = OverflowError overflow_msg)).
Proof.
  intros B accept.
  split; [|split; [|split; [|split; [|split]]]].
  - intros. unfold MeshEncoderDecoder_init.
    apply MeshEncoderDecoder_init_with_accept;
      [exact accept | reflexivity | reflexivity].
  - intros. unfold MeshEncoderDecoderWithAttention_init.
    apply MeshEncoderDecoder_init_with_accept; assumption.
  - intros until e. apply MeshEncoder_init_stages.
  - intros. apply MeshConvNet_init_cases; assumption.
  - intros. apply MeshAttentionNet_init_cases; assumption.
  - intros heads channels. split; [|split].
    + intros Hheads Hc. apply py_int_div_returns; assumption.
    + intros ->. reflexivity.
    + intros e. unfold py_int_div.
      destruct (heads =? 0); [intro H; inversion H; auto|].
      destruct (nearest_float (Z.abs channels) (Z.abs heads)) as [m ex].
      destruct (1024 <=? Z.log2 m + ex); intro H; inversion H; auto.
Qed.

Lemma schedule_lengths_unchecked_witness :
  is_ok (MeshEncoderDecoder_init SymBackend [1000] [5; 16; 32; 64]
                                 [64; 32; 16; 3] 0 true) = true /\
  MeshConvNet_init SymBackend NoNormClass 5 [16; 32] 30 750 [600] 100 1
  = Err IndexError /\
  is_ok (MeshEncoderDecoderWithAttention_init SymBackend [1000]
           [5; 16; 32; 64] [64; 32; 16; 3] 0 true
           (mkAttnArgs (Some 4) None (Some PrimFloat.zero) (Some true) None
                       None None None)) = true.
Proof.
  destruct (schedule_lengths_unchecked SymBackend (fun c => eq_refl))
    as (Hnet & Hattn & _ & Hclassifier & _).
  split; [|split].
  - rewrite Hnet. reflexivity.
  - apply (Hclassifier NoNormClass 5 [16; 32] 30 750 [600] 100 1 eq_refl).
  - rewrite Hattn; reflexivity.
Defined.

(** C4 as stated fails: schedules of different lengths are accepted.  An
    encoder-decoder with three channel steps and no pooling target is built
    (its forward pass then fails at the first concatenation), and a
    classifier with two channel steps and three pooling targets is built. *)
Lemma mismatched_schedules_are_built :
  len [5; 16; 32; 64] - 1 <> len [1000] - 1 /\
  (exists n,
      MeshEncoderDecoder_init SymBackend [1000] [5; 16; 32; 64] [64; 32; 16; 3]
                              0 true = Ok n /\
      MeshEncoderDecoder_forward SymBackend n (SInput 0) []
      = Err (TypeError
               "expected Tensor as element 1 in argument 0, but got NoneType")) /\
  len [16; 32] <> len [600; 450; 300] /\
  is_ok (MeshConvNet_init SymBackend NoNormClass 5 [16; 32] 30 750
                          [600; 450; 300] 100 1) = true.
Proof.
  split; [discriminate|]. split.
  - eexists. split; reflexivity.
  - split; [discriminate | reflexivity].
Qed.

(** * Further properties *)

(** ** Normalisation factories *)

(** X1. Of the four factories [get_norm_layer] returns, [get_norm_args]
    has arguments for two: for 'group' it gives the channel count of each
    entry, for 'none' a placeholder per entry; for 'batch' and 'instance'
    it raises, naming the wrapped class. *)
Theorem get_norm_args_of_get_norm_layer :
  forall (norm_type : string) (num_groups : Z) (nfeats : list Z) (f : NormFactory),
    get_norm_layer norm_type num_groups = Ok f ->
    (norm_type = "batch"%string ->
     get_norm_args f nfeats
     = Err (NotImplementedError "normalization layer [BatchNorm2d] is not found")) /\
    (norm_type = "instance"%string ->
     get_norm_args f nfeats
     = Err (NotImplementedError
              "normalization layer [InstanceNorm2d] is not found")) /\
    (norm_type = "group"%string ->
     get_norm_args f nfeats = Ok (map ArgNumChannels nfeats)) /\
    (norm_type = "none"%string ->
     get_norm_args f nfeats = Ok (map (fun _ => ArgFake) nfeats)) /\
    (is_ok (get_norm_args f nfeats) = norm_supported f).
Proof.
  intros norm_type num_groups nfeats f H. unfold get_norm_layer in H.
  destruct (String.eqb_spec norm_type "batch") as [-> | Hb].
  { inversion H; subst f. repeat split; (reflexivity || discriminate). }
  destruct (String.eqb_spec norm_type "instance") as [-> | Hi].
  { inversion H; subst f. repeat split; (reflexivity || discriminate). }
  destruct (String.eqb_spec norm_type "group") as [-> | Hg].
  { inversion H; subst f. repeat split; (reflexivity || discriminate). }
  destruct (String.eqb_spec norm_type "none") as [-> | Hn];
    [|discriminate H].
  inversion H; subst f. repeat split; (reflexivity || discriminate).
Qed.

Lemma get_norm_args_of_get_norm_layer_witness :
  get_norm_args PartialBatchNorm2d [16; 32]
  = Err (NotImplementedError "normalization layer [BatchNorm2d] is not found").
Proof.
  apply (get_norm_args_of_get_norm_layer "batch" 1 [16; 32] PartialBatchNorm2d
           eq_refl).
  reflexivity.
Defined.

(** ** The network factory *)

Section FactoryErrors.

Context (B : Backend).
Variable modules_of : Network -> list ModuleInfo.
Variable init_error : InitAction -> ModuleInfo -> option PyError.
Variable cuda_is_available : bool.
Variable cuda_error : list Z -> option PyError.

Lemma define_classifier_build_error (input_nc : Z) (ncf : list Z)
    (ninput_edges nclasses : Z) (opt : Options) (gpu_ids : list Z)
    (arch init_type : string) (init_gain : PrimFloat.float) (e : PyError) :
  build_network B input_nc ncf ninput_edges nclasses opt arch = Err e ->
  define_classifier B modules_of init_error cuda_is_available cuda_error
    input_nc ncf ninput_edges nclasses opt gpu_ids arch init_type init_gain
  = Err e.
Proof. intro H. unfold define_classifier. rewrite H. reflexivity. Qed.

(** X2. [define_classifier] looks at the normalisation selector first: an
    unknown [opt.norm] raises the error that names it, whatever [arch] is;
    with a known [opt.norm], an unknown [arch] raises the error that names
    the architecture.  No network is built in either case. *)
Theorem define_classifier_unknown_selectors :
  forall input_nc ncf ninput_edges nclasses opt gpu_ids arch init_type init_gain,
    (is_ok (get_norm_layer (opt_norm opt) (opt_num_groups opt)) = false ->
     define_classifier B modules_of init_error cuda_is_available cuda_error
       input_nc ncf ninput_edges nclasses opt gpu_ids arch init_type init_gain
     = Err (NotImplementedError (not_found_msg (opt_norm opt)))) /\
    (is_ok (get_norm_layer (opt_norm opt) (opt_num_groups opt)) = true ->
     arch <> "mconvnet"%string ->
     arch <> "meshattentionnet"%string ->
     arch <> "meshunet"%string ->
     arch <> "meshunetwithattention"%string ->
     define_classifier B modules_of init_error cuda_is_available cuda_error
       input_nc ncf ninput_edges nclasses opt gpu_ids arch init_type init_gain
     = Err (NotImplementedError (arch_not_recognized_msg arch))).
Proof.
  intros. split.
  - intro Hnorm. apply define_classifier_build_error.
    unfold build_network. unfold get_norm_layer in *.
    destruct (String.eqb (opt_norm opt) "batch"); [discriminate Hnorm|].
    destruct (String.eqb (opt_norm opt) "instance"); [discriminate Hnorm|].
    destruct (String.eqb (opt_norm opt) "group"); [discriminate Hnorm|].
    destruct (String.eqb (opt_norm opt) "none"); [discriminate Hnorm|].
    reflexivity.
  - intros Hnorm H1 H2 H3 H4. apply define_classifier_build_error.
    unfold build_network.
    destruct (get_norm_layer (opt_norm opt) (opt_num_groups opt)) as [f |];
      [simpl|discriminate Hnorm].
    destruct (String.eqb_spec arch "mconvnet") as [E | _]; [contradiction|].
    destruct (String.eqb_spec arch "meshattentionnet") as [E | _];
      [contradiction|].
    destruct (String.eqb_spec arch "meshunet") as [E | _]; [contradiction|].
    destruct (String.eqb_spec arch "meshunetwithattention") as [E | _];
      [contradiction|].
    reflexivity.
Qed.

(** X3. The two classifier architectures cannot be built with the 'batch'
    or the 'instance' normalisation: [get_norm_args] has no arguments for
    these factories, so [define_classifier] raises for 'mconvnet' the error
    naming the wrapped class, and never returns a network for
    'meshattentionnet' either, whatever the other arguments are. *)
Theorem define_classifier_batch_instance_norm :
  forall input_nc ncf ninput_edges nclasses opt gpu_ids init_type init_gain,
    opt_norm opt = "batch"%string \/ opt_norm opt = "instance"%string ->
    define_classifier B modules_of init_error cuda_is_available cuda_error
      input_nc ncf ninput_edges nclasses opt gpu_ids "mconvnet" init_type
      init_gain
    = Err (NotImplementedError
             (not_found_msg (if String.eqb (opt_norm opt) "batch"
                             then "BatchNorm2d" else "InstanceNorm2d"))) /\
    is_ok (define_classifier B modules_of init_error cuda_is_available
             cuda_error input_nc ncf ninput_edges nclasses opt gpu_ids
             "meshattentionnet" init_type init_gain) = false.
Proof.
  intros until init_gain. intros Hnorm. split.
  - apply define_classifier_build_error. unfold build_network.
    destruct Hnorm as [-> | ->]; reflexivity.
  - unfold define_classifier, build_network.
    destruct Hnorm as [-> | ->]; simpl;
      unfold MeshAttentionNet_init;
      (destruct (truthy (double_attention (opt_attn_args opt)));
       [destruct (truthy (attn_use_values_as_is (opt_attn_args opt)))|];
       reflexivity).
Qed.

End FactoryErrors.

Lemma define_classifier_unknown_selectors_witness :
  define_classifier SymBackend (fun _ => []) (fun _ _ => None) false
    (fun _ => None) 5 [16; 32] 750 30
    (mkOptions "group" 1 [600; 450] 100 1 4 None None None None None None None)
    [] "resnet" "normal" PrimFloat.one
  = Err (NotImplementedError "Encoder model name [resnet] is not recognized").
Proof.
  apply (define_classifier_unknown_selectors SymBackend);
    (reflexivity || (intro H; discriminate H)).
Defined.

Lemma define_classifier_batch_instance_norm_witness :
  define_classifier SymBackend (fun _ => []) (fun _ _ => None) false
    (fun _ => None) 5 [16; 32] 750 30
    (mkOptions "batch" 1 [600; 450] 100 1 4 None None None None None None None)
    [] "mconvnet" "normal" PrimFloat.one
  = Err (NotImplementedError "normalization layer [BatchNorm2d] is not found").
Proof.
  apply (define_classifier_batch_instance_norm SymBackend (fun _ => [])
           (fun _ _ => None) false (fun _ => None) 5 [16; 32] 750 30
           (mkOptions "batch" 1 [600; 450] 100 1 4 None None None None None
                      None None)
           [] "normal" PrimFloat.one).
  left. reflexivity.
Defined.

(** ** The stages a decoder is built from *)

Lemma rrepeat_const {A : Type} (c : result A) (a : A) (n : nat) :
  (forall x, c = Ok x -> x = a) ->
  forall l, rrepeat n c = Ok l -> l = repeat a n.
Proof.
  intros Hc. induction n as [| n IH]; simpl; intros l H.
  - inversion H. reflexivity.
  - apply rbind_ok in H. destruct H as (x & Hx & H).
    apply rbind_ok in H. destruct H as (l' & Hl' & H).
    inversion H; subst l. rewrite (Hc x Hx), (IH l' Hl'). reflexivity.
Qed.

Lemma new_InstanceNorm2d_ok (B : Backend) (n : Z) (l : InstanceNorm2d) :
  new_InstanceNorm2d B n = Ok l -> l = mkInstanceNorm2d n.
Proof.
  unfold new_InstanceNorm2d. intro H. unbind H. inversion H. reflexivity.
Qed.

Lemma new_MeshUnpool_ok (B : Backend) (t : Z) (u : MeshUnpool) :
  new_MeshUnpool B t = Ok u -> u = mkMeshUnpool t.
Proof.
  unfold new_MeshUnpool. intro H. unbind H. inversion H. reflexivity.
Qed.

Section BuiltStages.

Context (B : Backend).

(** A constructed up-convolution stage is determined by the arguments. *)
Lemma UpConv_init_object (cin cout blocks unroll : Z)
    (residual batch_norm transfer_data : bool) (u : UpConv) :
  UpConv_init B cin cout blocks unroll residual batch_norm transfer_data = Ok u ->
  u = UpConv_object cin cout blocks
        (if unroll =? 0 then None else Some (mkMeshUnpool unroll))
        residual batch_norm transfer_data.
Proof.
  intro H. unfold UpConv_init in H.
  apply rbind_ok in H. destruct H as (up_conv & Hup & H).
  apply rbind_ok in H. destruct H as (conv1 & Hconv1 & H).
  apply rbind_ok in H. destruct H as (conv2 & Hconv2 & H).
  apply rbind_ok in H. destruct H as (bn & Hbn & H).
  apply rbind_ok in H. destruct H as (unroll_layer & Hunroll & H).
  inversion H; subst u; clear H. unfold UpConv_object.
  apply new_MeshConv_ok in Hup. subst up_conv.
  apply (rrepeat_const _ (mkMeshConv cout cout None)) in Hconv2;
    [|intros x Hx; apply (new_MeshConv_ok B); exact Hx].
  subst conv2.
  assert (Hc1 : conv1 = mkMeshConv (if transfer_data then 2 * cout else cout)
                                   cout None)
    by (destruct transfer_data; apply (new_MeshConv_ok B); exact Hconv1).
  subst conv1.
  assert (Hb : bn = if batch_norm
                    then repeat (mkInstanceNorm2d cout) (Z.to_nat (blocks + 1))
                    else []).
  { destruct batch_norm; [|inversion Hbn; reflexivity].
    apply (rrepeat_const _ (mkInstanceNorm2d cout)) in Hbn; [exact Hbn|].
    intros x Hx. apply (new_InstanceNorm2d_ok B). exact Hx. }
  subst bn.
  assert (Hu : unroll_layer
               = if unroll =? 0 then None else Some (mkMeshUnpool unroll)).
  { destruct (unroll =? 0); [inversion Hunroll; reflexivity|].
    apply rbind_ok in Hunroll. destruct Hunroll as (x & Hx & Hunroll).
    apply new_MeshUnpool_ok in Hx. inversion Hunroll. subst. reflexivity. }
  subst unroll_layer. reflexivity.
Qed.

Lemma built_unroll_at (unrolls : list Z) (i unroll : Z) :
  0 <= i ->
  (if i <? len unrolls then py_index unrolls i else Ok 0) = Ok unroll ->
  built_unroll unrolls (Z.to_nat i)
  = if unroll =? 0 then None else Some (mkMeshUnpool unroll).
Proof.
  intros Hi H. unfold built_unroll.
  destruct (Z.ltb_spec i (len unrolls)) as [Hlt | Hge].
  - destruct (py_index_in_range unrolls i) as (p & Hp & Hnth); [lia|].
    rewrite Hp in H. inversion H; subst p. rewrite Hnth. reflexivity.
  - inversion H; subst unroll.
    assert (E : nth_error unrolls (Z.to_nat i) = None)
      by (apply nth_error_None; unfold len in Hge; lia).
    rewrite E. reflexivity.
Qed.

(** One iteration of the stage loop of the decoder's constructor. *)
Lemma decoder_stage_object (unrolls convs : list Z) (blocks : Z)
    (batch_norm transfer_data : bool) (i : Z) (acc acc' : list UpConv) :
  0 <= i < len convs - 2 ->
  decoder_stage B unrolls convs blocks batch_norm transfer_data i acc = Ok acc' ->
  exists u,
    acc' = acc ++ [u] /\
    exists cin cout,
      nth_error convs (Z.to_nat i) = Some cin /\
      nth_error convs (S (Z.to_nat i)) = Some cout /\
      u = UpConv_object cin cout blocks (built_unroll unrolls (Z.to_nat i))
                        true batch_norm transfer_data.
Proof.
  intros Hin Hbody. unfold decoder_stage in Hbody.
  apply rbind_ok in Hbody. destruct Hbody as (unroll & Hunroll & Hbody).
  apply rbind_ok in Hbody. destruct Hbody as (ci & Hci & Hbody).
  apply rbind_ok in Hbody. destruct Hbody as (co & Hco & Hbody).
  apply rbind_ok in Hbody. destruct Hbody as (u & Hu & Hbody).
  inversion Hbody; subst acc'. exists u. split; [reflexivity|].
  destruct (py_index_in_range convs i) as (ci' & Hci' & Hnth); [lia|].
  destruct (py_index_in_range convs (i + 1)) as (co' & Hco' & Hnth');
    [lia|].
  rewrite Hci in Hci'. inversion Hci'; subst ci'.
  rewrite Hco in Hco'. inversion Hco'; subst co'.
  exists ci, co. split; [exact Hnth|]. split.
  - replace (S (Z.to_nat i)) with (Z.to_nat (i + 1)) by lia. exact Hnth'.
  - apply UpConv_init_object in Hu.
    rewrite (built_unroll_at unrolls i unroll) by (lia || exact Hunroll).
    exact Hu.
Qed.

(** The unroll layers of a built decoder. *)
Lemma MeshDecoder_init_unrolls (unrolls convs : list Z) (blocks : Z)
    (batch_norm transfer_data : bool) (d : MeshDecoder) :
  MeshDecoder_init B unrolls convs blocks batch_norm transfer_data = Ok d ->
  forall i u, nth_error (md_up_convs d) i = Some u ->
              uc_unroll u = built_unroll unrolls i.
Proof.
  intro H. unfold MeshDecoder_init in H.
  apply rbind_ok in H. destruct H as (ups & Hups & H).
  unbind H. inversion H; subst d; clear H. simpl.
  apply (rfold_snoc _
           (fun i u => uc_unroll u = built_unroll unrolls (Z.to_nat i)))
    in Hups.
  - destruct Hups as (ts & -> & Hts). simpl.
    apply Forall2_range_nth in Hts. destruct Hts as [_ Hnth].
    intros i u Hi. apply Hnth in Hi. simpl in Hi.
    rewrite Nat2Z.id in Hi. exact Hi.
  - intros i acc acc' Hin Hbody. apply In_py_range in Hin.
    destruct (decoder_stage_object _ _ _ _ _ _ _ _ Hin Hbody)
      as (u & Hacc & cin & cout & _ & _ & Hu).
    exists u. split; [exact Hacc|]. rewrite Hu. reflexivity.
Qed.

Lemma MeshDecoder_init_final_unroll (unrolls convs : list Z) (blocks : Z)
    (batch_norm transfer_data : bool) (d : MeshDecoder) :
  MeshDecoder_init B unrolls convs blocks batch_norm transfer_data = Ok d ->
  uc_unroll (md_final_conv d) = None.
Proof.
  intro H. unfold MeshDecoder_init in H.
  apply rbind_ok in H. destruct H as (ups & _ & H).
  apply rbind_ok in H. destruct H as (cin & _ & H).
  apply rbind_ok in H. destruct H as (cout & _ & H).
  apply rbind_ok in H. destruct H as (final & Hfinal & H).
  inversion H; subst d; clear H. simpl.
  apply UpConv_init_object in Hfinal. subst final. reflexivity.
Qed.

(** X4. A built decoder has one up-convolution stage per index of
    [range(len(convs) - 2)].  Stage [i] maps [convs[i]] to [convs[i + 1]]
    channels, unrolls to [unrolls[i]] when there is such an entry and it is
    not zero, adds the residual, and has [blocks] further convolutions and,
    with [batch_norm], [blocks + 1] normalisations; the final stage maps
    [convs[-2]] to [convs[-1]] without unroll and without skip transfer. *)
Theorem MeshDecoder_init_stages :
  forall unrolls convs blocks batch_norm transfer_data d,
    MeshDecoder_init B unrolls convs blocks batch_norm transfer_data = Ok d ->
    length (md_up_convs d) = Z.to_nat (len convs - 2) /\
    (forall i u,
        nth_error (md_up_convs d) i = Some u ->
        exists cin cout,
          nth_error convs i = Some cin /\
          nth_error convs (S i) = Some cout /\
          u = UpConv_object cin cout blocks (built_unroll unrolls i) true
                            batch_norm transfer_data) /\
    exists cin cout,
      py_index convs (-2) = Ok cin /\
      py_index convs (-1) = Ok cout /\
      md_final_conv d = UpConv_object cin cout blocks None true batch_norm false.
Proof.
  intros until d. intro H. unfold MeshDecoder_init in H.
  apply rbind_ok in H. destruct H as (ups & Hups & H).
  apply rbind_ok in H. destruct H as (cin & Hcin & H).
  apply rbind_ok in H. destruct H as (cout & Hcout & H).
  apply rbind_ok in H. destruct H as (final & Hfinal & H).
  inversion H; subst d; clear H. simpl.
  apply (rfold_snoc _
           (fun i u =>
              exists cin cout,
                nth_error convs (Z.to_nat i) = Some cin /\
                nth_error convs (S (Z.to_nat i)) = Some cout /\
                u = UpConv_object cin cout blocks
                      (built_unroll unrolls (Z.to_nat i)) true batch_norm
                      transfer_data)) in Hups.
  - destruct Hups as (ts & -> & Hts). simpl.
    apply Forall2_range_nth in Hts. destruct Hts as [Hlen Hnth].
    split; [exact Hlen|]. split.
    + intros i u Hi. apply Hnth in Hi. simpl in Hi.
      rewrite Nat2Z.id in Hi. exact Hi.
    + exists cin, cout. split; [exact Hcin|]. split; [exact Hcout|].
      apply UpConv_init_object in Hfinal. exact Hfinal.
  - intros i acc acc' Hin Hbody. apply In_py_range in Hin.
    eapply decoder_stage_object; eassumption.
Qed.

End BuiltStages.

Lemma MeshDecoder_init_stages_witness :
  exists d,
    MeshDecoder_init SymBackend [1350; 1800; 2280] [256; 128; 64; 32; 8] 0
                     true true = Ok d /\
    length (md_up_convs d) = 3%nat.
Proof.
  eexists. split; [reflexivity|].
  apply (MeshDecoder_init_stages SymBackend [1350; 1800; 2280]
           [256; 128; 64; 32; 8] 0 true true _ eq_refl).
Defined.

(** ** The stages an encoder is built from *)

Section BuiltEncoderStages.

Context (B : Backend).

Lemma DownConv_init_object (cin cout blocks pool : Z) (d : DownConv) :
  DownConv_init B cin cout blocks pool = Ok d ->
  d = DownConv_object cin cout blocks
        (if pool =? 0 then None else Some (mkMeshPool pool)).
Proof.
  intro H. pose proof (DownConv_init_pool B _ _ _ _ _ H) as Hpool.
  unfold DownConv_init in H.
  apply rbind_ok in H. destruct H as (conv1 & Hconv1 & H).
  apply rbind_ok in H. destruct H as (conv2 & Hconv2 & H).
  apply rbind_ok in H. destruct H as (bn & Hbn & H).
  apply rbind_ok in H. destruct H as (pool_layer & _ & H).
  inversion H; subst d; clear H. simpl in Hpool. unfold DownConv_object.
  apply new_MeshConv_ok in Hconv1.
  apply (rrepeat_const _ (mkMeshConv cout cout None)) in Hconv2;
    [|intros x Hx; apply (new_MeshConv_ok B); exact Hx].
  apply (rrepeat_const _ (mkInstanceNorm2d cout)) in Hbn;
    [|intros x Hx; apply (new_InstanceNorm2d_ok B); exact Hx].
  subst. reflexivity.
Qed.

Lemma DownConvWithAttention_init_object (cin cout blocks pool heads : Z)
    (a : AttnArgs) (d : DownConvWithAttention) :
  DownConvWithAttention_init B cin cout blocks pool heads a = Ok d ->
  heads <> 0 /\
  (truthy (double_attention a) = true ->
   truthy (attn_use_values_as_is a) = true) /\
  exists head_size,
    py_int_div cout heads = Ok head_size /\
    d = DownConvWithAttention_object cin cout blocks
          (if pool =? 0 then None else Some (mkMeshPool pool)) heads
          head_size a.
Proof.
  intro H. unfold DownConvWithAttention_init in H.
  apply rbind_ok in H. destruct H as (base & Hbase & H).
  apply rbind_ok in H. destruct H as (u & Hassert & H).
  apply rbind_ok in H. destruct H as (d_k & Hdk & H).
  apply rbind_ok in H. destruct H as (d_v & Hdv & H).
  apply rbind_ok in H. destruct H as (att & Hatt & H).
  inversion H; subst d; clear H.
  apply DownConv_init_object in Hbase. subst base.
  rewrite Hdk in Hdv. inversion Hdv; subst d_v.
  unfold new_MeshAttention in Hatt. unbind Hatt. inversion Hatt; subst att.
  split; [exact (py_int_div_divisor _ _ _ Hdk)|]. split.
  - intro Hd. rewrite Hd in Hassert.
    destruct (truthy (attn_use_values_as_is a));
      [reflexivity|discriminate Hassert].
  - exists d_k. split; [exact Hdk | reflexivity].
Qed.

Lemma built_pool_at (pools : list Z) (i pool : Z) :
  0 <= i ->
  (if i + 1 <? len pools then py_index pools (i + 1) else Ok 0) = Ok pool ->
  built_pool pools (Z.to_nat i)
  = if pool =? 0 then None else Some (mkMeshPool pool).
Proof.
  intros Hi H. unfold built_pool.
  destruct (Z.ltb_spec (i + 1) (len pools)) as [Hlt | Hge].
  - destruct (py_index_in_range pools (i + 1)) as (p & Hp & Hnth); [lia|].
    rewrite Hp in H. inversion H; subst p.
    replace (S (Z.to_nat i)) with (Z.to_nat (i + 1)) by lia.
    rewrite Hnth. reflexivity.
  - inversion H; subst pool.
    assert (E : nth_error pools (S (Z.to_nat i)) = None)
      by (apply nth_error_None; unfold len in Hge; lia).
    rewrite E. reflexivity.
Qed.

(** The inherited pooling layer of a built attention stage is reset. *)
Lemma MeshEncoder_init_base_pool (pools convs : list Z) (fcs : option (list Z))
    (blocks : Z) (global_pool : option string) (a : AttnArgs) (e : MeshEncoder) :
  MeshEncoder_init B pools convs fcs blocks global_pool a = Ok e ->
  Forall (fun s => match s with
                   | PlainDown _ => True
                   | AttnDown d => dc_pool (dca_base d) = None
                   end) (me_convs e).
Proof.
  intro H. unfold MeshEncoder_init in H.
  apply rbind_ok in H. destruct H as (_ & _ & H).
  apply rbind_ok in H. destruct H as (stages & Hstages & H).
  apply rbind_ok in H. destruct H as ([head gp] & _ & H).
  inversion H; subst e; clear H. simpl.
  eapply (rfold_invariant
            (Forall (fun s => match s with
                              | PlainDown _ => True
                              | AttnDown d => dc_pool (dca_base d) = None
                              end))); [|exact Hstages|constructor].
  intros i acc acc' Hbody Hacc. unfold encoder_stage in Hbody.
  apply rbind_ok in Hbody. destruct Hbody as (pool & _ & Hbody).
  apply rbind_ok in Hbody. destruct Hbody as (ci & _ & Hbody).
  apply rbind_ok in Hbody. destruct Hbody as (co & _ & Hbody).
  apply rbind_ok in Hbody. destruct Hbody as (s & Hs & Hbody).
  inversion Hbody; subst acc'.
  apply Forall_app. split; [exact Hacc|]. constructor; [|constructor].
  destruct (attn_n_heads a) as [heads |].
  - apply rbind_ok in Hs. destruct Hs as (d & Hd & Hs).
    inversion Hs; subst s.
    apply DownConvWithAttention_init_object in Hd.
    destruct Hd as (_ & _ & head_size & _ & ->). reflexivity.
  - apply rbind_ok in Hs. destruct Hs as (d & Hd & Hs).
    inversion Hs; subst s. exact I.
Qed.

(** X5. A built encoder has one stage per index of
    [range(len(convs) - 1)].  Stage [i] maps [convs[i]] to [convs[i + 1]]
    channels with [blocks] further convolutions and [blocks + 1]
    normalisations, and pools to [pools[i + 1]] when there is such an entry
    and it is not zero.  When attention heads are given, every stage is an
    attention stage whose attention layer has [convs[i + 1]] channels and
    heads of [int(convs[i + 1] / attn_n_heads)] channels each, the float
    nearest to the quotient truncated: this is the integer quotient rounded
    toward zero when [convs[i + 1]] is below [2^53] in absolute value.  The
    number of heads is then not zero and double attention comes with values
    used as they are, as soon as there is a stage. *)
Theorem MeshEncoder_init_stage_objects :
  forall pools convs fcs blocks global_pool a e,
    MeshEncoder_init B pools convs fcs blocks global_pool a = Ok e ->
    length (me_convs e) = Z.to_nat (len convs - 1) /\
    (forall i s,
        nth_error (me_convs e) i = Some s ->
        exists cin cout head_size,
          nth_error convs i = Some cin /\
          nth_error convs (S i) = Some cout /\
          s = DownStage_object cin cout blocks (built_pool pools i) head_size
                               a /\
          forall heads,
            attn_n_heads a = Some heads ->
            py_int_div cout heads = Ok head_size /\
            (Z.abs cout < 2 ^ 53 -> head_size = Z.quot cout heads)) /\
    (forall heads,
        attn_n_heads a = Some heads ->
        2 <= len convs ->
        heads <> 0 /\
        (truthy (double_attention a) = true ->
         truthy (attn_use_values_as_is a) = true)).
Proof.
  intros until e. intro H. unfold MeshEncoder_init in H.
  apply rbind_ok in H. destruct H as (_ & _ & H).
  apply rbind_ok in H. destruct H as (stages & Hstages & H).
  apply rbind_ok in H. destruct H as ([head gp] & _ & H).
  inversion H; subst e; clear H. simpl.
  apply (rfold_snoc _
           (fun i s =>
              (exists cin cout head_size,
                  nth_error convs (Z.to_nat i) = Some cin /\
                  nth_error convs (S (Z.to_nat i)) = Some cout /\
                  s = DownStage_object cin cout blocks
                        (built_pool pools (Z.to_nat i)) head_size a /\
                  forall heads,
                    attn_n_heads a = Some heads ->
                    py_int_div cout heads = Ok head_size /\
                    (Z.abs cout < 2 ^ 53 -> head_size = Z.quot cout heads)) /\
              (forall heads,
                  attn_n_heads a = Some heads ->
                  heads <> 0 /\
                  (truthy (double_attention a) = true ->
                   truthy (attn_use_values_as_is a) = true)))) in Hstages.
  - destruct Hstages as (ts & -> & Hts). simpl.
    apply Forall2_range_nth in Hts. destruct Hts as [Hlen Hnth].
    split; [exact Hlen|]. split.
    + intros i s Hi. apply Hnth in Hi. simpl in Hi.
      rewrite Nat2Z.id in Hi. apply Hi.
    + intros heads Hheads Hconvs.
      destruct ts as [| s ts]; [simpl in Hlen; lia|].
      destruct (Hnth 0%nat s eq_refl) as [_ Hs]. apply Hs. exact Hheads.
  - intros i acc acc' Hin Hbody. apply In_py_range in Hin.
    unfold encoder_stage in Hbody.
    apply rbind_ok in Hbody. destruct Hbody as (pool & Hpool & Hbody).
    apply rbind_ok in Hbody. destruct Hbody as (ci & Hci & Hbody).
    apply rbind_ok in Hbody. destruct Hbody as (co & Hco & Hbody).
    apply rbind_ok in Hbody. destruct Hbody as (s & Hs & Hbody).
    inversion Hbody; subst acc'.
    apply built_pool_at in Hpool; [|lia].
    exists s. split; [reflexivity|].
    destruct (py_index_in_range convs i) as (ci' & Hci' & Hnth); [lia|].
    destruct (py_index_in_range convs (i + 1)) as (co' & Hco' & Hnth');
      [lia|].
    rewrite Hci in Hci'. inversion Hci'; subst ci'.
    rewrite Hco in Hco'. inversion Hco'; subst co'.
    replace (Z.to_nat (i + 1)) with (S (Z.to_nat i)) in Hnth' by lia.
    unfold DownStage_object.
    destruct (attn_n_heads a) as [heads |].
    + apply rbind_ok in Hs. destruct Hs as (d & Hd & Hs).
      inversion Hs; subst s.
      apply DownConvWithAttention_init_object in Hd.
      destruct Hd as (Hheads & Hflags & head_size & Hsize & Hd).
      split.
      * exists ci, co, head_size.
        split; [exact Hnth|]. split; [exact Hnth'|].
        split; [rewrite Hd, Hpool; reflexivity|].
        intros h Hh. inversion Hh; subst h. split; [exact Hsize|].
        intro Hsmall. rewrite (py_int_div_exact co heads Hheads Hsmall) in Hsize.
        inversion Hsize. reflexivity.
      * intros h Hh. inversion Hh; subst h. auto.
    + apply rbind_ok in Hs. destruct Hs as (d & Hd & Hs).
      inversion Hs; subst s.
      apply DownConv_init_object in Hd.
      split.
      * exists ci, co, 0.
        split; [exact Hnth|]. split; [exact Hnth'|].
        split; [rewrite Hd, Hpool; reflexivity|].
        intros h Hh. discriminate Hh.
      * intros h Hh. discriminate Hh.
Qed.

End BuiltEncoderStages.

Lemma MeshEncoder_init_stage_objects_witness :
  exists e d,
    MeshEncoder_init SymBackend [2280; 1800; 1350; 600] [5; 32; 64; 128; 256]
                     None 0 None
                     (mkAttnArgs (Some 4) None (Some PrimFloat.zero)
                                 (Some true) None None None None) = Ok e /\
    length (me_convs e) = 4%nat /\
    nth_error (me_convs e) 1 = Some (AttnDown d) /\
    ma_d_k (dca_attention d) = 16 /\
    dca_real_pool d = Some (mkMeshPool 1350).
Proof.
  destruct (MeshEncoder_init SymBackend [2280; 1800; 1350; 600]
              [5; 32; 64; 128; 256] None 0 None
              (mkAttnArgs (Some 4) None (Some PrimFloat.zero) (Some true) None
                          None None None)) as [e | err] eqn:He;
    [|vm_compute in He; discriminate He].
  destruct (MeshEncoder_init_stage_objects SymBackend _ _ _ _ _ _ e He)
    as (Hlen & Hnth & _).
  destruct (nth_error (me_convs e) 1) as [s |] eqn:Hs.
  - destruct (Hnth 1%nat s Hs)
      as (cin & cout & head_size & _ & Hcout & -> & Hsize).
    inversion Hcout; subst cout.
    destruct (Hsize 4 eq_refl) as [_ Hquot].
    rewrite Hquot in Hs by reflexivity.
    exists e. eexists. split; [reflexivity|]. split; [exact Hlen|].
    split; [exact Hs|]. split; reflexivity.
  - apply nth_error_None in Hs. rewrite Hlen in Hs. simpl in Hs. lia.
Defined.

(** ** When the forward pass of the decoder returns *)

Lemma bn_covers_UpConv_object (cin cout blocks : Z) (unroll : option MeshUnpool)
    (residual batch_norm transfer_data : bool) :
  let u := UpConv_object cin cout blocks unroll residual batch_norm
                         transfer_data in
  bn_covers (uc_bn u) (uc_conv2 u).
Proof.
  simpl. unfold bn_covers. rewrite repeat_length.
  destruct batch_norm; [|left; reflexivity].
  rewrite repeat_length.
  destruct (Z_le_gt_dec (blocks + 1) 0) as [Hle | Hgt].
  - left. replace (Z.to_nat (blocks + 1)) with 0%nat by lia. reflexivity.
  - right. lia.
Qed.

Section BuiltDecoderShape.

Context (B : Backend).

(** The stages of a built decoder have their normalisations in place and
    carry the decoder's transfer flag; the final stage transfers nothing. *)
Lemma MeshDecoder_init_wf (unrolls convs : list Z) (blocks : Z)
    (batch_norm transfer_data : bool) (d : MeshDecoder) :
  MeshDecoder_init B unrolls convs blocks batch_norm transfer_data = Ok d ->
  length (md_up_convs d) = Z.to_nat (len convs - 2) /\
  Forall (fun u => bn_covers (uc_bn u) (uc_conv2 u) /\
                   uc_transfer_data u = transfer_data) (md_up_convs d) /\
  bn_covers (uc_bn (md_final_conv d)) (uc_conv2 (md_final_conv d)) /\
  uc_transfer_data (md_final_conv d) = false.
Proof.
  intro H. pose proof (MeshDecoder_init_up_convs B _ _ _ _ _ _ H) as [Hlen _].
  unfold MeshDecoder_init in H.
  apply rbind_ok in H. destruct H as (ups & Hups & H).
  apply rbind_ok in H. destruct H as (cin & _ & H).
  apply rbind_ok in H. destruct H as (cout & _ & H).
  apply rbind_ok in H. destruct H as (final & Hfinal & H).
  inversion H; subst d; clear H. simpl in *.
  split; [exact Hlen|]. split.
  - eapply (rfold_invariant
              (Forall (fun u => bn_covers (uc_bn u) (uc_conv2 u) /\
                                uc_transfer_data u = transfer_data)));
      [|exact Hups|constructor].
    intros i acc acc' Hbody Hacc. unfold decoder_stage in Hbody.
    apply rbind_ok in Hbody. destruct Hbody as (unroll & _ & Hbody).
    apply rbind_ok in Hbody. destruct Hbody as (ci & _ & Hbody).
    apply rbind_ok in Hbody. destruct Hbody as (co & _ & Hbody).
    apply rbind_ok in Hbody. destruct Hbody as (u & Hu & Hbody).
    inversion Hbody; subst acc'.
    apply Forall_app. split; [exact Hacc|]. constructor; [|constructor].
    apply UpConv_init_object in Hu. subst u.
    split; [apply bn_covers_UpConv_object | reflexivity].
  - apply UpConv_init_object in Hfinal. subst final.
    split; [apply bn_covers_UpConv_object | reflexivity].
Qed.

Hypothesis total : DecoderTotal B.

Lemma UpConv_unrolled_returns (u : UpConv) (fe : Tensor B) (m : Meshes B) :
  is_ok (UpConv_unrolled B u fe m) = true.
Proof.
  destruct total as (Htotal & Hunpool & _). unfold UpConv_unrolled.
  apply bind_returns; [apply (conv_total B Htotal)|]. intros x1 m1.
  apply bind_returns; [apply lift_returns, (squeeze_total B Htotal)|].
  intros x2 m2. destruct (uc_unroll u) as [unroll |]; [apply Hunpool|].
  reflexivity.
Qed.

(** On such a backend a stage returns exactly when it has the skip input
    it concatenates. *)
Lemma UpConv_forward_returns (u : UpConv) (fe : Tensor B)
    (from_down : option (Tensor B)) (m : Meshes B) :
  bn_covers (uc_bn u) (uc_conv2 u) ->
  is_ok (UpConv_forward B u fe from_down m)
  = negb (uc_transfer_data u) || is_some from_down.
Proof.
  intros Hwf. destruct total as (Htotal & Hunpool & Hcat).
  unfold UpConv_forward.
  destruct (is_ok_true _ (UpConv_unrolled_returns u fe m)) as [[x1 m1] Hx1].
  unfold bind at 1. rewrite Hx1.
  assert (Hrest : forall x m0,
             is_ok (bind (MeshConv_call B (uc_conv1 u) x)
                      (fun x2 =>
                         bind (apply_bn B (uc_bn u) 0 x2)
                           (fun x3 =>
                              bind (conv_blocks B (uc_bn u) (uc_residual u) 0
                                      (uc_conv2 u) (relu B x3) (relu B x3))
                                (fun x4 => lift B (squeeze B 3 x4)))) m0)
             = true).
  { intros x m0.
    apply bind_returns; [apply (conv_total B Htotal)|]. intros y m2.
    apply bind_returns.
    { apply apply_bn_returns; [exact Htotal|].
      destruct Hwf as [Hwf | Hwf]; [left; exact Hwf|].
      right. unfold len. lia. }
    intros y' m3. apply bind_returns.
    { apply conv_blocks_returns; [exact Htotal | lia |].
      destruct Hwf as [Hwf | Hwf]; [left; exact Hwf|].
      right. unfold len. lia. }
    intros y'' m4. apply lift_returns, (squeeze_total B Htotal). }
  destruct (uc_transfer_data u); simpl.
  - destruct from_down as [t |]; simpl.
    + unfold bind at 1. unfold lift at 1.
      destruct (is_ok_true _ (Hcat x1 t 1)) as [y ->]. apply Hrest.
    + reflexivity.
  - unfold bind at 1. unfold ret at 1. apply Hrest.
Qed.

(** The loop of the decoder returns exactly when every stage has its skip
    input. *)
Lemma run_up_convs_returns (transfer_data : bool) (up_convs : list UpConv)
    (encoder_outs : option (list (option (Tensor B)))) :
  Forall (fun u => bn_covers (uc_bn u) (uc_conv2 u) /\
                   uc_transfer_data u = transfer_data) up_convs ->
  forall (s : nat) fe m,
    is_ok (run_up_convs B (Z.of_nat s) up_convs encoder_outs fe m)
    = forallb (skip_ready B transfer_data encoder_outs)
              (map Z.of_nat (seq s (length up_convs))).
Proof.
  induction 1 as [| u rest [Hwf Ht] Hrest IH]; intros s fe m; [reflexivity|].
  simpl. unfold skip_ready at 1. unfold bind at 1. unfold lift at 1.
  destruct (skip_input B encoder_outs (Z.of_nat s)) as [bp | e];
    [|reflexivity].
  pose proof (UpConv_forward_returns u fe bp m Hwf) as Hu.
  rewrite Ht in Hu. unfold bind at 1.
  destruct (UpConv_forward B u fe bp m) as [[fe1 m1] | e]; simpl in Hu;
    rewrite <- Hu; simpl; [|reflexivity].
  replace (Z.of_nat s + 1) with (Z.of_nat (S s)) by lia. apply IH.
Qed.

(** So does the whole decoder: its final stage takes no skip input. *)
Lemma MeshDecoder_forward_ready (transfer_data : bool) (d : MeshDecoder)
    (encoder_outs : option (list (option (Tensor B)))) (fe : Tensor B)
    (m : Meshes B) :
  Forall (fun u => bn_covers (uc_bn u) (uc_conv2 u) /\
                   uc_transfer_data u = transfer_data) (md_up_convs d) ->
  bn_covers (uc_bn (md_final_conv d)) (uc_conv2 (md_final_conv d)) ->
  uc_transfer_data (md_final_conv d) = false ->
  is_ok (MeshDecoder_forward B d fe encoder_outs m)
  = forallb (skip_ready B transfer_data encoder_outs)
            (map Z.of_nat (seq 0 (length (md_up_convs d)))).
Proof.
  intros Hups Hfinal Hfinal_t. unfold MeshDecoder_forward.
  rewrite <- (run_up_convs_returns transfer_data (md_up_convs d)
                encoder_outs Hups 0 fe m).
  simpl Z.of_nat. unfold bind.
  destruct (run_up_convs B 0 (md_up_convs d) encoder_outs fe m)
    as [[fe1 m1] | e]; [|reflexivity].
  rewrite (UpConv_forward_returns _ fe1 None m1 Hfinal), Hfinal_t.
  reflexivity.
Qed.

End BuiltDecoderShape.

(** [l[-k]] for a positive [k]: the element [k] places before the end. *)
Lemma py_index_from_end {A : Type} (l : list A) (k : nat) :
  (0 < k)%nat ->
  py_index l (- Z.of_nat k)
  = if (k <=? length l)%nat
    then match nth_error l (length l - k) with
         | Some a => Ok a
         | None => Err IndexError
         end
    else Err IndexError.
Proof.
  intros Hk. unfold py_index.
  destruct (Z.ltb_spec (- Z.of_nat k) 0) as [_ | H]; [|lia].
  destruct (Nat.leb_spec k (length l)) as [Hle | Hgt].
  - destruct (Z.ltb_spec (len l + - Z.of_nat k) 0) as [H | _];
      [unfold len in H; lia|].
    replace (Z.to_nat (len l + - Z.of_nat k)) with (length l - k)%nat
      by (unfold len; lia).
    reflexivity.
  - destruct (Z.ltb_spec (len l + - Z.of_nat k) 0) as [_ | H];
      [reflexivity | unfold len in H; lia].
Qed.

Section DecoderReturns.

Context (B : Backend).
Hypothesis total : DecoderTotal B.

(** X6. On a backend whose operations do not raise, the forward pass of a
    built decoder returns exactly when every up-convolution stage [i] can
    read its skip input [encoder_outs[-(i + 2)]] and, if the decoder
    transfers skip data, that entry is a tensor.  Without a skip cache it
    returns exactly when it transfers no skip data or has no
    up-convolution stage. *)
Theorem MeshDecoder_forward_returns_iff :
  forall unrolls convs blocks batch_norm transfer_data d,
    MeshDecoder_init B unrolls convs blocks batch_norm transfer_data = Ok d ->
    (forall encoder_outs fe m,
        is_ok (MeshDecoder_forward B d fe encoder_outs m)
        = forallb (skip_ready B transfer_data encoder_outs)
                  (py_range (len convs - 2))) /\
    (forall fe m,
        is_ok (MeshDecoder_forward B d fe None m)
        = negb transfer_data || (len convs <=? 2)).
Proof.
  intros until d. intro Hinit.
  apply MeshDecoder_init_wf in Hinit.
  destruct Hinit as (Hlen & Hups & Hfinal & Hfinal_t).
  assert (Hfwd : forall encoder_outs fe m,
             is_ok (MeshDecoder_forward B d fe encoder_outs m)
             = forallb (skip_ready B transfer_data encoder_outs)
                       (py_range (len convs - 2))).
  { intros encoder_outs fe m. unfold py_range. rewrite <- Hlen.
    apply MeshDecoder_forward_ready; assumption. }
  split; [exact Hfwd|].
  intros fe m. rewrite Hfwd. unfold py_range.
  destruct transfer_data; simpl.
  - destruct (Z.leb_spec (len convs) 2) as [Hle | Hgt].
    + replace (Z.to_nat (len convs - 2)) with 0%nat by lia. reflexivity.
    + destruct (Z.to_nat (len convs - 2)) as [| k] eqn:E; [lia|].
      reflexivity.
  - apply forallb_forall. intros i _. reflexivity.
Qed.

End DecoderReturns.

Lemma sym_decoder_total : DecoderTotal SymBackend.
Proof.
  split; [|split]; [constructor|..]; intros; reflexivity.
Qed.

Lemma MeshDecoder_forward_returns_iff_witness :
  exists d,
    MeshDecoder_init SymBackend [1350; 1800; 2280] [256; 128; 64; 32; 8] 0
                     true true = Ok d /\
    is_ok (MeshDecoder_forward SymBackend d (SInput 0) None []) = false.
Proof.
  eexists. split; [reflexivity|].
  destruct (MeshDecoder_forward_returns_iff SymBackend sym_decoder_total
              [1350; 1800; 2280] [256; 128; 64; 32; 8] 0 true true _ eq_refl)
    as [_ H].
  rewrite H. reflexivity.
Defined.

(** ** When the forward pass of the encoder-decoder returns *)

Lemma forallb_map_ext {A C : Type} (f : C -> bool) (g : A -> C) (h : A -> bool)
    (l : list A) :
  (forall x, In x l -> f (g x) = h x) ->
  forallb f (map g l) = forallb h l.
Proof.
  induction l as [| x rest IH]; intro H; [reflexivity|].
  simpl. rewrite (H x (or_introl eq_refl)), IH; [reflexivity|].
  intros y Hy. apply H. right. exact Hy.
Qed.

Lemma forallb_ext_in {A : Type} (f h : A -> bool) (l : list A) :
  (forall x, In x l -> f x = h x) -> forallb f l = forallb h l.
Proof.
  induction l as [| x rest IH]; intro H; [reflexivity|].
  simpl. rewrite (H x (or_introl eq_refl)), IH; [reflexivity|].
  intros y Hy. apply H. right. exact Hy.
Qed.

Section EncoderDecoderReturns.

Context (B : Backend).

(** The skip cache of a built encoder: one entry per stage, a tensor
    exactly where the stage was built with a pooling layer. *)
Lemma MeshEncoder_outs_pattern (pools convs : list Z) (fcs : option (list Z))
    (blocks : Z) (global_pool : option string) (a : AttnArgs) (e : MeshEncoder)
    (fe fe' : Tensor B) (outs : list (option (Tensor B))) (m m' : Meshes B) :
  MeshEncoder_init B pools convs fcs blocks global_pool a = Ok e ->
  MeshEncoder_forward B e fe m = Ok ((fe', outs), m') ->
  length outs = Z.to_nat (len convs - 1) /\
  forall j bp, nth_error outs j = Some bp ->
               is_some bp = is_some (built_pool pools j).
Proof.
  intros Hinit Hfwd.
  apply MeshEncoder_init_stages in Hinit. destruct Hinit as [Hcount Hpools].
  apply MeshEncoder_forward_convs in Hfwd. destruct Hfwd as [fe1 Hrun].
  apply run_convs_entries in Hrun. destruct Hrun as [Hlen Hentries].
  split; [rewrite Hlen; exact Hcount|].
  intros j bp Hbp.
  destruct (nth_error (me_convs e) j) as [s |] eqn:Hs.
  2:{ apply nth_error_None in Hs.
      assert (j < length outs)%nat by (apply nth_error_Some; congruence).
      lia. }
  destruct (Hentries j s Hs)
    as (fe_j & m_j & fe_j' & bp' & m_j' & _ & Hstage & Hbp').
  rewrite Hbp in Hbp'. inversion Hbp'; subst bp'.
  apply DownStage_forward_snapshot in Hstage.
  rewrite <- (Hpools j s Hs).
  destruct (stage_pool s) as [pool |].
  - destruct Hstage as (t & m1 & -> & _). reflexivity.
  - destruct Hstage as [-> _]. reflexivity.
Qed.

Hypothesis total : DecoderTotal B.

(** An encoder and a decoder built on their schedules, run one after the
    other. *)
Lemma encoder_then_decoder_returns (pools convs unrolls up_convs : list Z)
    (blocks : Z) (a : AttnArgs) (batch_norm transfer_data flag : bool)
    (e : MeshEncoder) (d : MeshDecoder) (x : Tensor B) (m : Meshes B) :
  MeshEncoder_init B pools convs None blocks None a = Ok e ->
  MeshDecoder_init B unrolls up_convs blocks batch_norm transfer_data = Ok d ->
  is_ok (MeshEncoderDecoder_forward B (mkMeshEncoderDecoder flag e d) x m)
  = forallb (skip_fed pools (Z.to_nat (len convs - 1)) transfer_data)
            (seq 0 (Z.to_nat (len up_convs - 2))).
Proof.
  intros He Hd. unfold MeshEncoderDecoder_forward. simpl.
  pose proof (MeshEncoder_forward_returns B _ _ _ _ _ _ _ He (proj1 total)
                x m) as Henc.
  destruct (is_ok_true _ Henc) as [[[fe1 outs] m1] Hrun].
  unfold bind. rewrite Hrun.
  destruct (MeshEncoder_outs_pattern _ _ _ _ _ _ _ _ _ _ _ _ He Hrun)
    as [Hlen Hpattern].
  apply MeshDecoder_init_wf in Hd.
  destruct Hd as (Hups_len & Hups & Hfinal & Hfinal_t).
  rewrite (MeshDecoder_forward_ready B total transfer_data d (Some outs) fe1 m1
             Hups Hfinal Hfinal_t).
  rewrite Hups_len.
  apply forallb_map_ext. intros i _.
  unfold skip_ready, skip_fed, skip_input.
  replace (- (Z.of_nat i + 2)) with (- Z.of_nat (i + 2)) by lia.
  rewrite py_index_from_end by lia. rewrite Hlen.
  destruct (Nat.leb_spec (i + 2) (Z.to_nat (len convs - 1)))
    as [Hle | Hgt]; [|reflexivity].
  replace (Z.to_nat (len convs - 1) - (i + 2))%nat
    with (Z.to_nat (len convs - 1) - 2 - i)%nat by lia.
  destruct (nth_error outs (Z.to_nat (len convs - 1) - 2 - i))
    as [bp |] eqn:Hbp.
  - rewrite (Hpattern _ _ Hbp). reflexivity.
  - apply nth_error_None in Hbp. lia.
Qed.

(** X7. On a backend whose operations do not raise, the forward pass of a
    built encoder-decoder returns exactly when every up-convolution stage
    [i] of the decoder is fed: the encoder has at least [i + 2] stages and,
    when skip data is transferred, its stage [n - 2 - i] was built with a
    pooling target ([n] the number of encoder stages).  The constructors
    accept the schedules for which this fails. *)
Theorem MeshEncoderDecoder_forward_returns_iff :
  forall pools down_convs up_convs blocks transfer_data a net,
    MeshEncoderDecoder_init_with B pools down_convs up_convs blocks
                                 transfer_data a = Ok net ->
    forall x m,
      is_ok (MeshEncoderDecoder_forward B net x m)
      = forallb (skip_fed pools (Z.to_nat (len down_convs - 1)) transfer_data)
                (seq 0 (Z.to_nat (len up_convs - 2))).
Proof.
  intros until net. intros Hinit x m.
  unfold MeshEncoderDecoder_init_with in Hinit.
  apply rbind_ok in Hinit. destruct Hinit as (e & He & Hinit).
  apply rbind_ok in Hinit. destruct Hinit as (d & Hd & Hinit).
  inversion Hinit; subst net; clear Hinit.
  eapply encoder_then_decoder_returns; eassumption.
Qed.

Lemma skip_fed_meshunet (ninput_edges : Z) (pool_res : list Z) (k i : nat) :
  (i < k)%nat ->
  skip_fed ([ninput_edges] ++ pool_res) (S k) true i
  = pool_target_set pool_res (k - 1 - i).
Proof.
  intros Hi. unfold skip_fed, pool_target_set, built_pool. simpl negb.
  destruct (Nat.leb_spec (i + 2) (S k)) as [_ | H]; [|lia].
  replace (S k - 2 - i)%nat with (k - 1 - i)%nat by lia.
  simpl. destruct (nth_error pool_res (k - 1 - i)) as [p |]; [|reflexivity].
  destruct (p =? 0); reflexivity.
Qed.

(** X8. The segmentation networks of [define_classifier] ('meshunet' and
    'meshunetwithattention') are built with one encoder stage per entry of
    [ncf] and one decoder stage less.  On a backend whose operations do not
    raise, their forward pass returns exactly when [opt.pool_res] has a
    pooling target, not zero, for each of the first [len(ncf) - 1] encoder
    stages; the factory builds the network in the other cases too. *)
Theorem meshunet_forward_returns_iff :
  forall input_nc ncf ninput_edges nclasses opt arch net,
    (build_network B input_nc ncf ninput_edges nclasses opt arch
     = Ok (NetMeshEncoderDecoder net) \/
     build_network B input_nc ncf ninput_edges nclasses opt arch
     = Ok (NetMeshEncoderDecoderWithAttention net)) ->
    length (me_convs (med_encoder net)) = length ncf /\
    length (md_up_convs (med_decoder net)) = (length ncf - 1)%nat /\
    forall x m,
      is_ok (MeshEncoderDecoder_forward B net x m)
      = forallb (pool_target_set (opt_pool_res opt)) (seq 0 (length ncf - 1)).
Proof.
  intros until net. intros Hbuild.
  assert (Hinit : exists a,
             MeshEncoderDecoder_init_with B ([ninput_edges] ++ opt_pool_res opt)
               ([input_nc] ++ ncf) (rev ncf ++ [nclasses]) (opt_resblocks opt)
               true a = Ok net).
  { unfold build_network in Hbuild.
    destruct (get_norm_layer (opt_norm opt) (opt_num_groups opt)) as [f |];
      [simpl in Hbuild | destruct Hbuild as [H | H]; discriminate H].
    destruct (String.eqb arch "mconvnet").
    { destruct Hbuild as [H | H]; apply rbind_ok in H;
        destruct H as (n & _ & H); discriminate H. }
    destruct (String.eqb arch "meshattentionnet").
    { destruct Hbuild as [H | H]; apply rbind_ok in H;
        destruct H as (n & _ & H); discriminate H. }
    destruct (String.eqb arch "meshunet").
    { destruct Hbuild as [H | H]; apply rbind_ok in H;
        destruct H as (n & Hn & H); inversion H; subst n.
      exists no_attention. exact Hn. }
    destruct (String.eqb arch "meshunetwithattention").
    { destruct Hbuild as [H | H]; apply rbind_ok in H;
        destruct H as (n & Hn & H); inversion H; subst n.
      exists (opt_attn_args opt). exact Hn. }
    destruct Hbuild as [H | H]; discriminate H. }
  destruct Hinit as [a Hinit]. clear Hbuild.
  unfold MeshEncoderDecoder_init_with in Hinit.
  apply rbind_ok in Hinit. destruct Hinit as (e & He & Hinit).
  apply rbind_ok in Hinit. destruct Hinit as (d & Hd & Hinit).
  inversion Hinit; subst net; clear Hinit. simpl.
  assert (Hdown : Z.to_nat (len ([input_nc] ++ ncf) - 1) = length ncf)
    by (unfold len; simpl length; lia).
  assert (Hup : Z.to_nat (len (rev ncf ++ [nclasses]) - 2) = (length ncf - 1)%nat)
    by (unfold len; rewrite length_app, length_rev; simpl length; lia).
  split.
  { apply MeshEncoder_init_stages in He. destruct He as [Hcount _].
    rewrite Hcount. exact Hdown. }
  split.
  { apply MeshDecoder_init_wf in Hd. destruct Hd as [Hcount _].
    rewrite Hcount. exact Hup. }
  intros x m.
  rewrite (encoder_then_decoder_returns _ _ _ _ _ _ _ _ true e d x m He Hd).
  rewrite Hdown, Hup.
  destruct (length ncf) as [| k] eqn:Hk; [reflexivity|].
  replace (S k - 1)%nat with k by lia.
  (* the decoder reads the cache from its end: stage i is fed by target
     k - 1 - i *)
  assert (Hrev : forall f : nat -> bool,
             forallb (fun i => f (k - 1 - i)%nat) (seq 0 k) = forallb f (seq 0 k)).
  { intro f. destruct (forallb f (seq 0 k)) eqn:E.
    - rewrite forallb_forall in *. intros i Hi. apply in_seq in Hi.
      apply E. apply in_seq. lia.
    - destruct (forallb (fun i => f (k - 1 - i)%nat) (seq 0 k)) eqn:E';
        [|reflexivity].
      rewrite forallb_forall in E'.
      assert (Hall : forallb f (seq 0 k) = true).
      { apply forallb_forall. intros j Hj. apply in_seq in Hj.
        replace j with (k - 1 - (k - 1 - j))%nat by lia.
        apply E'. apply in_seq. lia. }
      congruence. }
  rewrite <- (Hrev (pool_target_set (opt_pool_res opt))).
  apply forallb_ext_in.
  intros i Hi. apply in_seq in Hi. apply skip_fed_meshunet. lia.
Qed.

End EncoderDecoderReturns.

Lemma MeshEncoderDecoder_forward_returns_iff_witness :
  exists net,
    MeshEncoderDecoder_init_with SymBackend [1000] [5; 16; 32; 64]
      [64; 32; 16; 3] 0 true no_attention = Ok net /\
    is_ok (MeshEncoderDecoder_forward SymBackend net (SInput 0) []) = false.
Proof.
  eexists. split; [reflexivity|].
  rewrite (MeshEncoderDecoder_forward_returns_iff SymBackend sym_decoder_total
             [1000] [5; 16; 32; 64] [64; 32; 16; 3] 0 true no_attention _
             eq_refl).
  reflexivity.
Defined.

Lemma meshunet_forward_returns_iff_witness :
  exists net,
    build_network SymBackend 5 [32; 64; 128; 256] 2280 8 segmentation_options
                  "meshunet" = Ok (NetMeshEncoderDecoder net) /\
    is_ok (MeshEncoderDecoder_forward SymBackend net (SInput 0) []) = true.
Proof.
  eexists. split; [reflexivity|].
  destruct (meshunet_forward_returns_iff SymBackend sym_decoder_total 5
              [32; 64; 128; 256] 2280 8 segmentation_options "meshunet" _
              (or_introl eq_refl)) as (_ & _ & H).
  rewrite H. reflexivity.
Defined.

(** ** What the decoder reads of the skip cache *)

Section DecoderReads.

Context (B : Backend).

Lemma skip_input_ignores_last (outs : list (option (Tensor B)))
    (x y : option (Tensor B)) (i : nat) :
  skip_input B (Some (outs ++ [x])) (Z.of_nat i)
  = skip_input B (Some (outs ++ [y])) (Z.of_nat i).
Proof.
  unfold skip_input.
  replace (- (Z.of_nat i + 2)) with (- Z.of_nat (i + 2)) by lia.
  rewrite !py_index_from_end by lia. rewrite !length_app. simpl length.
  destruct (Nat.leb_spec (i + 2) (length outs + 1)) as [Hle | Hgt];
    [|reflexivity].
  rewrite !nth_error_app1 by lia. reflexivity.
Qed.

Lemma run_up_convs_cons (i : Z) (u : UpConv) (rest : list UpConv)
    (encoder_outs : option (list (option (Tensor B)))) (fe : Tensor B)
    (m : Meshes B) :
  run_up_convs B i (u :: rest) encoder_outs fe m
  = bind (lift B (skip_input B encoder_outs i))
      (fun before_pool =>
         bind (UpConv_forward B u fe before_pool)
           (fun fe' => run_up_convs B (i + 1) rest encoder_outs fe')) m.
Proof. reflexivity. Qed.

Lemma run_up_convs_ignores_last (up_convs : list UpConv)
    (outs : list (option (Tensor B))) (x y : option (Tensor B)) :
  forall (s : nat) fe m,
    run_up_convs B (Z.of_nat s) up_convs (Some (outs ++ [x])) fe m
    = run_up_convs B (Z.of_nat s) up_convs (Some (outs ++ [y])) fe m.
Proof.
  induction up_convs as [| u rest IH]; intros s fe m; [reflexivity|].
  rewrite !run_up_convs_cons, (skip_input_ignores_last outs x y s).
  apply bind_ext. intros bp m1. apply bind_ext. intros fe1 m2.
  replace (Z.of_nat s + 1) with (Z.of_nat (S s)) by lia. apply IH.
Qed.

(** X9. The decoder never reads the last entry of the skip cache, the
    snapshot of the last encoder stage: its forward pass is the same
    whatever that entry is.  An empty cache lets it run only when it has no
    up-convolution stage. *)
Theorem MeshDecoder_ignores_last_entry :
  forall (d : MeshDecoder) (fe : Tensor B) (outs : list (option (Tensor B)))
         (x y : option (Tensor B)) (m : Meshes B),
    MeshDecoder_forward B d fe (Some (outs ++ [x])) m
    = MeshDecoder_forward B d fe (Some (outs ++ [y])) m /\
    (md_up_convs d <> [] ->
     MeshDecoder_forward B d fe (Some []) m = Err IndexError).
Proof.
  intros. split.
  - unfold MeshDecoder_forward, bind.
    change 0 with (Z.of_nat 0).
    rewrite (run_up_convs_ignores_last (md_up_convs d) outs x y 0 fe m).
    reflexivity.
  - intro Hne. unfold MeshDecoder_forward.
    destruct (md_up_convs d) as [| u rest]; [contradiction|]. reflexivity.
Qed.

End DecoderReads.

(** ** Pooling and unpooling calls, on the symbolic backend *)

Lemma flat_map_over_map {A C E : Type} (g : C -> list E) (h : A -> C)
    (l : list A) :
  flat_map g (map h l) = flat_map (fun x => g (h x)) l.
Proof.
  induction l as [| x rest IH]; [reflexivity|]. simpl. rewrite IH. reflexivity.
Qed.

Lemma flat_map_nth_ext {A E : Type} (f : A -> list E) (g : nat -> list E)
    (l : list A) :
  (forall i x, nth_error l i = Some x -> f x = g i) ->
  flat_map f l = flat_map g (seq 0 (length l)).
Proof.
  revert g. induction l as [| x rest IH]; intros g H; [reflexivity|].
  simpl. rewrite (H 0%nat x eq_refl). f_equal.
  rewrite <- seq_shift, flat_map_over_map.
  apply IH. intros i y Hi. apply (H (S i)). exact Hi.
Qed.

Section SymbolicCalls.

Lemma sym_apply_bn (bn : list InstanceNorm2d) (i : Z) (x r : SymTensor)
    (m m' : list MeshEvent) :
  apply_bn SymBackend bn i x m = Ok (r, m') -> m' = m.
Proof.
  unfold apply_bn. destruct (nonempty bn).
  - intro H. apply (bind_ok SymBackend) in H. destruct H as (n & m1 & Hn & H).
    apply (lift_ok SymBackend) in Hn. destruct Hn as [_ ->].
    simpl in H. inversion H. reflexivity.
  - intro H. inversion H. reflexivity.
Qed.

Lemma sym_conv_blocks (bn : list InstanceNorm2d) (residual : bool)
    (convs : list MeshConv) :
  forall idx x1 x2 r (m m' : list MeshEvent),
    conv_blocks SymBackend bn residual idx convs x1 x2 m = Ok (r, m') -> m' = m.
Proof.
  induction convs as [| conv rest IH]; intros idx x1 x2 r m m' H.
  - inversion H. reflexivity.
  - simpl in H.
    apply (bind_ok SymBackend) in H. destruct H as (y & m1 & Hy & H).
    inversion Hy; subst y m1; clear Hy.
    apply (bind_ok SymBackend) in H. destruct H as (y & m1 & Hy & H).
    apply sym_apply_bn in Hy. subst m1.
    apply (bind_ok SymBackend) in H. destruct H as (z & m1 & Hz & H).
    assert (m1 = m) by (destruct residual; inversion Hz; reflexivity).
    subst m1. apply IH in H. exact H.
Qed.

Lemma sym_DownConv_features (d : DownConv) (fe r : SymTensor) (m m' : list MeshEvent) :
  DownConv_features SymBackend d fe m = Ok (r, m') -> m' = m.
Proof.
  unfold DownConv_features. intro H.
  apply (bind_ok SymBackend) in H. destruct H as (y & m1 & Hy & H).
  inversion Hy; subst y m1; clear Hy.
  apply (bind_ok SymBackend) in H. destruct H as (y & m1 & Hy & H).
  apply sym_apply_bn in Hy. subst m1.
  apply (bind_ok SymBackend) in H. destruct H as (z & m1 & Hz & H).
  apply sym_conv_blocks in Hz. subst m1.
  inversion H. reflexivity.
Qed.

Lemma sym_DownConv_forward (d : DownConv) (fe : SymTensor)
    (r : SymTensor * option SymTensor) (m m' : list MeshEvent) :
  DownConv_forward SymBackend d fe m = Ok (r, m') ->
  m' = m ++ match dc_pool d with
            | Some p => [Pooled (mp_target p)]
            | None => []
            end.
Proof.
  unfold DownConv_forward. intro H.
  apply (bind_ok SymBackend) in H. destruct H as (y & m1 & Hy & H).
  apply sym_DownConv_features in Hy. subst m1.
  destruct (dc_pool d) as [p |].
  - inversion H. reflexivity.
  - inversion H. rewrite app_nil_r. reflexivity.
Qed.

(** A stage of a built encoder leaves one pooling call, if it pools. *)
Lemma sym_DownStage_forward (s : DownStage) (fe : SymTensor)
    (r : SymTensor * option SymTensor) (m m' : list MeshEvent) :
  match s with
  | PlainDown _ => True
  | AttnDown d => dc_pool (dca_base d) = None
  end ->
  DownStage_forward SymBackend s fe m = Ok (r, m') ->
  m' = m ++ match stage_pool s with
            | Some p => [Pooled (mp_target p)]
            | None => []
            end.
Proof.
  destruct s as [d | d]; simpl; intros Hbase H.
  - apply sym_DownConv_forward in H. exact H.
  - unfold DownConvWithAttention_forward, DownConvWithAttention_features in H.
    apply (bind_ok SymBackend) in H. destruct H as ([[[x2 attn] ape] dm] & m1 & Hfeat & H).
    apply (bind_ok SymBackend) in Hfeat. destruct Hfeat as ([y bp] & m2 & Hbase_fwd & Hatt).
    apply sym_DownConv_forward in Hbase_fwd. rewrite Hbase in Hbase_fwd.
    rewrite app_nil_r in Hbase_fwd. subst m2.
    inversion Hatt; subst; clear Hatt.
    destruct (dca_real_pool d) as [p |].
    + apply (bind_ok SymBackend) in H. destruct H as (ape' & m2 & Hape & H).
      assert (m2 = m1)
        by (destruct (truthy (dca_double_attention d)); inversion Hape;
            reflexivity).
      subst m2. inversion H. reflexivity.
    + inversion H. rewrite app_nil_r. reflexivity.
Qed.

Lemma sym_run_convs (convs : list DownStage) :
  Forall (fun s => match s with
                   | PlainDown _ => True
                   | AttnDown d => dc_pool (dca_base d) = None
                   end) convs ->
  forall fe acc r (m m' : list MeshEvent),
    run_convs SymBackend convs fe acc m = Ok (r, m') ->
    m' = m ++ flat_map (fun s => match stage_pool s with
                                 | Some p => [Pooled (mp_target p)]
                                 | None => []
                                 end) convs.
Proof.
  induction 1 as [| conv rest Hconv Hrest IH]; intros fe acc r m m' H.
  - inversion H. rewrite app_nil_r. reflexivity.
  - simpl in H. apply (bind_ok SymBackend) in H. destruct H as ([fe1 bp] & m1 & Hs & H).
    apply (sym_DownStage_forward conv fe _ m m1 Hconv) in Hs.
    apply IH in H. subst. simpl. rewrite app_assoc. reflexivity.
Qed.

Lemma sym_UpConv_forward (u : UpConv) (fe : SymTensor)
    (from_down : option SymTensor) (r : SymTensor) (m m' : list MeshEvent) :
  UpConv_forward SymBackend u fe from_down m = Ok (r, m') ->
  m' = m ++ match uc_unroll u with
            | Some unroll => [Unpooled (mu_target unroll)]
            | None => []
            end.
Proof.
  unfold UpConv_forward. intro H.
  apply (bind_ok SymBackend) in H. destruct H as (x1 & m1 & Hx1 & H).
  assert (Hm1 : m1 = m ++ match uc_unroll u with
                          | Some unroll => [Unpooled (mu_target unroll)]
                          | None => []
                          end).
  { unfold UpConv_unrolled in Hx1.
    apply (bind_ok SymBackend) in Hx1. destruct Hx1 as (y & m2 & Hy & Hx1).
    inversion Hy; subst y m2; clear Hy.
    apply (bind_ok SymBackend) in Hx1. destruct Hx1 as (y & m2 & Hy & Hx1).
    inversion Hy; subst y m2; clear Hy.
    destruct (uc_unroll u) as [unroll |]; inversion Hx1;
      [reflexivity | rewrite app_nil_r; reflexivity]. }
  apply (bind_ok SymBackend) in H. destruct H as (x2 & m2 & Hx2 & H).
  assert (m2 = m1).
  { destruct (uc_transfer_data u); [|inversion Hx2; reflexivity].
    apply (lift_ok SymBackend) in Hx2. destruct Hx2 as [_ ->]. reflexivity. }
  subst m2.
  apply (bind_ok SymBackend) in H. destruct H as (x3 & m2 & Hx3 & H).
  inversion Hx3; subst x3 m2; clear Hx3.
  apply (bind_ok SymBackend) in H. destruct H as (x4 & m2 & Hx4 & H).
  apply sym_apply_bn in Hx4. subst m2.
  apply (bind_ok SymBackend) in H. destruct H as (x5 & m2 & Hx5 & H).
  apply sym_conv_blocks in Hx5. subst m2.
  inversion H. subst m'. exact Hm1.
Qed.

Lemma sym_run_up_convs (up_convs : list UpConv)
    (encoder_outs : option (list (option SymTensor))) :
  forall i fe r (m m' : list MeshEvent),
    run_up_convs SymBackend i up_convs encoder_outs fe m = Ok (r, m') ->
    m' = m ++ flat_map (fun u => match uc_unroll u with
                                 | Some unroll => [Unpooled (mu_target unroll)]
                                 | None => []
                                 end) up_convs.
Proof.
  induction up_convs as [| u rest IH]; intros i fe r m m' H.
  - inversion H. rewrite app_nil_r. reflexivity.
  - simpl in H. apply (bind_ok SymBackend) in H. destruct H as (bp & m1 & Hbp & H).
    apply (lift_ok SymBackend) in Hbp. destruct Hbp as [_ ->].
    apply (bind_ok SymBackend) in H. destruct H as (fe1 & m1 & Hu & H).
    apply sym_UpConv_forward in Hu. apply IH in H.
    subst. simpl. rewrite app_assoc. reflexivity.
Qed.

End SymbolicCalls.

Lemma flat_map_targets (E : Z -> MeshEvent) (f : nat -> list MeshEvent)
    (l : list Z) :
  Forall (fun p => p <> 0) l ->
  (forall i, f i = match nth_error l i with
                   | Some p => if p =? 0 then [] else [E p]
                   | None => []
                   end) ->
  flat_map f (seq 0 (length l)) = map E l.
Proof.
  intros Hnz Hf.
  rewrite <- (flat_map_nth_ext (fun p => [E p]) f l).
  - clear. induction l as [| p rest IH]; [reflexivity|].
    simpl. rewrite IH. reflexivity.
  - intros i p Hi. rewrite Hf, Hi.
    rewrite Forall_forall in Hnz.
    destruct (Z.eqb_spec p 0) as [E0 | _]; [|reflexivity].
    exfalso. apply (Hnz p); [|exact E0].
    eapply nth_error_In. exact Hi.
Qed.

(** With a target, not zero, at every level, the stages of an encoder with
    as many stages as levels pool to the levels after the first. *)
Lemma pooled_events_all (pools : list Z) :
  Forall (fun p => p <> 0) pools ->
  pooled_events pools (length pools) = map Pooled (tl pools).
Proof.
  intros Hnz. unfold pooled_events.
  destruct pools as [| p0 rest]; [reflexivity|].
  simpl length. rewrite seq_S, flat_map_app. simpl tl.
  inversion Hnz as [| ? ? _ Hrest]; subst.
  rewrite (flat_map_targets Pooled _ rest Hrest).
  - simpl. unfold built_pool. simpl.
    assert (E : nth_error rest (length rest) = None)
      by (apply nth_error_None; lia).
    rewrite E. rewrite app_nil_r. reflexivity.
  - intro i. unfold built_pool. simpl.
    destruct (nth_error rest i) as [p |]; [|reflexivity].
    destruct (p =? 0); reflexivity.
Qed.

Lemma unpooled_events_all (unrolls : list Z) :
  Forall (fun p => p <> 0) unrolls ->
  unpooled_events unrolls (length unrolls) = map Unpooled unrolls.
Proof.
  intros Hnz. unfold unpooled_events.
  apply (flat_map_targets Unpooled _ unrolls Hnz).
  intro i. unfold built_unroll.
  destruct (nth_error unrolls i) as [p |]; [|reflexivity].
  destruct (p =? 0); reflexivity.
Qed.

Lemma Forall_removelast {A : Type} (P : A -> Prop) (l : list A) :
  Forall P l -> Forall P (removelast l).
Proof.
  induction 1 as [| x rest Hx Hrest IH]; [constructor|].
  simpl. destruct rest as [| y rest']; [constructor|].
  constructor; assumption.
Qed.

Lemma length_removelast_ne {A : Type} (l : list A) :
  length (removelast l) = (length l - 1)%nat.
Proof.
  induction l as [| x rest IH]; [reflexivity|].
  simpl. destruct rest as [| y rest']; [reflexivity|].
  simpl length in *. rewrite IH. lia.
Qed.

(** The pooling calls of a built encoder, on the symbolic backend. *)
Lemma sym_encoder_events (pools convs : list Z) (fcs : option (list Z))
    (blocks : Z) (global_pool : option string) (a : AttnArgs) (e : MeshEncoder)
    (fe : SymTensor) (r : SymTensor * list (option SymTensor))
    (m m' : list MeshEvent) :
  MeshEncoder_init SymBackend pools convs fcs blocks global_pool a = Ok e ->
  MeshEncoder_forward SymBackend e fe m = Ok (r, m') ->
  m' = m ++ pooled_events pools (Z.to_nat (len convs - 1)).
Proof.
  intros Hinit Hfwd.
  pose proof (MeshEncoder_init_base_pool SymBackend _ _ _ _ _ _ _ Hinit)
    as Hbase.
  apply MeshEncoder_init_stages in Hinit. destruct Hinit as [Hcount Hpools].
  destruct r as [fe' outs].
  apply (MeshEncoder_forward_convs SymBackend) in Hfwd.
  destruct Hfwd as [fe1 Hrun].
  apply (sym_run_convs _ Hbase) in Hrun. rewrite Hrun. f_equal.
  unfold pooled_events. rewrite <- Hcount.
  apply flat_map_nth_ext. intros i s Hs. rewrite (Hpools i s Hs). reflexivity.
Qed.

(** The calls of an encoder and a decoder built on their schedules, run
    one after the other. *)
Lemma sym_encoder_then_decoder_events (pools convs unrolls up_convs : list Z)
    (blocks : Z) (a : AttnArgs) (batch_norm transfer_data flag : bool)
    (e : MeshEncoder) (d : MeshDecoder) (x r : SymTensor)
    (m m' : list MeshEvent) :
  MeshEncoder_init SymBackend pools convs None blocks None a = Ok e ->
  MeshDecoder_init SymBackend unrolls up_convs blocks batch_norm transfer_data
  = Ok d ->
  MeshEncoderDecoder_forward SymBackend (mkMeshEncoderDecoder flag e d) x m
  = Ok (r, m') ->
  m' = m ++ pooled_events pools (Z.to_nat (len convs - 1))
         ++ unpooled_events unrolls (Z.to_nat (len up_convs - 2)).
Proof.
  intros He Hd Hfwd.
  unfold MeshEncoderDecoder_forward in Hfwd. simpl in Hfwd.
  apply (bind_ok SymBackend) in Hfwd.
  destruct Hfwd as ([fe1 outs] & m1 & Henc & Hdec).
  apply (sym_encoder_events _ _ _ _ _ _ _ _ _ _ _ He) in Henc.
  unfold MeshDecoder_forward in Hdec.
  apply (bind_ok SymBackend) in Hdec.
  destruct Hdec as (fe2 & m2 & Hups & Hfinal).
  apply sym_run_up_convs in Hups.
  apply sym_UpConv_forward in Hfinal.
  pose proof (MeshDecoder_init_unrolls SymBackend _ _ _ _ _ _ Hd) as Hunrolls.
  pose proof (MeshDecoder_init_final_unroll SymBackend _ _ _ _ _ _ Hd) as Hlast.
  apply MeshDecoder_init_wf in Hd.
  destruct Hd as (Hcount & _ & _ & _).
  rewrite Hlast, app_nil_r in Hfinal. subst m' m2 m1.
  rewrite <- app_assoc. f_equal. f_equal.
  unfold unpooled_events. rewrite <- Hcount.
  apply flat_map_nth_ext. intros i u Hu. rewrite (Hunrolls i u Hu).
  reflexivity.
Qed.

(** X10. On the symbolic backend, which records the calls made on the
    meshes, a forward pass of a built encoder-decoder that returns has made
    one pooling call per encoder stage built with a pooling target, in
    stage order, and then one unpooling call per decoder stage built with
    an unroll target, in stage order; nothing else touches the meshes. *)
Theorem MeshEncoderDecoder_mesh_calls :
  forall pools down_convs up_convs blocks transfer_data a net x r m m',
    MeshEncoderDecoder_init_with SymBackend pools down_convs up_convs blocks
                                 transfer_data a = Ok net ->
    MeshEncoderDecoder_forward SymBackend net x m = Ok (r, m') ->
    m' = m ++ pooled_events pools (Z.to_nat (len down_convs - 1))
           ++ unpooled_events (rev (py_init pools))
                              (Z.to_nat (len up_convs - 2)).
Proof.
  intros until m'. intros Hinit Hfwd.
  unfold MeshEncoderDecoder_init_with in Hinit.
  apply rbind_ok in Hinit. destruct Hinit as (e & He & Hinit).
  apply rbind_ok in Hinit. destruct Hinit as (d & Hd & Hinit).
  inversion Hinit; subst net; clear Hinit.
  eapply sym_encoder_then_decoder_events; eassumption.
Qed.

Lemma MeshEncoderDecoder_mesh_calls_witness :
  exists net,
    MeshEncoderDecoder_init_with SymBackend [2280; 1800; 1350; 600]
      [5; 32; 64; 128; 256] [256; 128; 64; 32; 8] 0 true no_attention = Ok net /\
    is_ok (MeshEncoderDecoder_forward SymBackend net (SInput 0) []) = true /\
    forall r m',
      MeshEncoderDecoder_forward SymBackend net (SInput 0) [] = Ok (r, m') ->
      m' = [Pooled 1800; Pooled 1350; Pooled 600;
            Unpooled 1350; Unpooled 1800; Unpooled 2280].
Proof.
  eexists. split; [reflexivity|]. split; [reflexivity|].
  intros r m' E.
  exact (MeshEncoderDecoder_mesh_calls [2280; 1800; 1350; 600]
           [5; 32; 64; 128; 256] [256; 128; 64; 32; 8] 0 true no_attention _
           (SInput 0) r [] m' eq_refl E).
Defined.

(** X11. When every level of the pooling schedule has a target, not zero,
    the encoder has as many stages as there are levels and the decoder one
    up-convolution stage less, the forward pass of the encoder-decoder
    returns on the symbolic backend, and the unpooling calls it has made
    are the pooling calls undone in reverse order: the encoder pools to
    [pools[1]], ..., [pools[-1]], the decoder unrolls to [pools[-2]], ...,
    [pools[0]]. *)
Theorem MeshEncoderDecoder_unrolls_undo_pools :
  forall pools down_convs up_convs blocks a net,
    MeshEncoderDecoder_init_with SymBackend pools down_convs up_convs blocks
                                 true a = Ok net ->
    Forall (fun p => p <> 0) pools ->
    len down_convs - 1 = len pools ->
    len up_convs - 2 = len pools - 1 ->
    pools <> [] ->
    forall x m,
    exists r,
      MeshEncoderDecoder_forward SymBackend net x m
      = Ok (r, m ++ map Pooled (tl pools)
                 ++ map Unpooled (rev (removelast pools))).
Proof.
  intros until net. intros Hinit Hnz Hdown Hup Hne x m.
  unfold MeshEncoderDecoder_init_with in Hinit.
  apply rbind_ok in Hinit. destruct Hinit as (e & He & Hinit).
  apply rbind_ok in Hinit. destruct Hinit as (d & Hd & Hinit).
  inversion Hinit; subst net; clear Hinit.
  assert (Hn : Z.to_nat (len down_convs - 1) = length pools)
    by (unfold len in *; lia).
  assert (Hu : Z.to_nat (len up_convs - 2) = length (rev (py_init pools))).
  { rewrite length_rev. unfold py_init. rewrite length_removelast_ne.
    unfold len in *. lia. }
  pose proof (encoder_then_decoder_returns SymBackend sym_decoder_total _ _ _ _
                _ _ _ _ true e d x m He Hd) as Hret.
  assert (Hfed : forallb (skip_fed pools (Z.to_nat (len down_convs - 1)) true)
                         (seq 0 (Z.to_nat (len up_convs - 2))) = true).
  { apply forallb_forall. intros i Hi. apply in_seq in Hi.
    rewrite Hu, length_rev in Hi. unfold py_init in Hi.
    rewrite length_removelast_ne in Hi.
    unfold skip_fed. rewrite Hn. simpl negb. simpl orb.
    apply andb_true_intro. split; [apply Nat.leb_le; lia|].
    unfold built_pool.
    destruct (nth_error pools (S (length pools - 2 - i))) as [p |] eqn:E.
    - rewrite Forall_forall in Hnz.
      destruct (Z.eqb_spec p 0) as [E0 | _]; [|reflexivity].
      exfalso. apply (Hnz p); [|exact E0]. eapply nth_error_In. exact E.
    - apply nth_error_None in E. lia. }
  rewrite Hfed in Hret.
  destruct (is_ok_true _ Hret) as [[r m'] Hfwd].
  exists r. rewrite Hfwd. f_equal. f_equal.
  rewrite (sym_encoder_then_decoder_events _ _ _ _ _ _ _ _ _ _ _ _ _ _ _
             He Hd Hfwd).
  rewrite Hn, Hu, pooled_events_all by exact Hnz.
  rewrite unpooled_events_all; [reflexivity|].
  apply Forall_rev, Forall_removelast. exact Hnz.
Qed.

Lemma MeshEncoderDecoder_unrolls_undo_pools_witness :
  exists net r,
    MeshEncoderDecoder_init_with SymBackend [2280; 1800; 1350; 600]
      [5; 32; 64; 128; 256] [256; 128; 64; 32; 8] 0 true no_attention = Ok net /\
    MeshEncoderDecoder_forward SymBackend net (SInput 0) []
    = Ok (r, [Pooled 1800; Pooled 1350; Pooled 600;
              Unpooled 1350; Unpooled 1800; Unpooled 2280]).
Proof.
  eexists.
  assert (Hnz : Forall (fun p => p <> 0) [2280; 1800; 1350; 600])
    by (repeat constructor; discriminate).
  destruct (MeshEncoderDecoder_unrolls_undo_pools [2280; 1800; 1350; 600]
              [5; 32; 64; 128; 256] [256; 128; 64; 32; 8] 0 no_attention _
              eq_refl Hnz eq_refl eq_refl ltac:(discriminate) (SInput 0) [])
    as [r Hr].
  exists r. split; [reflexivity | exact Hr].
Defined.

(** ** Attention and pooling priorities *)

(** X12. In an attention stage that pools, the tensor pooled and the
    snapshot are the output of the first attention pass, whatever the
    flags; the flags only choose the priorities given to the pooling layer:
    none without [prioritize_with_attention], else the per-edge attention
    of the first pass, or with double attention that of a second pass,
    which reads a detached copy of the output of the first.  Stated on the
    symbolic backend, where a tensor is the term of the operations that
    made it. *)
Theorem DownConvWithAttention_priorities :
  forall (d : DownConvWithAttention) (p : MeshPool) (fe x : SymTensor)
         (m m1 : list MeshEvent),
    dca_real_pool d = Some p ->
    dc_pool (dca_base d) = None ->
    DownConv_features SymBackend (dca_base d) fe m = Ok (x, m1) ->
    DownConvWithAttention_forward SymBackend d fe m
    = Ok ((SMeshPool p (SAttnFeatures (dca_attention d) x)
                     (sym_edge_priorities d x),
           Some (SAttnFeatures (dca_attention d) x)),
          m ++ [Pooled (mp_target p)]).
Proof.
  intros d p fe x m m1 Hpool Hbase Hfeat.
  pose proof (sym_DownConv_features _ _ _ _ _ Hfeat) as Hm. subst m1.
  unfold DownConvWithAttention_forward, DownConvWithAttention_features,
    DownConv_forward, sym_edge_priorities.
  rewrite Hpool, Hbase. unfold bind at 1 2 3. rewrite Hfeat. simpl.
  destruct (truthy (dca_double_attention d));
    destruct (truthy (dca_prioritize_with_attention d)); reflexivity.
Qed.

Lemma DownConvWithAttention_priorities_witness :
  exists d r,
    DownConvWithAttention_init SymBackend 5 16 0 600 4
      (mkAttnArgs (Some 4) None None (Some true) (Some true) (Some true) None
                  None) = Ok d /\
    DownConvWithAttention_forward SymBackend d (SInput 0) []
    = Ok (r, [Pooled 600]).
Proof.
  eexists. eexists. split; [reflexivity|].
  match goal with
  | |- DownConvWithAttention_forward SymBackend ?d _ _ = _ =>
      rewrite (DownConvWithAttention_priorities d (mkMeshPool 600) (SInput 0)
                 _ [] [] eq_refl eq_refl eq_refl)
  end.
  reflexivity.
Defined.

(** ** Learning-rate schedulers *)

(** X13. For a policy other than 'lambda', 'step' and 'plateau',
    [get_scheduler] does not raise: it builds no scheduler and returns, as
    its value, an exception object holding the unformatted message and the
    policy. *)
Theorem get_scheduler_unknown_policy :
  forall (scheduler_error : SchedulerValue -> option PyError)
         (lr_policy : string) (epoch_count niter niter_decay lr_decay_iters : Z),
    lr_policy <> "lambda"%string ->
    lr_policy <> "step"%string ->
    lr_policy <> "plateau"%string ->
    get_scheduler scheduler_error lr_policy epoch_count niter niter_decay
                  lr_decay_iters
    = Ok (NotImplementedErrorObject
            "learning rate policy [%s] is not implemented" lr_policy).
Proof.
  intros scheduler_error lr_policy epoch_count niter niter_decay lr_decay_iters
         Hl Hs Hp.
  unfold get_scheduler.
  destruct (String.eqb_spec lr_policy "lambda") as [E | _]; [contradiction|].
  destruct (String.eqb_spec lr_policy "step") as [E | _]; [contradiction|].
  destruct (String.eqb_spec lr_policy "plateau") as [E | _]; [contradiction|].
  reflexivity.
Qed.

Lemma get_scheduler_unknown_policy_witness :
  get_scheduler (fun _ => Some (RuntimeError "scheduler")) "cosine" 1 100 500 50
  = Ok (NotImplementedErrorObject
          "learning rate policy [%s] is not implemented" "cosine").
Proof.
  apply get_scheduler_unknown_policy; intro H; discriminate H.
Defined.

(** ** Weight initialisation *)

Section WeightInitFacts.

Variable init_error : InitAction -> ModuleInfo -> option PyError.

Lemma init_func_type_unused (init_gain : PrimFloat.float) (m : ModuleInfo)
    (log : list (ModuleInfo * InitAction)) (t t' : string) :
  is_conv_or_linear m = false ->
  init_func init_error t init_gain m log
  = init_func init_error t' init_gain m log.
Proof. intro H. unfold init_func. rewrite H. reflexivity. Qed.

Lemma init_weights_type_unused (init_gain : PrimFloat.float)
    (modules : list ModuleInfo) (t t' : string) :
  Forall (fun m => is_conv_or_linear m = false) modules ->
  forall log,
    rfold (init_func init_error t init_gain) modules log
    = rfold (init_func init_error t' init_gain) modules log.
Proof.
  induction 1 as [| m rest Hm Hrest IH]; intro log; [reflexivity|].
  simpl. rewrite (init_func_type_unused init_gain m log t t' Hm).
  destruct (init_func init_error t' init_gain m log) as [log' | e];
    [apply IH | reflexivity].
Qed.

Lemma init_weights_unknown_returns (init_gain : PrimFloat.float)
    (modules : list ModuleInfo) (t : string) :
  weight_init_action t init_gain = None ->
  forall log,
    is_ok (rfold (init_func init_error t init_gain) modules log) = true ->
    Forall (fun m => is_conv_or_linear m = false) modules.
Proof.
  intros Ht. induction modules as [| m rest IH]; intros log H; [constructor|].
  simpl in H.
  destruct (init_func init_error t init_gain m log) as [log' | e] eqn:Hm;
    [|discriminate H].
  constructor; [|apply (IH log'); exact H].
  unfold init_func in Hm. rewrite Ht in Hm.
  destruct (is_conv_or_linear m); [discriminate Hm | reflexivity].
Qed.

Variable cuda_is_available : bool.
Variable cuda_error : list Z -> option PyError.

(** X14. [init_net] looks at [init_type] only through the modules whose
    class name has 'Conv' or 'Linear' in it and that have a weight.  With
    'none' it calls no initialiser.  With a type that names no initialiser
    it raises the error naming it at the first such module, so that it can
    return only for a net without any; and for such a net every type, known
    or not, gives the same result. *)
Theorem init_net_init_type :
  forall (modules : list ModuleInfo) (init_gain : PrimFloat.float)
         (gpu_ids : list Z),
    (forall wrapped log,
        init_net init_error cuda_is_available cuda_error modules "none"
                 init_gain gpu_ids = Ok (wrapped, log) ->
        log = []) /\
    (forall init_type,
        init_type <> "none"%string ->
        weight_init_action init_type init_gain = None ->
        is_ok (init_net init_error cuda_is_available cuda_error modules
                        init_type init_gain gpu_ids) = true ->
        Forall (fun m => is_conv_or_linear m = false) modules) /\
    (forall init_type pre m post,
        weight_init_action init_type init_gain = None ->
        modules = pre ++ m :: post ->
        Forall (fun m' => is_conv_or_linear m' = false /\
                          contains "BatchNorm2d" (mi_classname m') = false) pre ->
        is_conv_or_linear m = true ->
        init_weights init_error modules init_type init_gain
        = Err (NotImplementedError (not_implemented_init_msg init_type))) /\
    (forall t t',
        t <> "none"%string -> t' <> "none"%string ->
        Forall (fun m => is_conv_or_linear m = false) modules ->
        init_net init_error cuda_is_available cuda_error modules t init_gain
                 gpu_ids
        = init_net init_error cuda_is_available cuda_error modules t' init_gain
                   gpu_ids).
Proof.
  intros modules init_gain gpu_ids.
  split; [|split; [|split]].
  - intros wrapped log H. unfold init_net in H.
    apply rbind_ok in H. destruct H as (w & _ & H).
    simpl in H. inversion H. reflexivity.
  - intros init_type Hnone Ht H. unfold init_net in H.
    destruct (0 <? len gpu_ids).
    + destruct (py_assert cuda_is_available "") as [u |]; [|discriminate H].
      simpl in H. destruct (cuda_error gpu_ids); [discriminate H|].
      simpl in H.
      destruct (String.eqb_spec init_type "none") as [E | _]; [contradiction|].
      simpl in H. unfold init_weights in H.
      destruct (rfold (init_func init_error init_type init_gain)
                      (modules ++ [data_parallel_module]) []) as [log |] eqn:E;
        [|discriminate H].
      assert (Hall : Forall (fun m => is_conv_or_linear m = false)
                            (modules ++ [data_parallel_module])).
      { apply (init_weights_unknown_returns init_gain _ init_type Ht []).
        rewrite E. reflexivity. }
      apply Forall_app in Hall. apply Hall.
    + simpl in H.
      destruct (String.eqb_spec init_type "none") as [E | _]; [contradiction|].
      simpl in H. unfold init_weights in H.
      destruct (rfold (init_func init_error init_type init_gain) modules [])
        as [log |] eqn:E; [|discriminate H].
      apply (init_weights_unknown_returns init_gain _ init_type Ht []).
      rewrite E. reflexivity.
  - intros init_type pre m post Ht -> Hpre Hm. unfold init_weights.
    generalize (@nil (ModuleInfo * InitAction)) as log.
    induction Hpre as [| m' pre' [Hc Hb] Hpre' IH]; intro log.
    + simpl. unfold init_func. rewrite Hm, Ht. reflexivity.
    + simpl. unfold init_func at 1. rewrite Hc, Hb. simpl. apply IH.
  - intros t t' Ht Ht' Hall. unfold init_net.
    destruct (String.eqb_spec t "none") as [E | _]; [contradiction|].
    destruct (String.eqb_spec t' "none") as [E | _]; [contradiction|].
    simpl.
    destruct (if 0 <? len gpu_ids
              then rbind (py_assert cuda_is_available "")
                     (fun _ => match cuda_error gpu_ids with
                               | Some e => Err e
                               | None => Ok true
                               end)
              else Ok false) as [wrapped |]; [|reflexivity].
    simpl. unfold init_weights.
    rewrite (init_weights_type_unused init_gain _ t t'); [reflexivity|].
    destruct wrapped; [|exact Hall].
    apply Forall_app. split; [exact Hall|]. constructor; [reflexivity|constructor].
Qed.

End WeightInitFacts.

Lemma init_net_init_type_witness :
  init_weights (fun _ _ => None)
    [mkModuleInfo "InstanceNorm2d" IsNone IsNone;
     mkModuleInfo "Conv2d" IsTensor IsTensor;
     mkModuleInfo "MeshConv" Missing Missing]
    "uniform" PrimFloat.one
  = Err (NotImplementedError "initialization method [uniform] is not implemented").
Proof.
  destruct (init_net_init_type (fun _ _ => None) false (fun _ => None)
              [mkModuleInfo "InstanceNorm2d" IsNone IsNone;
               mkModuleInfo "Conv2d" IsTensor IsTensor;
               mkModuleInfo "MeshConv" Missing Missing]
              PrimFloat.one []) as (_ & _ & H & _).
  apply (H "uniform"%string [mkModuleInfo "InstanceNorm2d" IsNone IsNone]
           (mkModuleInfo "Conv2d" IsTensor IsTensor)
           [mkModuleInfo "MeshConv" Missing Missing]);
    try reflexivity.
  repeat constructor.
Defined.

(** ** Construction of the fully-connected head *)

Section HeadConstruction.

Context (B : Backend).
Hypothesis accept : forall c, ctor_error B c = None.

Lemma encoder_fc_loop_accept (fcs : list Z) :
  forall st, is_ok (rfold (encoder_fc B) fcs st) = true.
Proof.
  apply rfold_returns. intros w [[ls bns] last] _. unfold encoder_fc.
  rewrite (new_Linear_accept B accept).
  unfold new_InstanceNorm1d, construct. rewrite accept. reflexivity.
Qed.

Lemma MeshEncoder_init_after_stages (pools convs : list Z) (blocks : Z)
    (a : AttnArgs) :
  attn_args_ok a = true ->
  head_sizes_ok a convs = true ->
  exists stages,
    forall fcs global_pool,
      MeshEncoder_init B pools convs fcs blocks global_pool a
      = match fcs with
        | None => Ok {| me_fcs := None; me_convs := stages;
                        me_global_pool := None |}
        | Some fcs =>
            match encoder_head B pools convs fcs global_pool with
            | Ok (h, gp) => Ok {| me_fcs := Some h; me_convs := stages;
                                  me_global_pool := gp |}
            | Err e => Err e
            end
        end.
Proof.
  intros Ha Hsizes.
  assert (Hloop : is_ok (rfold (encoder_stage B pools convs blocks a)
                               (py_range (len convs - 1)) []) = true).
  { apply rfold_returns. intros i acc Hin. apply In_py_range in Hin.
    apply (encoder_stage_accept B accept); assumption. }
  apply is_ok_true in Hloop. destruct Hloop as (stages & Hstages).
  exists stages. intros fcs global_pool. unfold MeshEncoder_init.
  assert (Hassert : (if is_some (attn_n_heads a)
                     then py_assert (is_some (attn_dropout a)
                                     && is_some (prioritize_with_attention a))
                                    encoder_attention_msg
                     else Ok tt) = Ok tt).
  { unfold attn_args_ok in Ha.
    destruct (attn_n_heads a) as [heads |]; [|reflexivity]. simpl.
    apply andb_prop in Ha. destruct Ha as [Ha _].
    apply andb_prop in Ha. destruct Ha as [Ha Hprio].
    apply andb_prop in Ha. destruct Ha as [_ Hdrop].
    rewrite Hdrop, Hprio. reflexivity. }
  rewrite Hassert, Hstages. simpl.
  destruct fcs as [fcs |]; [|reflexivity].
  simpl. destruct (encoder_head B pools convs fcs global_pool) as [[h gp] | e];
    reflexivity.
Qed.

Lemma py_index_last_nonempty {A : Type} (l : list A) :
  l <> [] -> exists a, py_index l (-1) = Ok a.
Proof.
  intro H. apply is_ok_true.
  destruct (py_index_last_but l 1) as [E _]; [lia|].
  change (- (1)) with (-1) in E. rewrite E.
  destruct l; [contradiction|]. unfold len. simpl length. apply Z.leb_le. lia.
Qed.

Lemma encoder_head_returns_iff (pools convs fcs : list Z)
    (global_pool : option string) :
  (convs = [] -> encoder_head B pools convs fcs global_pool = Err IndexError) /\
  (convs <> [] ->
   forall g, global_pool = Some g -> known_global_pool global_pool = false ->
     encoder_head B pools convs fcs global_pool
     = Err (AssertionError (global_pool_msg g))) /\
  (convs <> [] -> known_global_pool global_pool = true ->
   pools = [] \/ fcs = [] ->
   encoder_head B pools convs fcs global_pool = Err IndexError) /\
  (convs <> [] -> known_global_pool global_pool = true ->
   pools <> [] -> fcs <> [] ->
   is_ok (encoder_head B pools convs fcs global_pool) = true).
Proof.
  unfold encoder_head. split; [|split; [|split]].
  - intros ->. reflexivity.
  - intros Hc g -> Hg. destruct (py_index_last_nonempty convs Hc) as (c & ->).
    simpl in Hg. apply orb_false_elim in Hg. destruct Hg as [Hmax Havg].
    simpl. rewrite Hmax, Havg. reflexivity.
  - intros Hc Hg Hempty.
    destruct (py_index_last_nonempty convs Hc) as (c & ->).
    unfold rbind at 1.
    destruct pools as [| p0 pools'].
    + destruct global_pool as [g |]; [|reflexivity].
      simpl in Hg. destruct (String.eqb g "max"); [reflexivity|].
      destruct (String.eqb g "avg"); [reflexivity | discriminate Hg].
    + destruct Hempty as [Hp | ->]; [discriminate Hp|].
      destruct (py_index_last_nonempty (p0 :: pools')) as (p & Hp);
        [discriminate|].
      destruct global_pool as [g |].
      * simpl in Hg. rewrite Hp.
        destruct (String.eqb g "max").
        { simpl. rewrite (new_GlobalPool_accept B accept). reflexivity. }
        destruct (String.eqb g "avg"); [|discriminate Hg].
        simpl. rewrite (new_GlobalPool_accept B accept). reflexivity.
      * rewrite Hp. reflexivity.
  - intros Hc Hg Hp Hf.
    destruct (py_index_last_nonempty convs Hc) as (c & ->).
    destruct (py_index_last_nonempty pools Hp) as (p & Hpool).
    unfold rbind at 1.
    assert (Hfirst : exists first, py_index fcs 0 = Ok first).
    { destruct fcs as [| f fcs']; [contradiction|]. exists f. reflexivity. }
    destruct Hfirst as (first & Hfirst).
    assert (Htail : forall gp last,
               is_ok (rbind (py_index fcs 0)
                        (fun first =>
                           let fcs := if first =? last then py_tail fcs else fcs in
                           rbind (rfold (encoder_fc B) fcs ([], [], last))
                             (fun '(ls, bns, _) =>
                                Ok ({| fh_fcs := ls; fh_fcs_bn := bns |},
                                    gp : option GlobalPool)))) = true).
    { intros gp last. rewrite Hfirst. simpl.
      apply is_ok_rbind; [apply encoder_fc_loop_accept|].
      intros [[ls bns] l'] _. reflexivity. }
    destruct global_pool as [g |].
    + simpl in Hg. rewrite Hpool.
      destruct (String.eqb g "max").
      { simpl. rewrite (new_GlobalPool_accept B accept). simpl. apply Htail. }
      destruct (String.eqb g "avg"); [|discriminate Hg].
      simpl. rewrite (new_GlobalPool_accept B accept). simpl. apply Htail.
    + rewrite Hpool. simpl. apply Htail.
Qed.

(** X15. What [MeshEncoder.__init__] does with its head arguments, once
    the stage loop has run: when the layer constructors accept their
    arguments, the attention arguments pass their checks and, with
    attention heads, the channel count per head [int(c / attn_n_heads)] can
    be computed for the output channels [c] of every stage (the division
    raises in the loop otherwise).  Without [fcs] it returns an encoder
    with neither head nor global pool, whatever [global_pool] is, an
    unknown name included.  With [fcs]: an empty [convs] is an index error;
    else a [global_pool] other than 'max' and 'avg' is the assertion error
    naming it, even when [pools] or [fcs] is empty; else an empty [pools]
    or an empty [fcs] is an index error; else the encoder is built. *)
Theorem MeshEncoder_init_head_arguments :
  forall pools convs blocks a,
    attn_args_ok a = true ->
    head_sizes_ok a convs = true ->
    (forall global_pool,
        exists e,
          MeshEncoder_init B pools convs None blocks global_pool a = Ok e /\
          me_fcs e = None /\ me_global_pool e = None) /\
    (forall fcs global_pool,
        convs = [] ->
        MeshEncoder_init B pools convs (Some fcs) blocks global_pool a
        = Err IndexError) /\
    (forall fcs g,
        convs <> [] ->
        known_global_pool (Some g) = false ->
        MeshEncoder_init B pools convs (Some fcs) blocks (Some g) a
        = Err (AssertionError (global_pool_msg g))) /\
    (forall fcs global_pool,
        convs <> [] ->
        known_global_pool global_pool = true ->
        pools = [] \/ fcs = [] ->
        MeshEncoder_init B pools convs (Some fcs) blocks global_pool a
        = Err IndexError) /\
    (forall fcs global_pool,
        convs <> [] ->
        known_global_pool global_pool = true ->
        pools <> [] -> fcs <> [] ->
        is_ok (MeshEncoder_init B pools convs (Some fcs) blocks global_pool a)
        = true).
Proof.
  intros pools convs blocks a Ha Hsizes.
  destruct (MeshEncoder_init_after_stages pools convs blocks a Ha Hsizes)
    as (stages & Hinit).
  split; [|split; [|split; [|split]]].
  - intro global_pool. rewrite Hinit. eexists. split; [reflexivity|].
    split; reflexivity.
  - intros fcs global_pool Hc. rewrite Hinit.
    destruct (encoder_head_returns_iff pools convs fcs global_pool)
      as (H & _). rewrite (H Hc). reflexivity.
  - intros fcs g Hc Hg. rewrite Hinit.
    destruct (encoder_head_returns_iff pools convs fcs (Some g))
      as (_ & H & _). rewrite (H Hc g eq_refl Hg). reflexivity.
  - intros fcs global_pool Hc Hg He. rewrite Hinit.
    destruct (encoder_head_returns_iff pools convs fcs global_pool)
      as (_ & _ & H & _). rewrite (H Hc Hg He). reflexivity.
  - intros fcs global_pool Hc Hg Hp Hf. rewrite Hinit.
    destruct (encoder_head_returns_iff pools convs fcs global_pool)
      as (_ & _ & _ & H). specialize (H Hc Hg Hp Hf).
    destruct (encoder_head B pools convs fcs global_pool) as [[h gp] | e];
      [reflexivity | discriminate H].
Qed.

End HeadConstruction.

Lemma MeshEncoder_init_head_arguments_witness :
  let a := mkAttnArgs (Some 4) None (Some PrimFloat.zero) (Some true) None
                      None None None in
  attn_args_ok a = true /\
  head_sizes_ok a [5; 16] = true /\
  MeshEncoder_init SymBackend [] [5; 16] (Some []) 0 (Some "sum"%string) a
  = Err (AssertionError "global_pool sum is not defined").
Proof.
  intro a. split; [reflexivity|]. split; [reflexivity|].
  destruct (MeshEncoder_init_head_arguments SymBackend (fun _ => eq_refl)
              [] [5; 16] 0 a eq_refl eq_refl) as (_ & _ & H & _).
  apply (H [] "sum"%string); [discriminate | reflexivity].
Defined.

(** ** The classifiers: what the constructors build *)

Lemma new_BatchNorm2d_ok (B : Backend) (n : Z) (l : BatchNorm2d) :
  new_BatchNorm2d B n = Ok l -> l = mkBatchNorm2d n.
Proof.
  unfold new_BatchNorm2d. intro H. unbind H. inversion H. reflexivity.
Qed.

Lemma new_NormLayer_ok (B : Backend) (f : NormFactory) (a : NormArgs)
    (l : NormLayer) :
  new_NormLayer B f a = Ok l -> l = mkNormLayer f a.
Proof.
  unfold new_NormLayer. intro H. unbind H. inversion H. reflexivity.
Qed.

Lemma new_MeshAttention_ok (B : Backend) (a l : MeshAttention) :
  new_MeshAttention B a = Ok l -> l = a.
Proof.
  unfold new_MeshAttention. intro H. unbind H. inversion H. reflexivity.
Qed.

Lemma new_GlobalPool_ok (B : Backend) (g l : GlobalPool) :
  new_GlobalPool B g = Ok l -> l = g.
Proof.
  unfold new_GlobalPool. intro H. unbind H. inversion H. reflexivity.
Qed.

Lemma MResConv_init_object (B : Backend) (cin cout skips : Z) (r : MResConv) :
  MResConv_init B cin cout skips = Ok r -> r = MResConv_object cin cout skips.
Proof.
  unfold MResConv_init. intro H.
  apply rbind_ok in H. destruct H as (conv0 & Hconv0 & H).
  apply rbind_ok in H. destruct H as (blocks & Hblocks & H).
  inversion H; subst r; clear H.
  apply new_MeshConv_ok in Hconv0. subst conv0.
  apply (rrepeat_const _ (mkBatchNorm2d cout, mkMeshConv cout cout (Some false)))
    in Hblocks.
  - subst blocks. reflexivity.
  - intros [bn conv] Hx. unbind Hx. inversion Hx; subst.
    apply new_BatchNorm2d_ok in Hx0. apply new_MeshConv_ok in Hx1.
    subst. reflexivity.
Qed.

Lemma Forall2_nth_error {A T : Type} (P : A -> T -> Prop) (l : list A)
    (ts : list T) :
  Forall2 P l ts ->
  length ts = length l /\
  forall j t, nth_error ts j = Some t ->
              exists x, nth_error l j = Some x /\ P x t.
Proof.
  induction 1 as [| x t l' ts' Hxt Hrest [IHlen IH]].
  - split; [reflexivity|]. intros [| j] t Hj; discriminate Hj.
  - split; [simpl; rewrite IHlen; reflexivity|].
    intros [| j] t' Hj; simpl in Hj.
    + inversion Hj; subst. exists x. auto.
    + apply IH in Hj. exact Hj.
Qed.

Lemma nth_error_enumerate_from {A : Type} (l : list A) :
  forall (s j : nat) (ix : Z * A),
    nth_error (combine (map Z.of_nat (seq s (length l))) l) j = Some ix ->
    fst ix = Z.of_nat (s + j) /\ nth_error l j = Some (snd ix).
Proof.
  induction l as [| a l IH]; intros s j ix H.
  - destruct j; discriminate H.
  - destruct j as [| j]; simpl in H.
    + inversion H; subst. simpl. rewrite Nat.add_0_r. auto.
    + apply IH in H. destruct H as [Hi Hx]. split; [|exact Hx].
      rewrite Hi. f_equal. lia.
Qed.

Lemma nth_error_py_enumerate {A : Type} (l : list A) (j : nat) (ix : Z * A) :
  nth_error (py_enumerate l) j = Some ix ->
  fst ix = Z.of_nat j /\ nth_error l j = Some (snd ix).
Proof.
  unfold py_enumerate, py_range, len. rewrite Nat2Z.id.
  apply (nth_error_enumerate_from l 0 j ix).
Qed.

Lemma nth_error_removelast {A : Type} (l : list A) :
  forall j x, nth_error (removelast l) j = Some x -> nth_error l j = Some x.
Proof.
  induction l as [| a l IH]; intros j x H.
  - destruct j; discriminate H.
  - destruct l as [| b l'].
    + destruct j; discriminate H.
    + destruct j as [| j].
      * exact H.
      * change (nth_error (removelast (b :: l')) j = Some x) in H.
        apply IH in H. exact H.
Qed.

Lemma py_index_nat_ok {A : Type} (l : list A) (n : nat) (a : A) :
  py_index l (Z.of_nat n) = Ok a -> nth_error l n = Some a.
Proof.
  rewrite py_index_nat. destruct (nth_error l n); intro H; inversion H.
  reflexivity.
Qed.

(** What the construction loop of the two classifiers builds. *)
Lemma classifier_loop_objects (B : Backend) (k res : list Z)
    (norm_layer : NormFactory) (norm_args : list NormArgs) (nresblocks : Z)
    (attention : option (Z -> result MeshAttention))
    (stages : list ClassifierStage) :
  rfold (classifier_stage B k res norm_layer norm_args nresblocks attention)
        (py_enumerate (py_init k)) [] = Ok stages ->
  length stages = length (py_init k) /\
  forall j s,
    nth_error stages j = Some s ->
    exists ki knext args target,
      nth_error k j = Some ki /\
      nth_error k (S j) = Some knext /\
      nth_error norm_args j = Some args /\
      nth_error res (S j) = Some target /\
      cs_conv s = MResConv_object ki knext nresblocks /\
      cs_norm s = mkNormLayer norm_layer args /\
      cs_pool s = mkMeshPool target /\
      match attention with
      | None => cs_attention s = None
      | Some mk => exists a, mk knext = Ok a /\ cs_attention s = Some a
      end.
Proof.
  intro H.
  apply (rfold_snoc _
           (fun (iki : Z * Z) s =>
              exists knext args target,
                py_index k (fst iki + 1) = Ok knext /\
                py_index norm_args (fst iki) = Ok args /\
                py_index res (fst iki + 1) = Ok target /\
                cs_conv s = MResConv_object (snd iki) knext nresblocks /\
                cs_norm s = mkNormLayer norm_layer args /\
                cs_pool s = mkMeshPool target /\
                match attention with
                | None => cs_attention s = None
                | Some mk => exists a, mk knext = Ok a /\ cs_attention s = Some a
                end)) in H.
  - destruct H as (ts & -> & Hts). simpl.
    apply Forall2_nth_error in Hts. destruct Hts as [Hlen Hnth].
    split.
    { rewrite Hlen. unfold py_enumerate. rewrite length_combine.
      unfold py_range, len. rewrite length_map, length_seq, Nat2Z.id.
      apply Nat.min_id. }
    intros j s Hs. apply Hnth in Hs.
    destruct Hs as ([i ki] & Hix & knext & args & target & Hk & Ha & Hr & Hs).
    apply nth_error_py_enumerate in Hix. simpl in Hix, Hk, Ha, Hr, Hs.
    destruct Hix as [-> Hki].
    apply nth_error_removelast in Hki.
    replace (Z.of_nat j + 1) with (Z.of_nat (S j)) in Hk, Hr by lia.
    apply py_index_nat_ok in Hk, Ha, Hr.
    exists ki, knext, args, target. auto.
  - intros [i ki] acc acc' _ Hbody. unfold classifier_stage in Hbody.
    apply rbind_ok in Hbody. destruct Hbody as (knext & Hknext & Hbody).
    apply rbind_ok in Hbody. destruct Hbody as (conv & Hconv & Hbody).
    apply rbind_ok in Hbody. destruct Hbody as (args & Hargs & Hbody).
    apply rbind_ok in Hbody. destruct Hbody as (norm & Hnorm & Hbody).
    apply rbind_ok in Hbody. destruct Hbody as (att & Hatt & Hbody).
    apply rbind_ok in Hbody. destruct Hbody as (target & Htarget & Hbody).
    apply rbind_ok in Hbody. destruct Hbody as (pool & Hpool & Hbody).
    inversion Hbody; subst acc'; clear Hbody.
    eexists. split; [reflexivity|]. simpl.
    apply MResConv_init_object in Hconv. apply new_NormLayer_ok in Hnorm.
    apply new_MeshPool_ok in Hpool. subst.
    exists knext, args, target.
    repeat (split; [assumption || reflexivity|]).
    destruct attention as [mk |].
    + apply rbind_ok in Hatt. destruct Hatt as (knext' & Hknext' & Hatt).
      apply rbind_ok in Hatt. destruct Hatt as (a & Ha & Hatt).
      inversion Hatt; subst att. rewrite Hknext in Hknext'.
      inversion Hknext'; subst knext'. exists a. auto.
    + inversion Hatt. reflexivity.
Qed.

(** [get_norm_args] builds the arguments of each width on its own. *)
Lemma get_norm_args_pointwise (f : NormFactory) (nfeats : list Z)
    (args : list NormArgs) :
  get_norm_args f nfeats = Ok args ->
  length args = length nfeats /\
  forall j n a, nth_error nfeats j = Some n -> nth_error args j = Some a ->
                get_norm_args f [n] = Ok [a].
Proof.
  assert (Hmap : forall (g : Z -> NormArgs) j n a,
             nth_error nfeats j = Some n ->
             nth_error (map g nfeats) j = Some a -> a = g n).
  { intros g j n a Hn Ha. rewrite nth_error_map, Hn in Ha.
    inversion Ha. reflexivity. }
  destruct f; simpl; intro H; inversion H; subst args;
    (split; [apply length_map|]); intros j n a Hn Ha;
    rewrite (Hmap _ j n a Hn Ha); reflexivity.
Qed.

Lemma last_cons_default {A : Type} (l : list A) :
  forall a d : A, last (a :: l) d = last l a.
Proof.
  induction l as [| b l IH]; intros a d; [reflexivity|].
  change (last (a :: b :: l) d) with (last (b :: l) d).
  rewrite (IH b d). symmetry. apply (IH b a).
Qed.

Lemma last_nth_error {A : Type} (l : list A) (d : A) :
  nth_error (d :: l) (length l) = Some (last l d).
Proof.
  revert d. induction l as [| a l IH]; intro d; [reflexivity|].
  change (nth_error (a :: l) (length l) = Some (last (a :: l) d)).
  rewrite IH, last_cons_default. reflexivity.
Qed.

Lemma py_index_last_cons {A : Type} (l : list A) (d a : A) :
  py_index (d :: l) (-1) = Ok a -> a = last l d.
Proof.
  intro H. change (-1) with (- Z.of_nat 1) in H.
  rewrite (py_index_from_end (d :: l) 1) in H by lia.
  change (1 <=? length (d :: l))%nat with true in H.
  replace (length (d :: l) - 1)%nat with (length l) in H by (simpl; lia).
  rewrite last_nth_error in H. inversion H. reflexivity.
Qed.

Section ClassifierObjects.

Context (B : Backend).

Lemma MeshConvNet_init_built :
  forall norm_layer nf0 conv_res nclasses input_res pool_res fc_n nresblocks
         net,
    MeshConvNet_init B norm_layer nf0 conv_res nclasses input_res pool_res
                     fc_n nresblocks = Ok net ->
    cn_k net = nf0 :: conv_res /\
    length (cn_stages net) = length conv_res /\
    (forall i s,
        nth_error (cn_stages net) i = Some s ->
        exists ki knext target,
          nth_error (nf0 :: conv_res) i = Some ki /\
          nth_error conv_res i = Some knext /\
          nth_error pool_res i = Some target /\
          cs_conv s = MResConv_object ki knext nresblocks /\
          nl_factory (cs_norm s) = norm_layer /\
          get_norm_args norm_layer [knext] = Ok [nl_args (cs_norm s)] /\
          cs_attention s = None /\
          cs_pool s = mkMeshPool target) /\
    cn_gp net = AvgPool1d (last pool_res input_res) /\
    cn_fc1 net = mkLinear (last conv_res nf0) fc_n /\
    cn_fc2 net = mkLinear fc_n nclasses.
Proof.
  intros until net. intro H. unfold MeshConvNet_init in H.
  apply rbind_ok in H. destruct H as (norm_args & Hargs & H).
  apply rbind_ok in H. destruct H as (stages & Hstages & H).
  apply rbind_ok in H. destruct H as (last_res & Hres & H).
  apply rbind_ok in H. destruct H as (gp & Hgp & H).
  apply rbind_ok in H. destruct H as (last_k & Hk & H).
  apply rbind_ok in H. destruct H as (fc1 & Hfc1 & H).
  apply rbind_ok in H. destruct H as (fc2 & Hfc2 & H).
  inversion H; subst net; clear H. simpl.
  apply classifier_loop_objects in Hstages.
  destruct Hstages as [Hlen Hnth].
  apply get_norm_args_pointwise in Hargs. destruct Hargs as [_ Hargs].
  apply new_GlobalPool_ok in Hgp. apply new_Linear_ok in Hfc1, Hfc2.
  apply py_index_last_cons in Hres, Hk. subst.
  split; [reflexivity|].
  split; [rewrite Hlen; apply length_py_init|].
  split; [|auto].
  intros i s Hs. apply Hnth in Hs.
  destruct Hs as (ki & knext & args & target & Hki & Hknext & Ha & Ht
                  & Hconv & Hnorm & Hpool & Hatt).
  exists ki, knext, target. rewrite Hnorm. simpl.
  repeat (split; [assumption || reflexivity|]).
  split; [exact (Hargs i knext args Hknext Ha)|]. auto.
Qed.

(** X16. A built [MeshConvNet] has one stage per entry of [conv_res].
    Stage [i] holds a residual convolution from [k[i]] to [k[i + 1]]
    channels, for [k = [nf0] + conv_res], with [nresblocks] blocks, the
    normalisation layer of the factory with the arguments [get_norm_args]
    gives for [k[i + 1]], and a pooling layer to [pool_res[i]].  The global
    average pool has the last entry of [[input_res] + pool_res] as its
    window, and the two linear layers map the last entry of [k] to [fc_n]
    and [fc_n] to [nclasses]. *)
Theorem MeshConvNet_init_layers :
  forall norm_layer nf0 conv_res nclasses input_res pool_res fc_n nresblocks
         net,
    MeshConvNet_init B norm_layer nf0 conv_res nclasses input_res pool_res
                     fc_n nresblocks = Ok net ->
    cn_k net = nf0 :: conv_res /\
    length (cn_stages net) = length conv_res /\
    (forall i s,
        nth_error (cn_stages net) i = Some s ->
        exists ki knext target,
          nth_error (nf0 :: conv_res) i = Some ki /\
          nth_error conv_res i = Some knext /\
          nth_error pool_res i = Some target /\
          cs_conv s = MResConv_object ki knext nresblocks /\
          nl_factory (cs_norm s) = norm_layer /\
          get_norm_args norm_layer [knext] = Ok [nl_args (cs_norm s)] /\
          cs_attention s = None /\
          cs_pool s = mkMeshPool target) /\
    cn_gp net = AvgPool1d (last pool_res input_res) /\
    cn_fc1 net = mkLinear (last conv_res nf0) fc_n /\
    cn_fc2 net = mkLinear fc_n nclasses.
Proof.
  exact MeshConvNet_init_built.
Qed.

Lemma MeshAttentionNet_init_built :
  forall norm_layer nf0 conv_res nclasses input_res pool_res fc_n heads
         nresblocks a net,
    MeshAttentionNet_init B norm_layer nf0 conv_res nclasses input_res
                          pool_res fc_n heads nresblocks a = Ok net ->
    an_k net = nf0 :: conv_res /\
    length (an_stages net) = length conv_res /\
    (forall i s,
        nth_error (an_stages net) i = Some s ->
        heads <> 0 /\
        exists ki knext target,
          nth_error (nf0 :: conv_res) i = Some ki /\
          nth_error conv_res i = Some knext /\
          nth_error pool_res i = Some target /\
          cs_conv s = MResConv_object ki knext nresblocks /\
          nl_factory (cs_norm s) = norm_layer /\
          get_norm_args norm_layer [knext] = Ok [nl_args (cs_norm s)] /\
          (exists head_size,
              py_int_div knext heads = Ok head_size /\
              (Z.abs knext < 2 ^ 53 -> head_size = Z.quot knext heads) /\
              cs_attention s
              = Some {| ma_n_head := heads; ma_d_model := knext;
                        ma_d_k := head_size; ma_d_v := head_size;
                        ma_attn_max_dist := attn_max_dist a;
                        ma_dropout := attn_dropout a;
                        ma_use_values_as_is := attn_use_values_as_is a;
                        ma_use_positional_encoding :=
                          attn_use_positional_encoding a;
                        ma_max_relative_position :=
                          attn_max_relative_position a |}) /\
          cs_pool s = mkMeshPool target) /\
    an_prioritize_with_attention net = prioritize_with_attention a /\
    an_double_attention net = double_attention a /\
    an_use_values_as_is net = attn_use_values_as_is a /\
    (truthy (an_double_attention net) = true ->
     truthy (an_use_values_as_is net) = true) /\
    an_gp net = AvgPool1d (last pool_res input_res) /\
    an_fc1 net = mkLinear (last conv_res nf0) fc_n /\
    an_fc2 net = mkLinear fc_n nclasses.
Proof.
  intros until net. intro H. unfold MeshAttentionNet_init in H.
  apply rbind_ok in H. destruct H as (u & Hassert & H).
  apply rbind_ok in H. destruct H as (norm_args & Hargs & H).
  apply rbind_ok in H. destruct H as (stages & Hstages & H).
  apply rbind_ok in H. destruct H as (last_res & Hres & H).
  apply rbind_ok in H. destruct H as (gp & Hgp & H).
  apply rbind_ok in H. destruct H as (last_k & Hk & H).
  apply rbind_ok in H. destruct H as (fc1 & Hfc1 & H).
  apply rbind_ok in H. destruct H as (fc2 & Hfc2 & H).
  inversion H; subst net; clear H. simpl.
  apply classifier_loop_objects in Hstages.
  destruct Hstages as [Hlen Hnth].
  apply get_norm_args_pointwise in Hargs. destruct Hargs as [_ Hargs].
  apply new_GlobalPool_ok in Hgp. apply new_Linear_ok in Hfc1, Hfc2.
  apply py_index_last_cons in Hres, Hk. subst.
  split; [reflexivity|].
  split; [rewrite Hlen; apply length_py_init|].
  split.
  - intros i s Hs. apply Hnth in Hs.
    destruct Hs as (ki & knext & args & target & Hki & Hknext & Ha & Ht
                    & Hconv & Hnorm & Hpool & att & Hatt & Hsatt).
    unfold classifier_attention in Hatt.
    apply rbind_ok in Hatt. destruct Hatt as (d_k & Hdk & Hatt).
    apply rbind_ok in Hatt. destruct Hatt as (d_v & Hdv & Hatt).
    rewrite Hdk in Hdv. inversion Hdv; subst d_v.
    pose proof (py_int_div_divisor _ _ _ Hdk) as Hheads.
    split; [exact Hheads|].
    apply new_MeshAttention_ok in Hatt. subst att.
    exists ki, knext, target. rewrite Hnorm. simpl.
    repeat (split; [assumption || reflexivity|]).
    split; [exact (Hargs i knext args Hknext Ha)|].
    split; [|exact Hpool].
    exists d_k. split; [exact Hdk|]. split; [|exact Hsatt].
    intro Hsmall. rewrite (py_int_div_exact knext heads Hheads Hsmall) in Hdk.
    inversion Hdk. reflexivity.
  - repeat (split; [reflexivity|]).
    split; [|auto].
    intro Hd. rewrite Hd in Hassert. unfold py_assert in Hassert.
    destruct (truthy (attn_use_values_as_is a)); [reflexivity|].
    discriminate Hassert.
Qed.

(** X17. A built [MeshAttentionNet] has the stages of a [MeshConvNet] of
    the same arguments, each with an attention layer on [k[i + 1]]
    channels: [attn_n_heads] heads, not zero, of [int(k[i + 1] /
    attn_n_heads)] channels each, with the attention options as given.  The
    channel count per head is the float nearest to the quotient, truncated:
    the integer quotient rounded toward zero when [k[i + 1]] is below
    [2^53] in absolute value.  The net keeps the three flags its forward
    pass reads, and double attention comes with values used as they are. *)
Theorem MeshAttentionNet_init_layers :
  forall norm_layer nf0 conv_res nclasses input_res pool_res fc_n heads
         nresblocks a net,
    MeshAttentionNet_init B norm_layer nf0 conv_res nclasses input_res
                          pool_res fc_n heads nresblocks a = Ok net ->
    an_k net = nf0 :: conv_res /\
    length (an_stages net) = length conv_res /\
    (forall i s,
        nth_error (an_stages net) i = Some s ->
        heads <> 0 /\
        exists ki knext target,
          nth_error (nf0 :: conv_res) i = Some ki /\
          nth_error conv_res i = Some knext /\
          nth_error pool_res i = Some target /\
          cs_conv s = MResConv_object ki knext nresblocks /\
          nl_factory (cs_norm s) = norm_layer /\
          get_norm_args norm_layer [knext] = Ok [nl_args (cs_norm s)] /\
          (exists head_size,
              py_int_div knext heads = Ok head_size /\
              (Z.abs knext < 2 ^ 53 -> head_size = Z.quot knext heads) /\
              cs_attention s
              = Some {| ma_n_head := heads; ma_d_model := knext;
                        ma_d_k := head_size; ma_d_v := head_size;
                        ma_attn_max_dist := attn_max_dist a;
                        ma_dropout := attn_dropout a;
                        ma_use_values_as_is := attn_use_values_as_is a;
                        ma_use_positional_encoding :=
                          attn_use_positional_encoding a;
                        ma_max_relative_position :=
                          attn_max_relative_position a |}) /\
          cs_pool s = mkMeshPool target) /\
    an_prioritize_with_attention net = prioritize_with_attention a /\
    an_double_attention net = double_attention a /\
    an_use_values_as_is net = attn_use_values_as_is a /\
    (truthy (an_double_attention net) = true ->
     truthy (an_use_values_as_is net) = true) /\
    an_gp net = AvgPool1d (last pool_res input_res) /\
    an_fc1 net = mkLinear (last conv_res nf0) fc_n /\
    an_fc2 net = mkLinear fc_n nclasses.
Proof.
  exact MeshAttentionNet_init_built.
Qed.

End ClassifierObjects.

Lemma MeshConvNet_init_layers_witness :
  exists net,
    MeshConvNet_init SymBackend (PartialGroupNorm 16) 5 [64; 128; 256] 30 750
                     [600; 450; 300; 180] 100 1 = Ok net /\
    length (cn_stages net) = 3%nat /\
    cn_gp net = AvgPool1d 180 /\
    cn_fc1 net = mkLinear 256 100.
Proof.
  eexists. split; [reflexivity|].
  match goal with
  | |- length (cn_stages ?n) = _ /\ _ =>
      destruct (MeshConvNet_init_layers SymBackend (PartialGroupNorm 16) 5
                  [64; 128; 256] 30 750 [600; 450; 300; 180] 100 1 n eq_refl)
        as (_ & Hlen & _ & Hgp & Hfc1 & _)
  end.
  split; [exact Hlen|]. split; [exact Hgp | exact Hfc1].
Defined.

Lemma MeshAttentionNet_init_layers_witness :
  exists net s,
    MeshAttentionNet_init SymBackend NoNormClass 5 [64; 130] 30 750
      [600; 450] 100 4 1
      (mkAttnArgs (Some 4) None None (Some true) (Some true) (Some true) None
                  None) = Ok net /\
    nth_error (an_stages net) 1 = Some s /\
    option_map ma_d_k (cs_attention s) = Some 32 /\
    cs_pool s = mkMeshPool 450.
Proof.
  destruct (MeshAttentionNet_init SymBackend NoNormClass 5 [64; 130] 30 750
              [600; 450] 100 4 1
              (mkAttnArgs (Some 4) None None (Some true) (Some true)
                          (Some true) None None)) as [net | err] eqn:Hnet;
    [|vm_compute in Hnet; discriminate Hnet].
  destruct (MeshAttentionNet_init_layers SymBackend _ _ _ _ _ _ _ _ _ _ net
              Hnet) as (_ & Hlen & H & _).
  destruct (nth_error (an_stages net) 1) as [s |] eqn:Hs.
  - destruct (H 1%nat s Hs)
      as (_ & ki & knext & target & _ & Hknext & Htarget & _ & _ & _
          & (head_size & _ & Hquot & Hatt) & Hpool).
    simpl in Hknext, Htarget. inversion Hknext; subst knext.
    inversion Htarget; subst target.
    exists net, s. split; [reflexivity|]. split; [exact Hs|].
    split; [|exact Hpool].
    rewrite Hatt. simpl. rewrite Hquot by reflexivity. reflexivity.
  - apply nth_error_None in Hs. rewrite Hlen in Hs. simpl in Hs. lia.
Defined.

(** ** The classifiers: forward passes *)

Lemma py_getattr_repeat {A : Type} (name : string) (a : A) (n : nat) (i : Z) :
  1 <= i -> (Z.to_nat (i - 1) < n)%nat ->
  py_getattr name 1 (repeat a n) i = Ok a.
Proof.
  intros Hi Hn. unfold py_getattr.
  destruct (Z.ltb_spec i 1) as [H | _]; [lia|].
  rewrite nth_error_repeat by exact Hn. reflexivity.
Qed.

Lemma py_getattr_stage {A : Type} (name : string) (l : list A) (i : Z) (a : A) :
  py_getattr name 0 l i = Ok a -> 0 <= i /\ nth_error l (Z.to_nat i) = Some a.
Proof.
  unfold py_getattr. destruct (Z.ltb_spec i 0) as [H | H]; [discriminate|].
  rewrite Z.sub_0_r. destruct (nth_error l (Z.to_nat i)); intro E; inversion E.
  auto.
Qed.

Lemma py_getattr_stage_nat {A : Type} (name : string) (l : list A) (j : nat) :
  py_getattr name 0 l (Z.of_nat j)
  = match nth_error l j with
    | Some a => Ok a
    | None => Err (AttributeError (indexed_name name (Z.of_nat j)))
    end.
Proof.
  unfold py_getattr. destruct (Z.ltb_spec (Z.of_nat j) 0) as [H | _]; [lia|].
  rewrite Z.sub_0_r, Nat2Z.id. reflexivity.
Qed.

Section ClassifierReturns.

Context (B : Backend) (ops : ClassifierOps B).
Hypothesis total : BackendTotal B.
Hypothesis ops_total : ClassifierOpsTotal B ops.

Lemma mfold_returns {A S : Type} (body : A -> S -> M B S) (l : list A) :
  (forall x acc m, In x l -> is_ok (body x acc m) = true) ->
  forall acc m, is_ok (mfold B body l acc m) = true.
Proof.
  induction l as [| x rest IH]; intros Hbody acc m; [reflexivity|].
  simpl. apply (bind_returns B).
  - apply Hbody. left. reflexivity.
  - intros acc' m1. apply IH. intros y a m2 Hin. apply Hbody. right. exact Hin.
Qed.

Lemma MResConv_block_returns (cin cout skips i : Z) (x : Tensor B)
    (m : Meshes B) :
  0 <= i < skips ->
  is_ok (MResConv_block B ops (MResConv_object cin cout skips) i x m) = true.
Proof.
  intros Hi. unfold MResConv_block. simpl mr_blocks.
  rewrite !py_getattr_repeat by lia.
  unfold bind at 1. simpl.
  apply (bind_returns B).
  - apply (lift_returns B). apply (batch_norm_total B ops ops_total).
  - intros y m1. apply (conv_total B total).
Qed.

Lemma MResConv_forward_returns (cin cout skips : Z) (x : Tensor B)
    (m : Meshes B) :
  is_ok (MResConv_forward B ops (MResConv_object cin cout skips) x m) = true.
Proof.
  unfold MResConv_forward. apply (bind_returns B).
  - apply (conv_total B total).
  - intros x1 m1. apply (bind_returns B).
    + apply mfold_returns. intros i acc m2 Hin. apply In_py_range in Hin.
      apply MResConv_block_returns. exact Hin.
    + intros y m2. apply (bind_returns B); [|reflexivity].
      apply (lift_returns B). apply (add_total B total).
Qed.

Lemma NormLayer_call_returns (n : NormLayer) (x : Tensor B) :
  is_ok (NormLayer_call B ops n x) = true.
Proof.
  unfold NormLayer_call.
  destruct (nl_factory n); try apply (torch_norm_total B ops ops_total).
  reflexivity.
Qed.

(** The stage the loop body reads at index [i] is the entry [i] of the
    list of stages. *)
Lemma classifier_features_stage (stages : list ClassifierStage) (i : Z)
    (x y : Tensor B) (s : ClassifierStage) (m m1 : Meshes B) :
  classifier_features B ops stages i x m = Ok ((s, y), m1) ->
  0 <= i /\ nth_error stages (Z.to_nat i) = Some s.
Proof.
  unfold classifier_features. intro H.
  apply (bind_ok B) in H. destruct H as (s' & m2 & Hs & H).
  apply (lift_ok B) in Hs. destruct Hs as [Hs _].
  apply (bind_ok B) in H. destruct H as (x1 & m3 & _ & H).
  apply (bind_ok B) in H. destruct H as (x2 & m4 & _ & H).
  inversion H; subst. apply (py_getattr_stage _ _ _ _ Hs).
Qed.

Lemma classifier_features_returns (stages : list ClassifierStage) (i : Z)
    (x : Tensor B) (m : Meshes B) :
  0 <= i < len stages ->
  (forall s, In s stages ->
             exists cin cout skips, cs_conv s = MResConv_object cin cout skips) ->
  is_ok (classifier_features B ops stages i x m) = true.
Proof.
  intros Hi Hwf. unfold classifier_features.
  destruct (nth_error stages (Z.to_nat i)) as [s |] eqn:Hs.
  - assert (Hget : py_getattr "conv" 0 stages i = Ok s).
    { unfold py_getattr. destruct (Z.ltb_spec i 0) as [H | _]; [lia|].
      rewrite Z.sub_0_r, Hs. reflexivity. }
    rewrite Hget. unfold bind at 1. simpl.
    destruct (Hwf s (nth_error_In _ _ Hs)) as (cin & cout & skips & ->).
    apply (bind_returns B); [apply MResConv_forward_returns|].
    intros y m1. apply (bind_returns B); [|reflexivity].
    apply (lift_returns B). apply NormLayer_call_returns.
  - apply nth_error_None in Hs. unfold len in Hi. lia.
Qed.

Lemma classifier_tail_returns (k : list Z) (gp : GlobalPool) (fc1 fc2 : Linear)
    (x : Tensor B) :
  k <> [] -> is_ok (classifier_tail B ops k gp fc1 fc2 x) = true.
Proof.
  intro Hk. unfold classifier_tail.
  apply is_ok_rbind; [apply (global_pool_total B total)|]. intros y _.
  destruct (py_index_last_nonempty k Hk) as (last_k & ->). simpl.
  apply is_ok_rbind; [apply (view_total B ops ops_total)|]. intros z _.
  apply is_ok_rbind; [apply (linear_total B total)|]. intros w _.
  apply (linear_total B total).
Qed.

Lemma MeshConvNet_forward_built_returns (norm_layer : NormFactory) (nf0 : Z)
    (conv_res : list Z) (nclasses input_res : Z) (pool_res : list Z)
    (fc_n nresblocks : Z) (net : MeshConvNet) (x : Tensor B) (m : Meshes B) :
  MeshConvNet_init B norm_layer nf0 conv_res nclasses input_res pool_res
                   fc_n nresblocks = Ok net ->
  is_ok (MeshConvNet_forward B ops net x m) = true.
Proof.
  intro H. apply MeshConvNet_init_built in H.
  destruct H as (Hk & Hlen & Hnth & _).
  unfold MeshConvNet_forward. rewrite Hk.
  apply (bind_returns B).
  - apply mfold_returns. intros i acc m1 Hin. apply In_py_range in Hin.
    unfold MeshConvNet_stage.
    assert (Hf : is_ok (classifier_features B ops (cn_stages net) i acc m1)
                 = true).
    { apply classifier_features_returns.
      - unfold len in *. rewrite Hlen. simpl length in Hin. lia.
      - intros s Hs. apply In_nth_error in Hs. destruct Hs as (j & Hs).
        destruct (Hnth j s Hs) as (ki & knext & target & _ & _ & _ & Hc & _).
        eauto. }
    unfold bind.
    destruct (classifier_features B ops (cn_stages net) i acc m1)
      as [[[s y] m2] | e]; [|discriminate Hf].
    apply (pool_total B total).
  - intros y m1. apply (lift_returns B). apply classifier_tail_returns.
    discriminate.
Qed.

Lemma MeshAttentionNet_forward_built_returns (norm_layer : NormFactory)
    (nf0 : Z) (conv_res : list Z) (nclasses input_res : Z) (pool_res : list Z)
    (fc_n heads nresblocks : Z) (a : AttnArgs) (net : MeshAttentionNet)
    (x : Tensor B) (m : Meshes B) :
  MeshAttentionNet_init B norm_layer nf0 conv_res nclasses input_res pool_res
                        fc_n heads nresblocks a = Ok net ->
  is_ok (MeshAttentionNet_forward B ops net x m) = true.
Proof.
  intro H. apply MeshAttentionNet_init_built in H.
  destruct H as (Hk & Hlen & Hnth & _).
  unfold MeshAttentionNet_forward. rewrite Hk.
  apply (bind_returns B).
  - apply mfold_returns. intros i acc m1 Hin. apply In_py_range in Hin.
    unfold MeshAttentionNet_stage.
    assert (Hf : is_ok (classifier_features B ops (an_stages net) i acc m1)
                 = true).
    { apply classifier_features_returns.
      - unfold len in *. rewrite Hlen. simpl length in Hin. lia.
      - intros s Hs. apply In_nth_error in Hs. destruct Hs as (j & Hs).
        destruct (Hnth j s Hs)
          as (_ & ki & knext & target & _ & _ & _ & Hc & _).
        eauto. }
    unfold bind at 1.
    destruct (classifier_features B ops (an_stages net) i acc m1)
      as [[[s y] m2] | e] eqn:E; [|discriminate Hf].
    apply classifier_features_stage in E. destruct E as [_ Hs].
    destruct (Hnth _ s Hs)
      as (_ & ki & knext & target & _ & _ & _ & _ & _ & _
          & (head_size & _ & _ & Hatt) & _).
    rewrite Hatt. unfold bind at 1. simpl.
    apply (bind_returns B); [apply (attention_total B total)|].
    intros [[[x2 attn] ape] dist] m3.
    apply (bind_returns B).
    + destruct (truthy (an_double_attention net)); [|reflexivity].
      apply (bind_returns B); [apply (attention_total B total)|].
      intros [[[x3 attn'] ape'] dist'] m4. reflexivity.
    + intros ape' m4. apply (pool_total B total).
  - intros y m1. apply (lift_returns B). apply classifier_tail_returns.
    discriminate.
Qed.

(** X18. The forward pass of a classifier built by its constructor raises
    only where a layer raises: on a backend whose operations do not raise,
    [MeshConvNet.forward] and [MeshAttentionNet.forward] return, for every
    input.  Every layer the loops look up by name, in the net and in its
    residual convolutions, has been set by the constructors, and [k] is not
    empty. *)
Theorem classifier_forward_returns :
  (forall norm_layer nf0 conv_res nclasses input_res pool_res fc_n nresblocks
          net x m,
      MeshConvNet_init B norm_layer nf0 conv_res nclasses input_res pool_res
                       fc_n nresblocks = Ok net ->
      is_ok (MeshConvNet_forward B ops net x m) = true) /\
  (forall norm_layer nf0 conv_res nclasses input_res pool_res fc_n heads
          nresblocks a net x m,
      MeshAttentionNet_init B norm_layer nf0 conv_res nclasses input_res
                            pool_res fc_n heads nresblocks a = Ok net ->
      is_ok (MeshAttentionNet_forward B ops net x m) = true).
Proof.
  split.
  - intros until m. apply MeshConvNet_forward_built_returns.
  - intros until m. apply MeshAttentionNet_forward_built_returns.
Qed.

End ClassifierReturns.

Lemma cls_backend_total : BackendTotal ClsBackend.
Proof. constructor; intros; reflexivity. Qed.

Lemma cls_ops_total : ClassifierOpsTotal ClsBackend ClsOps.
Proof. constructor; intros; reflexivity. Qed.

Lemma classifier_forward_returns_witness :
  exists net,
    MeshAttentionNet_init ClsBackend (PartialGroupNorm 16) 5 [64; 128] 30 750
      [600; 450] 100 4 3
      (mkAttnArgs (Some 4) None None (Some true) None None None None) = Ok net /\
    is_ok (MeshAttentionNet_forward ClsBackend ClsOps net (KInput 0) []) = true.
Proof.
  eexists. split; [reflexivity|].
  destruct (classifier_forward_returns ClsBackend ClsOps cls_backend_total
              cls_ops_total) as [_ H].
  apply (H (PartialGroupNorm 16) 5 [64; 128] 30 750 [600; 450] 100 4 3
           (mkAttnArgs (Some 4) None None (Some true) None None None None)).
  reflexivity.
Defined.

(** *** On the symbolic backend *)

Lemma cls_MResConv_blocks (cin cout skips : Z) (l : list Z) :
  (forall i, In i l -> 0 <= i < skips) ->
  forall (x : ClsTensor) (m : list MeshEvent),
    mfold ClsBackend
          (MResConv_block ClsBackend ClsOps (MResConv_object cin cout skips))
          l x m
    = Ok (Nat.iter (length l) (sym_res_block cout) x, m).
Proof.
  induction l as [| i rest IH]; intros Hl x m; [reflexivity|].
  simpl mfold. unfold bind at 1.
  assert (Hi : 0 <= i < skips) by (apply Hl; left; reflexivity).
  assert (Hblock : MResConv_block ClsBackend ClsOps
                     (MResConv_object cin cout skips) i x m
                   = Ok (sym_res_block cout x, m)).
  { unfold MResConv_block. simpl mr_blocks.
    rewrite !py_getattr_repeat by lia. reflexivity. }
  rewrite Hblock, IH by (intros j Hj; apply Hl; right; exact Hj).
  simpl length. rewrite Nat.iter_succ_r. reflexivity.
Qed.

Lemma cls_MResConv_forward (cin cout skips : Z) (x : ClsTensor)
    (m : list MeshEvent) :
  MResConv_forward ClsBackend ClsOps (MResConv_object cin cout skips) x m
  = Ok (sym_res_conv cin cout skips x, m).
Proof.
  unfold MResConv_forward. unfold bind at 1. simpl MeshConv_call.
  cbv beta iota. unfold bind at 1. simpl mr_skips.
  rewrite cls_MResConv_blocks by apply In_py_range.
  unfold py_range. rewrite length_map, length_seq. reflexivity.
Qed.

(** X19. What [MResConv.forward] computes, as a term of the symbolic
    backend: [conv0] is applied to the input; each of the [skips] blocks
    applies relu, its batch normalisation and its convolution, in this
    order; the output of [conv0], not the input, is added to the result,
    and relu is applied to the sum.  With [skips] zero or negative there is
    no block, and the output of [conv0] is added to itself.  The meshes are
    left as they are. *)
Theorem MResConv_forward_term :
  forall cin cout skips r (x : ClsTensor) (m : list MeshEvent),
    MResConv_init ClsBackend cin cout skips = Ok r ->
    let x1 := KMeshConv (mkMeshConv cin cout (Some false)) x in
    MResConv_forward ClsBackend ClsOps r x m
    = Ok (KRelu (KAdd (Nat.iter (Z.to_nat skips) (sym_res_block cout) x1) x1),
          m) /\
    (skips <= 0 ->
     MResConv_forward ClsBackend ClsOps r x m = Ok (KRelu (KAdd x1 x1), m)).
Proof.
  intros cin cout skips r x m H x1.
  apply MResConv_init_object in H. subst r.
  rewrite cls_MResConv_forward. split; [reflexivity|].
  intro Hs. unfold sym_res_conv.
  replace (Z.to_nat skips) with 0%nat by lia. reflexivity.
Qed.

Lemma MResConv_forward_term_witness :
  MResConv_forward ClsBackend ClsOps (MResConv_object 5 64 1) (KInput 0) []
  = Ok (KRelu
          (KAdd (KMeshConv (mkMeshConv 64 64 (Some false))
                   (KBatchNorm2d (mkBatchNorm2d 64)
                      (KRelu (KMeshConv (mkMeshConv 5 64 (Some false))
                                (KInput 0)))))
                (KMeshConv (mkMeshConv 5 64 (Some false)) (KInput 0))),
        []).
Proof.
  exact (proj1 (MResConv_forward_term 5 64 1 (MResConv_object 5 64 1)
                  (KInput 0) [] eq_refl)).
Defined.

(** The features of a stage whose residual convolution is as built. *)
Lemma cls_classifier_features (stages : list ClassifierStage) (j : nat)
    (s : ClassifierStage) (cin cout skips : Z) (x : ClsTensor)
    (m : list MeshEvent) :
  nth_error stages j = Some s ->
  cs_conv s = MResConv_object cin cout skips ->
  classifier_features ClsBackend ClsOps stages (Z.of_nat j) x m
  = Ok ((s, KRelu (sym_norm (cs_norm s) (sym_res_conv cin cout skips x))), m).
Proof.
  intros Hs Hc. unfold classifier_features.
  rewrite py_getattr_stage_nat, Hs. unfold bind at 1. simpl lift.
  cbv beta iota. rewrite Hc. unfold bind at 1.
  rewrite cls_MResConv_forward. cbv beta iota.
  unfold bind, lift, NormLayer_call, sym_norm, ret.
  destruct (nl_factory (cs_norm s)); reflexivity.
Qed.

(** A loop whose iteration [i] ends with the pooling layer of stage [i]
    leaves the pooling calls of the stages, in order. *)
Lemma cls_mfold_pools (body : Z -> ClsTensor -> M ClsBackend ClsTensor)
    (stages : list ClassifierStage) :
  (forall j s x m,
      nth_error stages j = Some s ->
      exists r, body (Z.of_nat j) x m
                = Ok (r, m ++ [Pooled (mp_target (cs_pool s))])) ->
  forall k s0 x m,
    (s0 + k <= length stages)%nat ->
    exists r,
      mfold ClsBackend body (map Z.of_nat (seq s0 k)) x m
      = Ok (r, m ++ map (fun s => Pooled (mp_target (cs_pool s)))
                        (firstn k (skipn s0 stages))).
Proof.
  intros Hbody. induction k as [| k IH]; intros s0 x m Hk.
  - exists x. simpl. rewrite app_nil_r. reflexivity.
  - destruct (nth_error stages s0) as [s |] eqn:Hs;
      [|apply nth_error_None in Hs; lia].
    destruct (Hbody s0 s x m Hs) as (r1 & Hr1).
    destruct (IH (S s0) r1 (m ++ [Pooled (mp_target (cs_pool s))]))
      as (r & Hr); [lia|].
    exists r. simpl. unfold bind at 1. rewrite Hr1, Hr.
    rewrite <- app_assoc. simpl.
    assert (E : skipn s0 stages = s :: skipn (S s0) stages).
    { clear - Hs. revert s0 Hs.
      induction stages as [| t ts IHs]; intros [| n] Hs; try discriminate Hs.
      - inversion Hs. reflexivity.
      - simpl in Hs. apply IHs in Hs. exact Hs. }
    rewrite E. reflexivity.
Qed.

Lemma pool_targets_of_schedule (stages : list ClassifierStage)
    (pool_res : list Z) (n : nat) :
  length stages = n ->
  (forall i s, nth_error stages i = Some s ->
               exists target, nth_error pool_res i = Some target /\
                              cs_pool s = mkMeshPool target) ->
  map (fun s => Pooled (mp_target (cs_pool s))) stages
  = map Pooled (firstn n pool_res).
Proof.
  intros Hlen Hnth. apply nth_error_ext. intro i.
  rewrite !nth_error_map, nth_error_firstn.
  destruct (nth_error stages i) as [s |] eqn:Hs.
  - destruct (Hnth i s Hs) as (target & Ht & Hp).
    assert (Hi : (i < n)%nat)
      by (rewrite <- Hlen; apply nth_error_Some; rewrite Hs; discriminate).
    apply Nat.ltb_lt in Hi. rewrite Hi, Ht. simpl. rewrite Hp. reflexivity.
  - apply nth_error_None in Hs. rewrite Hlen in Hs.
    apply Nat.ltb_ge in Hs. rewrite Hs. reflexivity.
Qed.

Lemma cls_classifier_tail (k : list Z) (nf0 : Z) (conv_res : list Z)
    (last_res fc_n nclasses : Z) (x : ClsTensor) :
  k = nf0 :: conv_res ->
  classifier_tail ClsBackend ClsOps k (AvgPool1d last_res)
                  (mkLinear (last conv_res nf0) fc_n) (mkLinear fc_n nclasses) x
  = Ok (sym_classifier_tail (last conv_res nf0) last_res fc_n nclasses x).
Proof.
  intros ->. unfold classifier_tail.
  destruct (py_index_last_nonempty (nf0 :: conv_res)) as (last_k & Hk);
    [discriminate|].
  rewrite (py_index_last_cons _ _ _ Hk) in Hk.
  simpl GlobalPool_call. unfold rbind at 1. rewrite Hk. reflexivity.
Qed.

(** X20. The calls a built classifier makes, on the symbolic backend.
    Both forward passes pool once per entry of [conv_res], to the first
    entries of [pool_res] in order; further entries of [pool_res] are no
    pooling target.  The window of the global average pool that follows is
    nevertheless the last entry of [[input_res] + pool_res]; its output is
    viewed in rows of [k[-1]] entries and goes through [fc1], relu and
    [fc2]. *)
Theorem classifier_forward_calls :
  (forall norm_layer nf0 conv_res nclasses input_res pool_res fc_n nresblocks
          net x m,
      MeshConvNet_init ClsBackend norm_layer nf0 conv_res nclasses input_res
                       pool_res fc_n nresblocks = Ok net ->
      exists y,
        MeshConvNet_forward ClsBackend ClsOps net x m
        = Ok (sym_classifier_tail (last conv_res nf0) (last pool_res input_res)
                                  fc_n nclasses y,
              m ++ map Pooled (firstn (length conv_res) pool_res))) /\
  (forall norm_layer nf0 conv_res nclasses input_res pool_res fc_n heads
          nresblocks a net x m,
      MeshAttentionNet_init ClsBackend norm_layer nf0 conv_res nclasses
                            input_res pool_res fc_n heads nresblocks a
      = Ok net ->
      exists y,
        MeshAttentionNet_forward ClsBackend ClsOps net x m
        = Ok (sym_classifier_tail (last conv_res nf0) (last pool_res input_res)
                                  fc_n nclasses y,
              m ++ map Pooled (firstn (length conv_res) pool_res))).
Proof.
  split.
  - intros until m. intro H. apply MeshConvNet_init_built in H.
    destruct H as (Hk & Hlen & Hnth & Hgp & Hfc1 & Hfc2).
    unfold MeshConvNet_forward.
    destruct (cls_mfold_pools (MeshConvNet_stage ClsBackend ClsOps net)
                (cn_stages net)) with (k := length (cn_stages net))
                                      (s0 := 0%nat) (x := x) (m := m)
      as (y & Hy).
    { intros j s x' m' Hs.
      destruct (Hnth j s Hs) as (ki & knext & target & _ & _ & _ & Hc & _).
      unfold MeshConvNet_stage. unfold bind.
      rewrite (cls_classifier_features _ _ _ _ _ _ _ _ Hs Hc).
      eexists. reflexivity. }
    { lia. }
    exists y. unfold bind.
    replace (py_range (len (cn_k net) - 1))
      with (map Z.of_nat (seq 0 (length (cn_stages net)))).
    2:{ unfold py_range, len. rewrite Hk, Hlen. simpl length.
        do 3 f_equal. lia. }
    change (Tensor ClsBackend) with ClsTensor in *.
    change (Meshes ClsBackend) with (list MeshEvent) in *.
    rewrite Hy. simpl skipn. rewrite firstn_all.
    rewrite (pool_targets_of_schedule (cn_stages net) pool_res
               (length conv_res) Hlen).
    2:{ intros i s Hs.
        destruct (Hnth i s Hs) as (ki & knext & target & _ & _ & Ht & _ & _
                                   & _ & _ & Hp).
        eauto. }
    unfold lift. rewrite Hgp, Hfc1, Hfc2.
    rewrite (cls_classifier_tail _ nf0 conv_res _ _ _ _ Hk). reflexivity.
  - intros until m. intro H. apply MeshAttentionNet_init_built in H.
    destruct H as (Hk & Hlen & Hnth & _ & _ & _ & _ & Hgp & Hfc1 & Hfc2).
    unfold MeshAttentionNet_forward.
    destruct (cls_mfold_pools (MeshAttentionNet_stage ClsBackend ClsOps net)
                (an_stages net)) with (k := length (an_stages net))
                                      (s0 := 0%nat) (x := x) (m := m)
      as (y & Hy).
    { intros j s x' m' Hs.
      destruct (Hnth j s Hs)
        as (_ & ki & knext & target & _ & _ & _ & Hc & _ & _
            & (head_size & _ & _ & Hatt) & _).
      unfold MeshAttentionNet_stage. unfold bind at 1.
      rewrite (cls_classifier_features _ _ _ _ _ _ _ _ Hs Hc).
      rewrite Hatt. unfold bind, lift, ret. simpl.
      destruct (truthy (an_double_attention net)); eexists; reflexivity. }
    { lia. }
    exists y. unfold bind.
    replace (py_range (len (an_k net) - 1))
      with (map Z.of_nat (seq 0 (length (an_stages net)))).
    2:{ unfold py_range, len. rewrite Hk, Hlen. simpl length.
        do 3 f_equal. lia. }
    change (Tensor ClsBackend) with ClsTensor in *.
    change (Meshes ClsBackend) with (list MeshEvent) in *.
    rewrite Hy. simpl skipn. rewrite firstn_all.
    rewrite (pool_targets_of_schedule (an_stages net) pool_res
               (length conv_res) Hlen).
    2:{ intros i s Hs.
        destruct (Hnth i s Hs)
          as (_ & ki & knext & target & _ & _ & Ht & _ & _ & _ & _ & Hp).
        eauto. }
    unfold lift. rewrite Hgp, Hfc1, Hfc2.
    rewrite (cls_classifier_tail _ nf0 conv_res _ _ _ _ Hk). reflexivity.
Qed.

Lemma classifier_forward_calls_witness :
  exists net y,
    MeshConvNet_init ClsBackend (PartialGroupNorm 16) 5 [64; 128] 30 750
                     [600; 450; 300; 180] 100 1 = Ok net /\
    MeshConvNet_forward ClsBackend ClsOps net (KInput 0) []
    = Ok (sym_classifier_tail 128 180 100 30 y, [Pooled 600; Pooled 450]).
Proof.
  eexists.
  destruct (proj1 classifier_forward_calls (PartialGroupNorm 16) 5 [64; 128]
              30 750 [600; 450; 300; 180] 100 1 _ (KInput 0) [] eq_refl)
    as (y & Hy).
  exists y. split; [reflexivity | exact Hy].
Defined.

(** X21. One iteration of the loops of the classifiers, on the symbolic
    backend, for a stage whose residual convolution is as built.  Both
    apply the residual convolution, the normalisation layer and relu, in
    this order.  [MeshConvNet] pools the result without priorities.
    [MeshAttentionNet] pools the output of a first attention pass over it;
    the flags only choose the priorities: none without
    [prioritize_with_attention], else the per-edge attention of the first
    pass, or with double attention that of a second pass over a detached
    copy of the output of the first. *)
Theorem classifier_stage_terms :
  forall (stages : list ClassifierStage) (j : nat) (s : ClassifierStage)
         (cin cout skips : Z) (x : ClsTensor) (m : list MeshEvent),
    nth_error stages j = Some s ->
    cs_conv s = MResConv_object cin cout skips ->
    let y := KRelu (sym_norm (cs_norm s) (sym_res_conv cin cout skips x)) in
    (forall net,
        cn_stages net = stages ->
        MeshConvNet_stage ClsBackend ClsOps net (Z.of_nat j) x m
        = Ok (KMeshPool (cs_pool s) y None,
              m ++ [Pooled (mp_target (cs_pool s))])) /\
    (forall net a,
        an_stages net = stages ->
        cs_attention s = Some a ->
        MeshAttentionNet_stage ClsBackend ClsOps net (Z.of_nat j) x m
        = Ok (KMeshPool (cs_pool s) (KAttnFeatures a y)
                        (cls_edge_priorities net a y),
              m ++ [Pooled (mp_target (cs_pool s))])) /\
    (forall net,
        an_stages net = stages ->
        cs_attention s = None ->
        MeshAttentionNet_stage ClsBackend ClsOps net (Z.of_nat j) x m
        = Err (AttributeError (indexed_name "attention" (Z.of_nat j)))).
Proof.
  intros stages j s cin cout skips x m Hs Hc y.
  split; [|split].
  - intros net Hnet. unfold MeshConvNet_stage. unfold bind.
    rewrite Hnet, (cls_classifier_features _ _ _ _ _ _ _ _ Hs Hc).
    reflexivity.
  - intros net a Hnet Ha. unfold MeshAttentionNet_stage. unfold bind at 1.
    rewrite Hnet, (cls_classifier_features _ _ _ _ _ _ _ _ Hs Hc).
    rewrite Ha. unfold cls_edge_priorities, bind, lift, ret. simpl.
    destruct (truthy (an_double_attention net));
      destruct (truthy (an_prioritize_with_attention net)); reflexivity.
  - intros net Hnet Ha. unfold MeshAttentionNet_stage. unfold bind at 1.
    rewrite Hnet, (cls_classifier_features _ _ _ _ _ _ _ _ Hs Hc).
    rewrite Ha. reflexivity.
Qed.

Lemma classifier_stage_terms_witness :
  exists net s,
    MeshAttentionNet_init ClsBackend NoNormClass 5 [64] 30 750 [600] 100 4 0
      (mkAttnArgs (Some 4) None None (Some true) (Some true) (Some true) None
                  None) = Ok net /\
    nth_error (an_stages net) 0 = Some s /\
    exists a y,
      MeshAttentionNet_stage ClsBackend ClsOps net 0 (KInput 0) []
      = Ok (KMeshPool (mkMeshPool 600) (KAttnFeatures a y)
                      (Some (KAttnPerEdge a (KDetach (KAttnFeatures a y)))),
            [Pooled 600]).
Proof.
  eexists. eexists. split; [reflexivity|]. split; [reflexivity|].
  eexists. eexists.
  match goal with
  | |- MeshAttentionNet_stage _ _ ?net _ _ _ = _ =>
      destruct (classifier_stage_terms (an_stages net) 0 _ 5 64 0 (KInput 0) []
                  eq_refl eq_refl) as (_ & H & _);
      exact (H net _ eq_refl eq_refl)
  end.
Defined.

(** ** The up-convolution stage with attention *)

Lemma unpack_three_ok {V : Type} (values : list V) (a b c : V) :
  unpack_three values = Ok (a, b, c) <-> values = [a; b; c].
Proof.
  split.
  - destruct values as [| x [| y [| z [| w rest]]]]; unfold unpack_three;
      intro H;
      try (destruct (3 <? _); discriminate H).
    inversion H. reflexivity.
  - intros ->. reflexivity.
Qed.

Lemma unpack_three_longer {V : Type} (values : list V) :
  (3 < length values)%nat ->
  unpack_three values
  = Err (ValueError "too many values to unpack (expected 3)").
Proof.
  intro H.
  destruct values as [| x [| y [| z [| w rest]]]]; simpl in H; try lia.
  unfold unpack_three.
  destruct (Z.ltb_spec 3 (len (x :: y :: z :: w :: rest))) as [_ | Hle];
    [reflexivity|].
  unfold len in Hle. simpl length in Hle. lia.
Qed.

(** X22. [UpConvWithAttention.forward] unpacks three values from the
    call of its attention layer, after the inherited forward pass.  It
    returns exactly when both return and the attention layer has returned
    a tuple of three values, of which it returns the first.  For a tuple
    of more than three values it raises the value error of the unpacking.
    The other call sites of the module, [MeshAttentionNet.forward] and
    [DownConvWithAttention.forward], unpack four values from the same
    layer: with the attention layer of the backend, which returns these
    four, the forward pass never returns. *)
Theorem UpConvWithAttention_forward_raises :
  forall (B : Backend) (u : UpConvWithAttention) (from_up : Tensor B)
         (from_down : option (Tensor B)) (meshes : Meshes B),
    (forall attention_call v m',
        UpConvWithAttention_forward B attention_call u from_up from_down meshes
        = Ok (v, m')
        <-> exists x2 m1 b c,
              UpConv_forward B (uca_base u) from_up from_down meshes
              = Ok (x2, m1) /\
              attention_call (uca_attention u) x2 m1 = Ok ([v; b; c], m')) /\
    (forall attention_call x2 m1 values m2,
        UpConv_forward B (uca_base u) from_up from_down meshes = Ok (x2, m1) ->
        attention_call (uca_attention u) x2 m1 = Ok (values, m2) ->
        (3 < length values)%nat ->
        UpConvWithAttention_forward B attention_call u from_up from_down meshes
        = Err (ValueError "too many values to unpack (expected 3)")) /\
    is_ok (UpConvWithAttention_forward B (backend_attention B) u from_up
                                       from_down meshes) = false /\
    (forall x2 m1,
        UpConv_forward B (uca_base u) from_up from_down meshes = Ok (x2, m1) ->
        is_ok (MeshAttention_call B (uca_attention u) x2 None m1) = true ->
        UpConvWithAttention_forward B (backend_attention B) u from_up
                                    from_down meshes
        = Err (ValueError "too many values to unpack (expected 3)")).
Proof.
  intros B u from_up from_down meshes.
  assert (Hlong : forall attention_call x2 m1 values m2,
             UpConv_forward B (uca_base u) from_up from_down meshes
             = Ok (x2, m1) ->
             attention_call (uca_attention u) x2 m1 = Ok (values, m2) ->
             (3 < length values)%nat ->
             UpConvWithAttention_forward B attention_call u from_up from_down
                                         meshes
             = Err (ValueError "too many values to unpack (expected 3)")).
  { intros attention_call x2 m1 values m2 Hbase Hatt Hlen.
    unfold UpConvWithAttention_forward, bind, lift. rewrite Hbase, Hatt.
    rewrite (unpack_three_longer values Hlen). reflexivity. }
  assert (Hfour : forall x2 m1,
             UpConv_forward B (uca_base u) from_up from_down meshes
             = Ok (x2, m1) ->
             is_ok (MeshAttention_call B (uca_attention u) x2 None m1) = true ->
             UpConvWithAttention_forward B (backend_attention B) u from_up
                                         from_down meshes
             = Err (ValueError "too many values to unpack (expected 3)")).
  { intros x2 m1 Hbase Hatt.
    destruct (MeshAttention_call B (uca_attention u) x2 None m1)
      as [[[[[x attn] ape] dist] m2] | e] eqn:E; [|discriminate Hatt].
    apply (Hlong (backend_attention B) x2 m1
                 (attention_tuple B (x, attn, ape, dist)) m2 Hbase).
    - unfold backend_attention. rewrite E. reflexivity.
    - simpl. lia. }
  split; [|split; [|split]].
  - intros attention_call v m'. unfold UpConvWithAttention_forward.
    split.
    + intro H. apply (bind_ok B) in H. destruct H as (x2 & m1 & Hbase & H).
      apply (bind_ok B) in H. destruct H as (values & m2 & Hatt & H).
      apply (bind_ok B) in H. destruct H as ([[a b] c] & m3 & Hun & H).
      apply (lift_ok B) in Hun. destruct Hun as [Hun ->].
      apply unpack_three_ok in Hun. subst values.
      inversion H; subst. exists x2, m1, b, c. auto.
    + intros (x2 & m1 & b & c & Hbase & Hatt).
      unfold bind, lift. rewrite Hbase, Hatt. reflexivity.
  - exact Hlong.
  - destruct (UpConv_forward B (uca_base u) from_up from_down meshes)
      as [[x2 m1] | e] eqn:Hbase.
    + destruct (MeshAttention_call B (uca_attention u) x2 None m1)
        as [r | e] eqn:Hatt.
      * rewrite (Hfour x2 m1 eq_refl); [reflexivity|].
        rewrite Hatt. reflexivity.
      * unfold UpConvWithAttention_forward, bind, backend_attention.
        rewrite Hbase, Hatt. reflexivity.
    + unfold UpConvWithAttention_forward, bind. rewrite Hbase. reflexivity.
  - exact Hfour.
Qed.

Lemma UpConvWithAttention_forward_raises_witness :
  exists u,
    UpConv_init SymBackend 64 32 0 600 true true true = Ok u /\
    forall a,
      UpConvWithAttention_forward SymBackend (backend_attention SymBackend)
        (mkUpConvWithAttention u a) (SInput 0) (Some (SInput 1)) []
      = Err (ValueError "too many values to unpack (expected 3)").
Proof.
  eexists. split; [reflexivity|]. intro a.
  match goal with
  | |- UpConvWithAttention_forward _ _ ?u _ _ _ = _ =>
      destruct (UpConvWithAttention_forward_raises SymBackend u (SInput 0)
                  (Some (SInput 1)) []) as (_ & _ & _ & H)
  end.
  exact (H _ _ eq_refl eq_refl).
Defined.
